(** * mcgo: authentication flow and timed name claim

    A shallow embedding of the two copies of [account.go] of the [mcgo]
    package: [src/account.go] (module [AccountGo]) and the copy that
    follows the test file in [src/unnamed/part_000] (module [Part000]).

    Go library calls that reach outside the process (the HTTP client, the
    TLS connection, the clock) are primitive operations of a small
    state-and-panic monad.  Their answers come from a [World]; every call
    is appended to a trace, so that statements about what was sent, and
    when, are statements about that trace. *)

From Stdlib Require Import ZArith List String Ascii Bool Lia DecimalString.
Import ListNotations.
Local Open Scope string_scope.
Local Open Scope list_scope.

(** ** Go strings and byte slices

    A Go [string] is a sequence of bytes; so is [string] here (one [ascii]
    per byte), and [len] is [String.length]. *)

Module GoString.

Definition chr (n : nat) : string := String (ascii_of_nat n) EmptyString.

(** The double quote, carriage return, line feed and tab. *)
Definition DQ : string := chr 34.
Definition CR : string := chr 13.
Definition LF : string := chr 10.
Definition TAB : string := chr 9.
Definition CRLF : string := CR ++ LF.

(** [s[:n]] and [s[n:]] for [0 <= n <= len(s)] (the callers check the
    bounds, as the Go runtime does). *)
Fixpoint take (n : nat) (s : string) : string :=
  match n, s with
  | S n', String c r => String c (take n' r)
  | _, _ => EmptyString
  end.

Fixpoint drop (n : nat) (s : string) : string :=
  match n, s with
  | S n', String _ r => drop n' r
  | _, _ => s
  end.

(** [fmt.Sprintf("%d", n)] for a non-negative [int]. *)
Definition itoa (n : nat) : string := NilEmpty.string_of_uint (Nat.to_uint n).

(** [make([]byte, n)], then a read that delivered [input]: the first
    [n] bytes of [input] are stored, the rest of the buffer stays zero. *)
Definition zero_byte : ascii := ascii_of_nat 0.

Definition fill (n : nat) (input : list ascii) : list ascii :=
  (firstn n input ++ repeat zero_byte (n - List.length (firstn n input)))%list.

(** [string(b[lo:hi])] for [lo <= hi <= len(b)]. *)
Definition slice (b : list ascii) (lo hi : nat) : string :=
  string_of_list_ascii (firstn (hi - lo) (skipn lo b)).

End GoString.
Import GoString.

(** ** package [time]

    An instant is a number of nanoseconds on the proleptic time line that
    starts at January 1, year 1, 00:00:00 UTC, which is the zero value
    [time.Time{}].  A [Duration] is an [int64] number of nanoseconds. *)

Module GoTime.

Definition Time := Z.
Definition Duration := Z.

Definition zeroTime : Time := 0%Z.

Definition minDuration : Duration := (- 2 ^ 63)%Z.
Definition maxDuration : Duration := (2 ^ 63 - 1)%Z.
Definition Second : Duration := 1000000000%Z.

(** Arithmetic on [int64] wraps around. *)
Definition wrap64 (z : Z) : Z := ((z + 2 ^ 63) mod 2 ^ 64 - 2 ^ 63)%Z.

Definition dur_sub (a b : Duration) : Duration := wrap64 (a - b).
Definition dur_mul (a b : Duration) : Duration := wrap64 (a * b).

(** [t.Sub(u)]: "if the result exceeds the maximum (or minimum) value
    that can be stored in a Duration, the maximum (or minimum) duration
    will be returned". *)
Definition Sub (t u : Time) : Duration :=
  let d := (t - u)%Z in
  if (d <? minDuration)%Z then minDuration
  else if (maxDuration <? d)%Z then maxDuration
  else d.

(** [t.After(u)]. *)
Definition After (t u : Time) : bool := (u <? t)%Z.

(** [time.Sleep(d)]: "a negative or zero duration causes Sleep to return
    immediately"; otherwise the goroutine is suspended for [d]. *)
Definition suspends (d : Duration) : bool := (0 <? d)%Z.

End GoTime.
Import GoTime.

(** ** Errors *)

(** An error value made outside the package, by [net/http], [crypto/tls],
    [io] or [encoding/json]: where it comes from and what it says. *)
Record foreign : Type := mkForeign {
  origin : string;
  message : string
}.

Inductive error : Type :=
| errors_New (text : string)
    (** [errors.New(text)] and [fmt.Errorf] of this package *)
| RequestError (StatusCode : Z) (Err : error)
    (** [&RequestError{StatusCode, Err}] *)
| NumError (Func Num Err : string)
    (** [*strconv.NumError] *)
| LibError (e : foreign)
    (** an error of another package, handed on as it is *).

(** ** package [strconv] *)

Module Strconv.

Definition is_digit (c : ascii) : bool :=
  ((48 <=? nat_of_ascii c) && (nat_of_ascii c <=? 57))%nat.

(** The loop [n = n*10 + int(ch - '0')], failing on the first byte that
    is not a digit. *)
Fixpoint digits (s : string) (n : Z) : option Z :=
  match s with
  | EmptyString => Some n
  | String ch r =>
      if is_digit ch
      then digits r (n * 10 + Z.of_nat (nat_of_ascii ch - 48))%Z
      else None
  end.

Definition has_sign (s : string) : bool :=
  match s with
  | String c _ => ((nat_of_ascii c =? 45) || (nat_of_ascii c =? 43))%nat
  | EmptyString => false
  end.

Definition is_minus (s : string) : bool :=
  match s with
  | String c _ => (nat_of_ascii c =? 45)%nat
  | EmptyString => false
  end.

Definition syntaxError (s : string) : error := NumError "Atoi" s "invalid syntax".
Definition rangeError (s : string) : error := NumError "Atoi" s "value out of range".

(** [strconv.Atoi]: an optional sign, then one or more decimal digits.
    A value outside [int] (64 bits) gives the nearest bound and a range
    error. *)
Definition Atoi (s0 : string) : Z * option error :=
  let s := if has_sign s0 then drop 1 s0 else s0 in
  match s with
  | EmptyString => (0%Z, Some (syntaxError s0))
  | String _ _ =>
      match digits s 0 with
      | None => (0%Z, Some (syntaxError s0))
      | Some n =>
          let v := if is_minus s0 then (- n)%Z else n in
          if (v <? - 2 ^ 63)%Z then ((- 2 ^ 63)%Z, Some (rangeError s0))
          else if (2 ^ 63 - 1 <? v)%Z then ((2 ^ 63 - 1)%Z, Some (rangeError s0))
          else (v, None)
      end
  end.

End Strconv.
Import Strconv.

(** ** The data model shared by both copies *)

Module Mcgo.

Definition AccType := string.

Record SqAnswer : Type := mkSqAnswer {
  Answer_ID : Z;
  Question_ID : Z;
  Question_Question : string
}.

(** represents a minecraft account *)
Record MCaccount : Type := mkMCaccount {
  Email : string;
  Password : string;
  SecurityQuestions : list SqAnswer;
  SecurityAnswers : list string;
  Bearer : string;
  UUID : string;
  Username : string;
  Type_ : AccType;
  Authenticated : bool
}.

(** [MCaccount{}] *)
Definition zeroMCaccount : MCaccount :=
  mkMCaccount EmptyString EmptyString [] [] EmptyString EmptyString
              EmptyString EmptyString false.

(** The fields of [authenticateReqResp] that the code reads. *)
Record authenticateReqResp : Type := mkAuthResp {
  User_Username : string;
  User_ID : string;
  Accesstoken : string;
  Clienttoken : string
}.

Record submitPostJson : Type := mkSubmit {
  ID : Z;
  Answer : string
}.

(** An HTTP request body: none, literal bytes, or the JSON encoding of
    the answers ([json.Marshal] cannot fail on a slice of
    [submitPostJson]). *)
Inductive body : Type :=
| NoBody
| BodyBytes (b : string)
| BodyAnswers (l : list submitPostJson).

Record Request : Type := mkRequest {
  Method : string;
  URL : string;
  Header : list (string * string);
  Body : body
}.

(** What [http.Client.Do] hands back: the numeric status, the status
    text, and what [ioutil.ReadAll(resp.Body)] will give. *)
Record Response : Type := mkResponse {
  resp_StatusCode : Z;
  resp_Status : string;
  resp_Body : string + foreign
}.

End Mcgo.
Import Mcgo.

(** ** The outside world, the trace and the monad *)

Module Runtime.

(** [*tls.Conn]: [tls.Dial] returns the nil pointer together with its
    error, a live connection otherwise. *)
Inductive Conn : Type := nilConn | liveConn.

Inductive event : Type :=
| EvCall (method : string)       (** entry into a method of the package *)
| EvNow (t : Time)               (** the clock was read *)
| EvSleep (d : Duration)         (** [time.Sleep(d)] *)
| EvDo (req : Request)           (** [http.Client.Do(req)] *)
| EvDial (network addr : string) (** [tls.Dial(network, addr, nil)] *)
| EvWrite (b : string)           (** [conn.Write(b)] *)
| EvRead (cap : nat)             (** [conn.Read(buf)], [len(buf) = cap] *)
| EvClose                        (** [conn.Close()] *).

(** What [http.Client.Do] returns: a response and a nil error; a nil
    response and an error; or, when the redirect policy gives up, the last
    response together with an error. *)
Inductive DoResult : Type :=
| DoOk (resp : Response)
| DoFailed (err : foreign)
| DoRedirectFailed (resp : Response) (err : foreign).

Definition Do_resp (r : DoResult) : option Response :=
  match r with
  | DoOk resp => Some resp
  | DoFailed _ => None
  | DoRedirectFailed resp _ => Some resp
  end.

Definition Do_err (r : DoResult) : option error :=
  match r with
  | DoOk _ => None
  | DoFailed err => Some (LibError err)
  | DoRedirectFailed _ err => Some (LibError err)
  end.

(** Everything the program does not decide: the successive readings of
    the clock, the outcome of the n-th HTTP exchange, of the TLS dial
    and of the read, and the two JSON decoders ([json.Unmarshal] gives
    the decoded value, possibly partial, and its error). *)
Record World : Type := mkWorld {
  clock : nat -> Time;
  http_Do_result : nat -> Request -> DoResult;
  tls_Dial_result : option foreign;
  conn_Read_input : list ascii;
  Unmarshal_authenticateReqResp : string -> authenticateReqResp * option foreign;
  Unmarshal_SqAnswers : string -> list SqAnswer * option foreign
}.

Record State : Type := mkState {
  acct : MCaccount;    (** the receiver, [*account] *)
  ticks : nat;         (** clock readings taken so far *)
  exchanges : nat;     (** HTTP exchanges made so far *)
  trace : list event   (** what happened, oldest first *)
}.

Definition init (a : MCaccount) : State := mkState a 0 0 [].

(** A run either returns a value or panics; both leave a state. *)
Inductive outcome (A : Type) : Type :=
| Returned (a : A) (s : State)
| Panicked (why : string) (s : State).
Arguments Returned {A} a s.
Arguments Panicked {A} why s.

Definition M (A : Type) : Type := State -> outcome A.

Definition ret {A} (a : A) : M A := fun s => Returned a s.

Definition bind {A B} (m : M A) (k : A -> M B) : M B :=
  fun s =>
    match m s with
    | Returned a s' => k a s'
    | Panicked why s' => Panicked why s'
    end.

Definition panic {A} (why : string) : M A := fun s => Panicked why s.

Definition final {A} (o : outcome A) : State :=
  match o with
  | Returned _ s => s
  | Panicked _ s => s
  end.

Definition returned {A} (o : outcome A) : option A :=
  match o with
  | Returned a _ => Some a
  | Panicked _ _ => None
  end.

Definition log (e : event) : M unit :=
  fun s => Returned tt (mkState (acct s) (ticks s) (exchanges s) (trace s ++ [e])%list).

Definition call (method : string) : M unit := log (EvCall method).

Definition get_account : M MCaccount := fun s => Returned (acct s) s.

Definition set_account (a : MCaccount) : M unit :=
  fun s => Returned tt (mkState a (ticks s) (exchanges s) (trace s)).

Definition nil_dereference : string :=
  "invalid memory address or nil pointer dereference".

End Runtime.
Import Runtime.

Declare Scope go_scope.
Delimit Scope go_scope with go.
Notation "x <- m ;; k" := (bind m (fun x => k))
  (at level 100, m at next level, right associativity) : go_scope.
Notation "' p <- m ;; k" := (bind m (fun p => k))
  (at level 100, p pattern, m at next level, right associativity) : go_scope.
Notation "m ;; k" := (bind m (fun _ => k))
  (at level 100, right associativity) : go_scope.

(** ** The primitive operations *)

Section Primitives.

Variable w : World.
Local Open Scope go_scope.

(** [time.Now()] *)
Definition time_Now : M Time :=
  fun s =>
    let t := clock w (ticks s) in
    Returned t (mkState (acct s) (S (ticks s)) (exchanges s) (trace s ++ [EvNow t])%list).

(** [time.Until(t)], that is [t.Sub(time.Now())] *)
Definition time_Until (t : Time) : M Duration :=
  now <- time_Now ;; ret (Sub t now).

(** [time.Sleep(d)] *)
Definition time_Sleep (d : Duration) : M unit := log (EvSleep d).

(** [http.DefaultClient.Do(req)], as the pair [(resp, err)] *)
Definition http_Do (req : Request) : M (option Response * option error) :=
  fun s =>
    let r := http_Do_result w (exchanges s) req in
    Returned (Do_resp r, Do_err r)
             (mkState (acct s) (ticks s) (S (exchanges s)) (trace s ++ [EvDo req])%list).

(** Reading a field of [resp]: a nil pointer panics. *)
Definition deref (resp : option Response) : M Response :=
  match resp with
  | None => panic nil_dereference
  | Some r => ret r
  end.

(** [tls.Dial(network, addr, nil)] *)
Definition tls_Dial (network addr : string) : M (Conn * option error) :=
  log (EvDial network addr) ;;
  match tls_Dial_result w with
  | Some err => ret (nilConn, Some (LibError err))
  | None => ret (liveConn, None)
  end.

(** [conn.Write(b)]; its results are discarded by every caller.  The
    method reads a field of its receiver first, which panics on the nil
    pointer. *)
Definition conn_Write (conn : Conn) (b : string) : M unit :=
  match conn with
  | nilConn => panic nil_dereference
  | liveConn => log (EvWrite b)
  end.

(** [conn.Read(buf)] on a fresh [buf := make([]byte, cap)]; gives the
    buffer after the call. *)
Definition conn_Read (conn : Conn) (cap : nat) : M (list ascii) :=
  match conn with
  | nilConn => panic nil_dereference
  | liveConn => log (EvRead cap) ;; ret (fill cap (conn_Read_input w))
  end.

(** [conn.Close()] *)
Definition conn_Close (conn : Conn) : M unit :=
  match conn with
  | nilConn => panic nil_dereference
  | liveConn => log EvClose
  end.

End Primitives.

(** ** What both copies share: field assignment, requests, payloads *)

Module Shared.

(** [account.F = v], one function per assigned field. *)
Definition assign_Bearer (v : string) (a : MCaccount) : MCaccount :=
  mkMCaccount (Email a) (Password a) (SecurityQuestions a) (SecurityAnswers a)
              v (UUID a) (Username a) (Type_ a) (Authenticated a).

Definition assign_Username (v : string) (a : MCaccount) : MCaccount :=
  mkMCaccount (Email a) (Password a) (SecurityQuestions a) (SecurityAnswers a)
              (Bearer a) (UUID a) v (Type_ a) (Authenticated a).

Definition assign_UUID (v : string) (a : MCaccount) : MCaccount :=
  mkMCaccount (Email a) (Password a) (SecurityQuestions a) (SecurityAnswers a)
              (Bearer a) v (Username a) (Type_ a) (Authenticated a).

Definition assign_SecurityQuestions (v : list SqAnswer) (a : MCaccount) : MCaccount :=
  mkMCaccount (Email a) (Password a) v (SecurityAnswers a)
              (Bearer a) (UUID a) (Username a) (Type_ a) (Authenticated a).

Definition assign_Authenticated (v : bool) (a : MCaccount) : MCaccount :=
  mkMCaccount (Email a) (Password a) (SecurityQuestions a) (SecurityAnswers a)
              (Bearer a) (UUID a) (Username a) (Type_ a) v.

Definition assign (f : MCaccount -> MCaccount) : M unit :=
  fun s => Returned tt (mkState (f (acct s)) (ticks s) (exchanges s) (trace s)).

(** [http.NewRequest(method, url, body)].  It fails on a method that is
    not a token or a URL that does not parse; every call of the package
    passes a literal method and a literal URL of the provider, so the
    request is always built. *)
Definition http_NewRequest (method url : string) (b : body) : Request :=
  mkRequest method url [] b.

(** [req.Header.Add(k, v)] and [req.Header.Set(k, v)] on a request whose
    header has no key [k] yet. *)
Definition Header_Add (k v : string) (r : Request) : Request :=
  mkRequest (Method r) (URL r) (Header r ++ [(k, v)])%list (Body r).

(** The body of the credential exchange:
    [fmt.Sprintf] of the raw literal with the email and the password. *)
Definition authenticate_payload (email password : string) : string :=
  "{" ++ LF ++ "    " ++ DQ ++ "agent" ++ DQ ++ ": {                              " ++ LF
  ++ "        " ++ DQ ++ "name" ++ DQ ++ ": " ++ DQ ++ "Minecraft" ++ DQ ++ ",                " ++ LF
  ++ "        " ++ DQ ++ "version" ++ DQ ++ ": 1                        " ++ LF
  ++ "    }," ++ LF
  ++ "    " ++ DQ ++ "username" ++ DQ ++ ": " ++ DQ ++ email ++ DQ ++ ",      " ++ LF
  ++ "    " ++ DQ ++ "password" ++ DQ ++ ": " ++ DQ ++ password ++ DQ ++ "," ++ LF
  ++ TAB ++ DQ ++ "requestUser" ++ DQ ++ ": true" ++ LF ++ "}".

(** [fmt.Sprintf(`{"profileName": "%s"}`, username)] *)
Definition profileName_json (username : string) : string :=
  "{" ++ DQ ++ "profileName" ++ DQ ++ ": " ++ DQ ++ username ++ DQ ++ "}".

(** The loop of [submitAnswers]: the i-th question's answer id with the
    i-th answer; [answers[i]] panics when [i] is out of range. *)
Fixpoint pair_answers (qs : list SqAnswer) (answers : list string) (i : nat)
  : option (list submitPostJson) :=
  match qs with
  | [] => Some []
  | sq :: rest =>
      match nth_error answers i, pair_answers rest answers (S i) with
      | Some a, Some l => Some (mkSubmit (Answer_ID sq) a :: l)
      | _, _ => None
      end
  end.

Definition index_out_of_range : string := "index out of range".
Definition slice_out_of_range : string := "slice bounds out of range".

(** [time.Second*20] *)
Definition lead : Duration := dur_mul Second 20%Z.

End Shared.
Import Shared.

(** ** The copy in [src/unnamed/part_000] *)

Module Part000.

Record NameChangeReturn : Type := mkNameChangeReturn {
  Account : MCaccount;
  Username : string;
  ChangedName : bool;
  StatusCode : Z;
  SendTime : Time;
  ReceiveTime : Time
}.

Section WithWorld.

Variable w : World.
Local Open Scope go_scope.

Definition AuthenticatedReq (method url : string) (b : body) : M (Request + error) :=
  call "AuthenticatedReq" ;;
  let req := http_NewRequest method url b in
  account <- get_account ;;
  if String.eqb (Bearer account) EmptyString
  then ret (inr (errors_New "account is not authenticated"))
  else
    let req := Header_Add "Authorization" ("Bearer " ++ Bearer account) req in
    let req := Header_Add "Content-Type" "application/json" req in
    ret (inl req).

Definition authenticate : M (option error) :=
  call "authenticate" ;;
  account <- get_account ;;
  let payload := authenticate_payload (Email account) (Password account) in
  let request :=
    http_NewRequest "POST" "https://authserver.mojang.com/authenticate" (BodyBytes payload) in
  let request := Header_Add "Content-Type" "application/json" request in
  ' (resp, err) <- http_Do w request ;;
  match err with
  | Some err => ret (Some err)
  | None =>
      resp <- deref resp ;;
      if (resp_StatusCode resp <? 300)%Z then
        match resp_Body resp with
        | inr err => ret (Some (LibError err))
        | inl b =>
            let (AccountInfo, err) := Unmarshal_authenticateReqResp w b in
            match err with
            | Some err => ret (Some (LibError err))
            | None =>
                assign (assign_Bearer (Accesstoken AccountInfo)) ;;
                assign (assign_Username (User_Username AccountInfo)) ;;
                assign (assign_UUID (User_ID AccountInfo)) ;;
                ret None
            end
        end
      else if (resp_StatusCode resp =? 403)%Z then
        ret (Some (errors_New "invalid email or password"))
      else
        ret (Some (errors_New
          "reached end of authenticate function! Shouldn't be possible. most likely 'failed to auth' status code changed"))
  end.

Definition loadSecurityQuestions : M (option error) :=
  call "loadSecurityQuestions" ;;
  r <- AuthenticatedReq "GET" "https://api.mojang.com/user/security/challenges" NoBody ;;
  match r with
  | inr err => ret (Some err)
  | inl req =>
      ' (resp, err) <- http_Do w req ;;
      match err with
      | Some err => ret (Some err)
      | None =>
          resp <- deref resp ;;
          if (400 <=? resp_StatusCode resp)%Z then
            ret (Some (errors_New
              ("got status " ++ resp_Status resp ++ " when requesting security questions")))
          else
            match resp_Body resp with
            | inr err => ret (Some (LibError err))
            | inl respBytes =>
                let (sqAnswers, err) := Unmarshal_SqAnswers w respBytes in
                match err with
                | Some err => ret (Some (LibError err))
                | None =>
                    assign (assign_SecurityQuestions sqAnswers) ;;
                    ret None
                end
            end
      end
  end.

Definition needToAnswer : M (bool * option error) :=
  call "needToAnswer" ;;
  r <- AuthenticatedReq "GET" "https://api.mojang.com/user/security/location" NoBody ;;
  match r with
  | inr err => ret (false, Some err)
  | inl req =>
      ' (resp, err) <- http_Do w req ;;
      match err with
      | Some err => ret (true, Some err)
      | None =>
          resp <- deref resp ;;
          if (resp_StatusCode resp =? 204)%Z then ret (false, None)
          else if (resp_StatusCode resp =? 403)%Z then ret (true, None)
          else ret (true, Some (errors_New
                 ("status of " ++ resp_Status resp ++ " in needToAnswer not expected")))
      end
  end.

Definition submitAnswers : M (option error) :=
  call "submitAnswers" ;;
  account <- get_account ;;
  if negb (List.length (SecurityAnswers account) =? 3)%nat then
    ret (Some (errors_New "not enough security question answers provided"))
  else if negb (List.length (SecurityQuestions account) =? 3)%nat then
    ret (Some (errors_New "security questions not properly loaded"))
  else
    match pair_answers (SecurityQuestions account) (SecurityAnswers account) 0 with
    | None => panic index_out_of_range
    | Some jsonContent =>
        r <- AuthenticatedReq "POST" "https://api.mojang.com/user/security/location"
                              (BodyAnswers jsonContent) ;;
        match r with
        | inr err => ret (Some err)
        | inl req =>
            ' (resp, err) <- http_Do w req ;;
            match err with
            | Some err => ret (Some err)
            | None =>
                resp <- deref resp ;;
                if (resp_StatusCode resp =? 204)%Z then ret None
                else if (resp_StatusCode resp =? 403)%Z then
                  ret (Some (errors_New "at least one security question answer was incorrect"))
                else
                  ret (Some (errors_New
                    ("got status " ++ resp_Status resp ++ " on post request for sqs")))
            end
        end
    end.

(** Runs all steps necessary to have a fully authenticated mojang
    account. *)
Definition MojangAuthenticate : M (option error) :=
  call "MojangAuthenticate" ;;
  err <- authenticate ;;
  match err with
  | Some err => ret (Some err)
  | None =>
      err <- loadSecurityQuestions ;;
      match err with
      | Some err => ret (Some err)
      | None =>
          account <- get_account ;;
          if (List.length (SecurityQuestions account) =? 0)%nat then
            assign (assign_Authenticated true) ;;
            ret None
          else
            ' (answerNeeded, err) <- needToAnswer ;;
            match err with
            | Some err => ret (Some err)
            | None =>
                if negb answerNeeded then
                  assign (assign_Authenticated true) ;;
                  ret None
                else
                  err <- submitAnswers ;;
                  match err with
                  | Some err => ret (Some err)
                  | None =>
                      assign (assign_Authenticated true) ;;
                      ret None
                  end
            end
      end
  end.

(** [payload[:len(payload)-2]] and [payload[len(payload)-2:]]; the
    slice expression panics when [len(payload) < 2]. *)
Definition all_but_last2 (payload : string) : M string :=
  if (String.length payload <? 2)%nat then panic slice_out_of_range
  else ret (take (String.length payload - 2) payload).

Definition last2 (payload : string) : M string :=
  if (String.length payload <? 2)%nat then panic slice_out_of_range
  else ret (drop (String.length payload - 2) payload).

(** [len(recvd)] after [recvd := make([]byte, 4096)] *)
Definition recvd_len : nat := 4096.

Definition ChangeName_payload (bearer username : string) (createProfile : bool) : string :=
  if createProfile then
    let data := profileName_json username in
    "POST /minecraft/profile HTTP/1.1" ++ CRLF
    ++ "Host: api.minecraftservices.com" ++ CRLF
    ++ "Authorization: Bearer " ++ bearer ++ CRLF
    ++ "Content-Type: application/json" ++ CRLF
    ++ "Content-Length: " ++ itoa (String.length data) ++ CRLF
    ++ CRLF
    ++ data
  else
    "PUT /minecraft/profile/name/" ++ username ++ " HTTP/1.1" ++ CRLF
    ++ "Host: api.minecraftservices.com" ++ CRLF
    ++ "Authorization: Bearer " ++ bearer ++ CRLF ++ CRLF.

Definition ChangeName (username : string) (changeTime : Time) (createProfile : bool)
  : M (NameChangeReturn * option error) :=
  call "ChangeName" ;;
  account <- get_account ;;
  let payload := ChangeName_payload (Bearer account) username createProfile in
  d <- time_Until w changeTime ;;
  time_Sleep (dur_sub d lead) ;;
  ' (conn, err) <- tls_Dial w "tcp" ("api.minecraftservices.com" ++ ":443") ;;
  b <- all_but_last2 payload ;;
  conn_Write conn b ;;
  match err with
  | Some err =>
      ret (mkNameChangeReturn zeroMCaccount username false 0%Z zeroTime zeroTime, Some err)
  | None =>
      d <- time_Until w changeTime ;;
      time_Sleep d ;;
      b <- last2 payload ;;
      conn_Write conn b ;;
      sendTime <- time_Now w ;;
      recvd <- conn_Read w conn recvd_len ;;
      recvTime <- time_Now w ;;
      conn_Close conn ;;
      let (status, err) := Atoi (slice recvd 9 12) in
      match err with
      | Some err =>
          ret (mkNameChangeReturn zeroMCaccount username false 0%Z sendTime zeroTime, Some err)
      | None =>
          account <- get_account ;;
          let toRet :=
            mkNameChangeReturn account username (status <? 300)%Z status sendTime recvTime in
          ret (toRet, None)
      end
  end.

Definition ChangeName1_payload (bearer username : string) (createProfile : bool) : string :=
  if createProfile then
    let data := profileName_json username in
    "POST /minecraft/profile HTTP/1.1" ++ CRLF
    ++ "Host: api.minecraftservices.com" ++ CRLF
    ++ "Authorization: Bearer " ++ bearer ++ CRLF
    ++ "Content-Type: application/json" ++ CRLF
    ++ "Content-Length: " ++ itoa (String.length data) ++ CRLF
    ++ CRLF
    ++ data
  else
    "POST /minecraft/profile HTTP/1.1" ++ CRLF
    ++ "Host: api.minecraftservices.com" ++ CRLF
    ++ "Authorization: Bearer " ++ bearer ++ CRLF ++ CRLF.

Definition ChangeName1 (username : string) (changeTime : Time) (createProfile : bool)
  : M (NameChangeReturn * option error) :=
  call "ChangeName1" ;;
  account <- get_account ;;
  let payload := ChangeName1_payload (Bearer account) username createProfile in
  d <- time_Until w changeTime ;;
  time_Sleep (dur_sub d lead) ;;
  ' (conn, err) <- tls_Dial w "tcp" ("api.minecraftservices.com" ++ ":443") ;;
  b <- all_but_last2 payload ;;
  conn_Write conn b ;;
  match err with
  | Some err =>
      ret (mkNameChangeReturn zeroMCaccount username false 0%Z zeroTime zeroTime, Some err)
  | None =>
      d <- time_Until w changeTime ;;
      time_Sleep d ;;
      b <- last2 payload ;;
      conn_Write conn b ;;
      sendTime <- time_Now w ;;
      recvd <- conn_Read w conn recvd_len ;;
      recvTime <- time_Now w ;;
      conn_Close conn ;;
      let (status, err) := Atoi (slice recvd 9 12) in
      match err with
      | Some err =>
          ret (mkNameChangeReturn zeroMCaccount username false 0%Z sendTime zeroTime, Some err)
      | None =>
          account <- get_account ;;
          let toRet :=
            mkNameChangeReturn account username (status <? 300)%Z status sendTime recvTime in
          ret (toRet, None)
      end
  end.

End WithWorld.

End Part000.

(** ** The copy in [src/account.go] *)

Module AccountGo.

Record NameChangeReturn : Type := mkNameChangeReturn {
  account : MCaccount;
  username : string;
  changedName : bool;
  statusCode : Z;
  sendTime : Time;
  receiveTime : Time
}.

Section WithWorld.

Variable w : World.

(** [generatePayload(method, url, headers, body)] is called by
    [ChangeName] and defined in no file at hand: a parameter. *)
Variable generatePayload :
  string -> string -> list (string * string) -> string -> string * option error.

Local Open Scope go_scope.

Definition AuthenticatedReq (method url : string) (b : body) : M (Request + error) :=
  call "AuthenticatedReq" ;;
  let req := http_NewRequest method url b in
  acc <- get_account ;;
  if String.eqb (Bearer acc) EmptyString
  then ret (inr (errors_New "Account is not authenticated!"))
  else
    let req := Header_Add "Authorization" ("Bearer " ++ Bearer acc) req in
    let req := Header_Add "Content-Type" "application/json" req in
    ret (inl req).

Definition authenticate : M (option error) :=
  call "authenticate" ;;
  acc <- get_account ;;
  let payload := authenticate_payload (Email acc) (Password acc) in
  let request :=
    http_NewRequest "POST" "https://authserver.mojang.com/authenticate" (BodyBytes payload) in
  let request := Header_Add "Content-Type" "application/json" request in
  ' (resp, err) <- http_Do w request ;;
  match err with
  | Some err => ret (Some err)
  | None =>
      resp <- deref resp ;;
      if (resp_StatusCode resp <? 300)%Z then
        match resp_Body resp with
        | inr err => ret (Some (LibError err))
        | inl b =>
            let (AccountInfo, _) := Unmarshal_authenticateReqResp w b in
            assign (assign_Bearer (Accesstoken AccountInfo)) ;;
            assign (assign_Username (User_Username AccountInfo)) ;;
            assign (assign_UUID (User_ID AccountInfo)) ;;
            assign (assign_Bearer (Accesstoken AccountInfo)) ;;
            ret None
        end
      else if (resp_StatusCode resp =? 403)%Z then
        ret (Some (errors_New "Invalid email or password!"))
      else
        ret (Some (errors_New
          "Reached end of authenticate function! Shouldn't be possible. most likely 'failed to auth' status code changed."))
  end.

Definition loadSecurityQuestions : M (option error) :=
  call "loadSecurityQuestions" ;;
  r <- AuthenticatedReq "GET" "https://api.mojang.com/user/security/challenges" NoBody ;;
  match r with
  | inr err => ret (Some err)
  | inl req =>
      ' (resp, err) <- http_Do w req ;;
      match err with
      | Some err => ret (Some err)
      | None =>
          resp <- deref resp ;;
          if (400 <=? resp_StatusCode resp)%Z then
            ret (Some (errors_New
              ("Got status " ++ resp_Status resp ++ " when requesting security questions!")))
          else
            match resp_Body resp with
            | inr err => ret (Some (LibError err))
            | inl respBytes =>
                let (sqAnswers, err) := Unmarshal_SqAnswers w respBytes in
                match err with
                | Some err => ret (Some (LibError err))
                | None =>
                    assign (assign_SecurityQuestions sqAnswers) ;;
                    ret None
                end
            end
      end
  end.

Definition needToAnswer : M (bool * option error) :=
  call "needToAnswer" ;;
  r <- AuthenticatedReq "GET" "https://api.mojang.com/user/security/location" NoBody ;;
  match r with
  | inr err => ret (false, Some err)
  | inl req =>
      ' (resp, err) <- http_Do w req ;;
      match err with
      | Some err => ret (true, Some err)
      | None =>
          resp <- deref resp ;;
          if (resp_StatusCode resp =? 204)%Z then ret (false, None)
          else if (resp_StatusCode resp =? 403)%Z then ret (true, None)
          else ret (true, Some (errors_New
                 ("Status of " ++ resp_Status resp ++ " in needToAnswer not expected!")))
      end
  end.

(** The error of [Do] is not looked at here: [resp.StatusCode] is read
    whatever it is. *)
Definition submitAnswers : M (option error) :=
  call "submitAnswers" ;;
  acc <- get_account ;;
  if negb (List.length (SecurityAnswers acc) =? 3)%nat then
    ret (Some (errors_New "Not enough security question answers provided!"))
  else if negb (List.length (SecurityQuestions acc) =? 3)%nat then
    ret (Some (errors_New "Security questions not properly loaded!"))
  else
    match pair_answers (SecurityQuestions acc) (SecurityAnswers acc) 0 with
    | None => panic index_out_of_range
    | Some jsonContent =>
        r <- AuthenticatedReq "POST" "https://api.mojang.com/user/security/location"
                              (BodyAnswers jsonContent) ;;
        match r with
        | inr err => ret (Some err)
        | inl req =>
            ' (resp, _) <- http_Do w req ;;
            resp <- deref resp ;;
            if (resp_StatusCode resp =? 204)%Z then ret None
            else if (resp_StatusCode resp =? 403)%Z then
              ret (Some (errors_New "At least one security question answer was incorrect!"))
            else
              ret (Some (errors_New
                ("Got status " ++ resp_Status resp ++ " on post request for sqs")))
        end
    end.

Definition MojangAuthenticate : M (option error) :=
  call "MojangAuthenticate" ;;
  err <- authenticate ;;
  match err with
  | Some err => ret (Some err)
  | None =>
      err <- loadSecurityQuestions ;;
      match err with
      | Some err => ret (Some err)
      | None =>
          acc <- get_account ;;
          if (List.length (SecurityQuestions acc) =? 0)%nat then
            assign (assign_Authenticated true) ;;
            ret None
          else
            ' (answerNeeded, err) <- needToAnswer ;;
            match err with
            | Some err => ret (Some err)
            | None =>
                if negb answerNeeded then
                  assign (assign_Authenticated true) ;;
                  ret None
                else
                  err <- submitAnswers ;;
                  match err with
                  | Some err => ret (Some err)
                  | None =>
                      assign (assign_Authenticated true) ;;
                      ret None
                  end
            end
      end
  end.

Definition ChangeName (username : string) (changeTime : Time) (createProfile : bool)
  : M (NameChangeReturn * option error) :=
  call "ChangeName" ;;
  acc <- get_account ;;
  let headers :=
    [("Authorization", ("Bearer " ++ Bearer acc)%string); ("Accept", "application/json")] in
  let (payload, err) :=
    if createProfile then
      generatePayload "POST" "https://api.minecraftservices.com/minecraft/profile"
                      headers (profileName_json username)
    else
      generatePayload "PUT"
                      ("https://api.minecraftservices.com/minecraft/profile/name/" ++ username)
                      headers EmptyString in
  let recvd_len := 12 in
  match err with
  | Some err =>
      ret (mkNameChangeReturn zeroMCaccount username false 0%Z zeroTime zeroTime, Some err)
  | None =>
      now <- time_Now w ;;
      (if After changeTime now then
         d <- time_Until w changeTime ;;
         time_Sleep (dur_sub d lead)
       else ret tt) ;;
      ' (conn, err) <- tls_Dial w "tcp" ("api.minecraftservices.com" ++ ":443") ;;
      conn_Write conn payload ;;
      sendTime <- time_Now w ;;
      match err with
      | Some err =>
          ret (mkNameChangeReturn zeroMCaccount username false 0%Z sendTime zeroTime, Some err)
      | None =>
          conn_Write conn CRLF ;;
          recvd <- conn_Read w conn recvd_len ;;
          recvTime <- time_Now w ;;
          let (status, _) := Atoi (slice recvd 9 12) in
          acc <- get_account ;;
          let toRet :=
            mkNameChangeReturn acc username (status <? 300)%Z status sendTime recvTime in
          ret (toRet, None)
      end
  end.

End WithWorld.

End AccountGo.

(** ** Reading a trace *)

Module Trace.

Fixpoint writes (tr : list event) : list string :=
  match tr with
  | [] => []
  | EvWrite b :: r => b :: writes r
  | _ :: r => writes r
  end.

Fixpoint sleeps (tr : list event) : list Duration :=
  match tr with
  | [] => []
  | EvSleep d :: r => d :: sleeps r
  | _ :: r => sleeps r
  end.

Fixpoint requests (tr : list event) : list Request :=
  match tr with
  | [] => []
  | EvDo req :: r => req :: requests r
  | _ :: r => requests r
  end.

Fixpoint calls (tr : list event) : list string :=
  match tr with
  | [] => []
  | EvCall m :: r => m :: calls r
  | _ :: r => calls r
  end.

(** What comes after the first write, and what comes before the next. *)
Fixpoint after_write (tr : list event) : list event :=
  match tr with
  | [] => []
  | EvWrite _ :: r => r
  | _ :: r => after_write r
  end.

Fixpoint before_write (tr : list event) : list event :=
  match tr with
  | [] => []
  | EvWrite _ :: _ => []
  | e :: r => e :: before_write r
  end.

(** The events strictly between the first two writes. *)
Definition between_writes (tr : list event) : list event :=
  before_write (after_write tr).

(** What happens up to the dial, the dial left out. *)
Fixpoint before_dial (tr : list event) : list event :=
  match tr with
  | [] => []
  | EvDial _ _ :: _ => []
  | e :: r => e :: before_dial r
  end.

(** Some sleep of the trace suspends the goroutine. *)
Definition suspended (tr : list event) : bool := existsb suspends (sleeps tr).

(** The state right after [call m]. *)
Definition entered (m : string) (s : State) : State :=
  mkState (acct s) (ticks s) (exchanges s) (trace s ++ [EvCall m])%list.

(** The state after more events, clock readings and exchanges. *)
Definition advanced (s : State) (readings exch : nat) (evs : list event) : State :=
  mkState (acct s) (readings + ticks s) (exch + exchanges s) (trace s ++ evs)%list.

End Trace.
Import Trace.

(** ** Reading the status line *)

Module StatusLine.

(** The bytes 9, 10 and 11 of what the read delivered; a byte that was
    not delivered is zero. *)
Definition status_bytes (input : list ascii) : string :=
  String (nth 9 input zero_byte)
    (String (nth 10 input zero_byte)
      (String (nth 11 input zero_byte) EmptyString)).

Definition digit (d : Z) : ascii := ascii_of_nat (48 + Z.to_nat d).

(** The three decimal digits of a status code in [0, 999]. *)
Definition digits3 (code : Z) : string :=
  String (digit (code / 100))
    (String (digit (code / 10 mod 10))
      (String (digit (code mod 10)) EmptyString)).

(** Every byte of [s] is an ASCII digit. *)
Fixpoint all_digits (s : string) : bool :=
  match s with
  | EmptyString => true
  | String c r => is_digit c && all_digits r
  end.

(** [Atoi] on every code from [n - 1] down to [0] gives the code back. *)
Fixpoint Atoi_inverts_below (n : nat) : bool :=
  match n with
  | O => true
  | S m =>
      match Atoi (digits3 (Z.of_nat m)) with
      | (v, None) => (v =? Z.of_nat m)%Z && Atoi_inverts_below m
      | (_, Some _) => false
      end
  end.

End StatusLine.
Import StatusLine.

(** ** Concrete worlds and accounts *)

Module Scenario.

(** 2026-10-31 00:00:00 UTC, in nanoseconds since year 1. *)
Definition autumn_2026 : Time := 63929001600000000000%Z.

(** A clock that advances by one millisecond from one reading to the
    next. *)
Definition ticking (start : Time) : nat -> Time :=
  fun n => (start + Z.of_nat n * 1000000)%Z.

Definition offline : foreign := mkForeign "net" "dial tcp: lookup failed".

Definition decode_nothing : string -> authenticateReqResp * option foreign :=
  fun _ => (mkAuthResp EmptyString EmptyString EmptyString EmptyString, None).

Definition decode_no_questions : string -> list SqAnswer * option foreign :=
  fun _ => ([], None).

(** A world for a claim: the clock, the outcome of the dial and the
    bytes that the read delivers. *)
Definition claim_world (clk : nat -> Time) (dial : option foreign) (input : string)
  : World :=
  mkWorld clk (fun _ _ => DoFailed offline) dial (list_ascii_of_string input)
          decode_nothing decode_no_questions.

Definition steve : MCaccount :=
  mkMCaccount "steve@example.com" "hunter2" [] [] "token" "uuid" "Steve" "mj" true.

(** A stand-in for [generatePayload] of [src/account.go]: request line,
    headers, blank line left to the caller's second write, then the body. *)
Definition sample_generatePayload (method url : string) (headers : list (string * string))
  (b : string) : string * option error :=
  ((method ++ " " ++ url ++ " HTTP/1.1" ++ CRLF
    ++ fold_right (fun kv acc => fst kv ++ ": " ++ snd kv ++ CRLF ++ acc) EmptyString headers
    ++ b)%string, None).

(** The provider answers the credential exchange with status [st]. *)
Definition status_world (st : Z) : World :=
  mkWorld (ticking autumn_2026)
          (fun _ _ => DoOk (mkResponse st "status" (inl "{}")))
          None [] decode_nothing decode_no_questions.

Definition alex : MCaccount :=
  mkMCaccount "alex@example.com" "hunter2" [] ["a"; "b"; "c"]
              EmptyString EmptyString EmptyString "mj" false.

Definition three_questions : list SqAnswer :=
  [mkSqAnswer 11 1 "pet"; mkSqAnswer 12 2 "city"; mkSqAnswer 13 3 "film"].

(** The provider accepts the credentials and gives a token; the
    challenge list is [qs]; the probe answers [probe] and the submission
    [submit]. *)
Definition login_world (qs : list SqAnswer) (probe submit : Z) : World :=
  mkWorld (ticking autumn_2026)
          (fun n _ =>
             match n with
             | 0 => DoOk (mkResponse 200 "200 OK" (inl "{}"))
             | 1 => DoOk (mkResponse 200 "200 OK" (inl "[]"))
             | 2 => DoOk (mkResponse probe "probe" (inl EmptyString))
             | _ => DoOk (mkResponse submit "submit" (inl EmptyString))
             end)
          None []
          (fun _ => (mkAuthResp "Alex" "uuid-alex" "token-alex" "client", None))
          (fun _ => (qs, None)).

(** The provider answers a claim with a status line. *)
Definition ok_world : World :=
  claim_world (ticking autumn_2026) None "HTTP/1.1 200 OK".

Definition forbidden_world : World :=
  claim_world (ticking autumn_2026) None "HTTP/1.1 403 Forbidden".

(** The three status bytes are a sign and two digits. *)
Definition signed_world : World :=
  claim_world (ticking autumn_2026) None "HTTP/1.1 +12 OK".

(** Nothing but the first ten bytes of the status line arrives. *)
Definition truncated_world : World :=
  claim_world (ticking autumn_2026) None "HTTP/1.1 2".

(** The dial fails. *)
Definition offline_world : World :=
  claim_world (ticking autumn_2026) (Some offline) EmptyString.

(** One minute after the first reading of the clock. *)
Definition in_a_minute : Time := (autumn_2026 + 60 * Second)%Z.

End Scenario.

(** ** What a claim does on a live connection

    The events of one run of [ChangeName], written out, and the record it
    returns; the proofs below show that the code produces exactly these. *)

Module Expected.

Definition provider : string := "api.minecraftservices.com:443".

(** [payload[:len(payload)-2]] and [payload[len(payload)-2:]] *)
Definition first_write (payload : string) : string :=
  take (String.length payload - 2) payload.

Definition second_write (payload : string) : string :=
  drop (String.length payload - 2) payload.

(** [part_000]: the events of [ChangeName] and [ChangeName1] from state
    [s], for the request [payload]. *)
Definition claim_events (w : World) (s : State) (method payload : string)
  (changeTime : Time) : list event :=
  [ EvCall method;
    EvNow (clock w (ticks s));
    EvSleep (dur_sub (Sub changeTime (clock w (ticks s))) lead);
    EvDial "tcp" provider;
    EvWrite (take (String.length payload - 2) payload);
    EvNow (clock w (1 + ticks s));
    EvSleep (Sub changeTime (clock w (1 + ticks s)));
    EvWrite (drop (String.length payload - 2) payload);
    EvNow (clock w (2 + ticks s));
    EvRead Part000.recvd_len;
    EvNow (clock w (3 + ticks s));
    EvClose ].

(** [part_000]: what is returned once the three status bytes went
    through [Atoi]. *)
Definition claim_result (w : World) (s : State) (username : string)
  : Part000.NameChangeReturn * option error :=
  let sendTime := clock w (2 + ticks s) in
  let recvTime := clock w (3 + ticks s) in
  match Atoi (status_bytes (conn_Read_input w)) with
  | (status, None) =>
      (Part000.mkNameChangeReturn (acct s) username (status <? 300)%Z status
                                  sendTime recvTime, None)
  | (_, Some err) =>
      (Part000.mkNameChangeReturn zeroMCaccount username false 0%Z
                                  sendTime zeroTime, Some err)
  end.

(** [src/account.go]: the wait before the dial, which is there only for
    a target after the first clock reading. *)
Definition early_wait (w : World) (s : State) (changeTime : Time) : list event :=
  if After changeTime (clock w (ticks s))
  then [EvNow (clock w (1 + ticks s));
        EvSleep (dur_sub (Sub changeTime (clock w (1 + ticks s))) lead)]
  else [].

(** [src/account.go]: the clock readings taken by that wait. *)
Definition early_readings (w : World) (s : State) (changeTime : Time) : nat :=
  if After changeTime (clock w (ticks s)) then 1 else 0.

(** [src/account.go]: the events of [ChangeName] from state [s]. *)
Definition claim_events_go (w : World) (s : State) (payload : string)
  (changeTime : Time) : list event :=
  let k := early_readings w s changeTime in
  ([ EvCall "ChangeName"; EvNow (clock w (ticks s)) ]
   ++ early_wait w s changeTime
   ++ [ EvDial "tcp" provider;
        EvWrite payload;
        EvNow (clock w (k + (1 + ticks s)));
        EvWrite CRLF;
        EvRead 12;
        EvNow (clock w (k + (2 + ticks s))) ])%list.

(** [src/account.go]: what is returned; the error of [Atoi] is dropped. *)
Definition claim_result_go (w : World) (s : State) (username : string)
  (changeTime : Time) : AccountGo.NameChangeReturn * option error :=
  let k := early_readings w s changeTime in
  let status := fst (Atoi (status_bytes (conn_Read_input w))) in
  (AccountGo.mkNameChangeReturn (acct s) username (status <? 300)%Z status
     (clock w (k + (1 + ticks s))) (clock w (k + (2 + ticks s))), None).

(** [src/account.go]: the payload and the error that [ChangeName] gets
    from [generatePayload] for the two request shapes. *)
Definition generated
  (generatePayload :
     string -> string -> list (string * string) -> string -> string * option error)
  (bearer username : string) (createProfile : bool) : string * option error :=
  let headers :=
    [("Authorization", ("Bearer " ++ bearer)%string); ("Accept", "application/json")] in
  if createProfile then
    generatePayload "POST" "https://api.minecraftservices.com/minecraft/profile"
                    headers (profileName_json username)
  else
    generatePayload "PUT"
                    ("https://api.minecraftservices.com/minecraft/profile/name/"
                       ++ username)%string
                    headers EmptyString.

(** What a claim has done when the dial fails, in [part_000]. *)
Definition dial_events (w : World) (s : State) (method : string) (changeTime : Time)
  : list event :=
  [ EvCall method;
    EvNow (clock w (ticks s));
    EvSleep (dur_sub (Sub changeTime (clock w (ticks s))) lead);
    EvDial "tcp" provider ].

(** The two errors with which [submitAnswers] turns down the counts. *)
Definition InputValidation : list error :=
  [errors_New "not enough security question answers provided";
   errors_New "security questions not properly loaded"].

Definition InputValidation_go : list error :=
  [errors_New "Not enough security question answers provided!";
   errors_New "Security questions not properly loaded!"].

(** The request of the credential exchange. *)
Definition authenticate_request (a : MCaccount) : Request :=
  Header_Add "Content-Type" "application/json"
    (http_NewRequest "POST" "https://authserver.mojang.com/authenticate"
       (BodyBytes (authenticate_payload (Email a) (Password a)))).

(** The request for the security questions. *)
Definition challenges_request (a : MCaccount) : Request :=
  Header_Add "Content-Type" "application/json"
    (Header_Add "Authorization" ("Bearer " ++ Bearer a)%string
       (http_NewRequest "GET" "https://api.mojang.com/user/security/challenges" NoBody)).

(** The two errors of [authenticate] on a status that is not a success. *)
Definition InvalidCredentials : error := errors_New "invalid email or password".

Definition UnexpectedStatus : error :=
  errors_New
    "reached end of authenticate function! Shouldn't be possible. most likely 'failed to auth' status code changed".

Definition InvalidCredentials_go : error := errors_New "Invalid email or password!".

Definition UnexpectedStatus_go : error :=
  errors_New
    "Reached end of authenticate function! Shouldn't be possible. most likely 'failed to auth' status code changed.".

(** The state in which [account.Authenticated = true] has been done. *)
Definition authenticated (s : State) : State :=
  mkState (assign_Authenticated true (acct s)) (ticks s) (exchanges s) (trace s).

(** The account in which the credential exchange has stored what the
    provider's answer decoded to. *)
Definition credentialed (info : authenticateReqResp) (a : MCaccount) : MCaccount :=
  assign_UUID (User_ID info)
    (assign_Username (User_Username info)
       (assign_Bearer (Accesstoken info) a)).

(** What a login adds to the trace when the provider has no questions for
    the account: the entries into the first two steps and their two
    exchanges. *)
Definition login_events (info : authenticateReqResp) (a : MCaccount) : list event :=
  [EvCall "MojangAuthenticate";
   EvCall "authenticate"; EvDo (authenticate_request a);
   EvCall "loadSecurityQuestions"; EvCall "AuthenticatedReq";
   EvDo (challenges_request (credentialed info a))].

(** The state that such a login leaves: the credentials of [info] and an
    empty list of questions are stored, the flag is set, two exchanges
    were made. *)
Definition logged_in (info : authenticateReqResp) (s : State) : State :=
  mkState (assign_Authenticated true
             (assign_SecurityQuestions [] (credentialed info (acct s))))
          (ticks s) (2 + exchanges s)
          (trace s ++ login_events info (acct s))%list.

(** The body of [MojangAuthenticate], which is the same in both copies,
    over the four steps it calls. *)
Definition flow (authenticate loadSecurityQuestions : M (option error))
  (needToAnswer : M (bool * option error)) (submitAnswers : M (option error))
  : M (option error) :=
  (call "MojangAuthenticate" ;;
   err <- authenticate ;;
   match err with
   | Some err => ret (Some err)
   | None =>
       err <- loadSecurityQuestions ;;
       match err with
       | Some err => ret (Some err)
       | None =>
           account <- get_account ;;
           if (List.length (SecurityQuestions account) =? 0)%nat then
             assign (assign_Authenticated true) ;;
             ret None
           else
             ' (answerNeeded, err) <- needToAnswer ;;
             match err with
             | Some err => ret (Some err)
             | None =>
                 if negb answerNeeded then
                   assign (assign_Authenticated true) ;;
                   ret None
                 else
                   err <- submitAnswers ;;
                   match err with
                   | Some err => ret (Some err)
                   | None =>
                       assign (assign_Authenticated true) ;;
                       ret None
                   end
             end
       end
   end)%go.

(** Every required step succeeded from [s0], and [s'] is the state in
    which the flag was then set: the credential exchange, the loading of
    the questions, and then either there is no question, or the probe says
    that no answer is needed, or it says that one is and the submission
    succeeds. *)
Definition every_step_succeeded (authenticate loadSecurityQuestions : M (option error))
  (needToAnswer : M (bool * option error)) (submitAnswers : M (option error))
  (s0 s' : State) : Prop :=
  exists s1 s2,
    authenticate s0 = Returned None s1 /\
    loadSecurityQuestions s1 = Returned None s2 /\
    ((SecurityQuestions (acct s2) = [] /\ s' = authenticated s2) \/
     (SecurityQuestions (acct s2) <> [] /\
      exists s3,
        (needToAnswer s2 = Returned (false, None) s3 /\ s' = authenticated s3) \/
        (needToAnswer s2 = Returned (true, None) s3 /\
         exists s4, submitAnswers s3 = Returned None s4 /\ s' = authenticated s4))).

(** Some step returned the error [e] in the state [s'], every step
    before it having succeeded. *)
Definition a_step_failed (authenticate loadSecurityQuestions : M (option error))
  (needToAnswer : M (bool * option error)) (submitAnswers : M (option error))
  (s0 : State) (e : error) (s' : State) : Prop :=
  authenticate s0 = Returned (Some e) s' \/
  exists s1,
    authenticate s0 = Returned None s1 /\
    (loadSecurityQuestions s1 = Returned (Some e) s' \/
     exists s2,
       loadSecurityQuestions s1 = Returned None s2 /\
       ((exists b, needToAnswer s2 = Returned (b, Some e) s') \/
        exists s3,
          needToAnswer s2 = Returned (true, None) s3 /\
          submitAnswers s3 = Returned (Some e) s')).

End Expected.
Import Expected.

(** ** The queries on an authenticated account

    [LoadAccountInfo], [HasGcApplied] and [NameChangeInfo].  Their JSON
    decoders are parameters, like the two of the [World]: [json.Unmarshal]
    gives the decoded value, possibly partial, and its error. *)

Module Queries.

Record accInfoResponse : Type := mkAccInfo {
  accInfo_ID : string;
  accInfo_Name : string
}.

Record HasGcAppliedResp : Type := mkHasGcAppliedResp {
  Path : string;
  ErrorType : string;
  Error : string;
  ErrorMessage : string;
  DeveloperMessage : string;
  Details_Status : string
}.

(** Holds name change information for an account. *)
Record nameChangeInfoResponse : Type := mkNameChangeInfo {
  Changedat : Time;
  Createdat : Time;
  Namechangeallowed : bool
}.

(** [nameChangeInfoResponse{}] *)
Definition zeroNameChangeInfo : nameChangeInfoResponse :=
  mkNameChangeInfo zeroTime zeroTime false.

(** [fmt.Sprintf("%v", n)] for an [int]. *)
Definition Zitoa (n : Z) : string :=
  if (n <? 0)%Z then ("-" ++ itoa (Z.to_nat (- n)))%string else itoa (Z.to_nat n).

(** The body of the probe of [HasGcApplied], a raw literal. *)
Definition bodyStr : string :=
  ("{" ++ DQ ++ "profileName" ++ DQ ++ ": " ++ DQ ++ "test" ++ DQ ++ "}")%string.

(** The [switch] of [HasGcApplied] on [respError.Details.Status]. *)
Definition hasGc_of (status : string) : bool :=
  if String.eqb status "ALREADY_REGISTERED" || String.eqb status "NOT_ENTITLED" then false
  else if String.eqb status "DUPLICATE" || String.eqb status "NOT_ALLOWED" then true
  else false.

End Queries.
Import Queries.

Module Part000Queries.

Section WithWorld.

Variable w : World.
Variable Unmarshal_accInfoResponse : string -> accInfoResponse * option foreign.
Variable Unmarshal_HasGcAppliedResp : string -> HasGcAppliedResp * option foreign.
Variable Unmarshal_nameChangeInfoResponse :
  string -> nameChangeInfoResponse * option foreign.

Local Open Scope go_scope.

(** load account information (username, uuid) into accounts attributes *)
Definition LoadAccountInfo : M (option error) :=
  call "LoadAccountInfo" ;;
  r <- Part000.AuthenticatedReq "GET" "https://api.minecraftservices.com/minecraft/profile"
                                NoBody ;;
  match r with
  | inr err => ret (Some err)
  | inl req =>
      ' (resp, err) <- http_Do w req ;;
      match err with
      | Some err => ret (Some err)
      | None =>
          resp <- deref resp ;;
          if (resp_StatusCode resp =? 404)%Z then
            ret (Some (RequestError (resp_StatusCode resp)
                                    (errors_New "account does not own minecraft")))
          else
            match resp_Body resp with
            | inr err => ret (Some (LibError err))
            | inl respBytes =>
                let (respJson, _) := Unmarshal_accInfoResponse respBytes in
                assign (assign_Username (accInfo_Name respJson)) ;;
                assign (assign_UUID (accInfo_ID respJson)) ;;
                ret None
            end
      end
  end.

Definition HasGcApplied : M (bool * option error) :=
  call "HasGcApplied" ;;
  r <- Part000.AuthenticatedReq "POST" "https://api.minecraftservices.com/minecraft/profile"
                                (BodyBytes bodyStr) ;;
  match r with
  | inr err => ret (false, Some err)
  | inl req =>
      ' (resp, err) <- http_Do w req ;;
      match err with
      | Some err => ret (false, Some err)
      | None =>
          resp <- deref resp ;;
          if (resp_StatusCode resp =? 200)%Z then
            ret (false,
                 Some (RequestError (resp_StatusCode resp)
                         (errors_New
                            "successfully created profile with name test.. unintended behavior, function is meant to check if gc is applied")))
          else if (resp_StatusCode resp =? 401)%Z then
            ret (false,
                 Some (RequestError (resp_StatusCode resp)
                         (errors_New "received unauthorized response")))
          else if (resp_StatusCode resp =? 400)%Z then
            match resp_Body resp with
            | inr err => ret (false, Some (LibError err))
            | inl bodyBytes =>
                let (respError, err) := Unmarshal_HasGcAppliedResp bodyBytes in
                match err with
                | Some err => ret (false, Some (LibError err))
                | None => ret (hasGc_of (Details_Status respError), None)
                end
            end
          else
            ret (false,
                 Some (errors_New
                         ("got status " ++ Zitoa (resp_StatusCode resp)
                          ++ ", expected 200, 401, or 400")))
      end
  end.

(** grab information on the availability of name change for this
    account *)
Definition NameChangeInfo : M (nameChangeInfoResponse * option error) :=
  call "NameChangeInfo" ;;
  r <- Part000.AuthenticatedReq "GET"
         "https://api.minecraftservices.com/minecraft/profile/namechange" NoBody ;;
  match r with
  | inr err => ret (zeroNameChangeInfo, Some err)
  | inl req =>
      ' (resp, err) <- http_Do w req ;;
      match err with
      | Some err => ret (zeroNameChangeInfo, Some err)
      | None =>
          resp <- deref resp ;;
          match resp_Body resp with
          | inr err => ret (zeroNameChangeInfo, Some (LibError err))
          | inl respBody =>
              if (400 <=? resp_StatusCode resp)%Z then
                ret (mkNameChangeInfo zeroTime zeroTime false,
                     Some (RequestError (resp_StatusCode resp)
                             (errors_New "failed to grab name change info")))
              else
                let (parsedNameChangeInfo, err) :=
                  Unmarshal_nameChangeInfoResponse respBody in
                match err with
                | Some err => ret (zeroNameChangeInfo, Some (LibError err))
                | None => ret (parsedNameChangeInfo, None)
                end
          end
      end
  end.

End WithWorld.

End Part000Queries.

Module AccountGoQueries.

Section WithWorld.

Variable w : World.
Variable Unmarshal_accInfoResponse : string -> accInfoResponse * option foreign.
Variable Unmarshal_nameChangeInfoResponse :
  string -> nameChangeInfoResponse * option foreign.

(** The bytes that [ioutil.ReadAll] returns beside its error: what it
    had read when the read failed. *)
Variable ReadAll_partial : foreign -> string.

Local Open Scope go_scope.

(** The error of [ioutil.ReadAll] is not looked at here. *)
Definition LoadAccountInfo : M (option error) :=
  call "LoadAccountInfo" ;;
  r <- AccountGo.AuthenticatedReq "GET"
         "https://api.minecraftservices.com/minecraft/profile" NoBody ;;
  match r with
  | inr err => ret (Some err)
  | inl req =>
      ' (resp, err) <- http_Do w req ;;
      match err with
      | Some err => ret (Some err)
      | None =>
          resp <- deref resp ;;
          if (resp_StatusCode resp =? 404)%Z then
            ret (Some (RequestError (resp_StatusCode resp)
                                    (errors_New "account does not own minecraft")))
          else
            let respBytes :=
              match resp_Body resp with
              | inl b => b
              | inr err => ReadAll_partial err
              end in
            let (respJson, _) := Unmarshal_accInfoResponse respBytes in
            assign (assign_Username (accInfo_Name respJson)) ;;
            assign (assign_UUID (accInfo_ID respJson)) ;;
            ret None
      end
  end.

Definition NameChangeInfo : M (nameChangeInfoResponse * option error) :=
  call "NameChangeInfo" ;;
  r <- AccountGo.AuthenticatedReq "GET"
         "https://api.minecraftservices.com/minecraft/profile/namechange" NoBody ;;
  match r with
  | inr err => ret (zeroNameChangeInfo, Some err)
  | inl req =>
      ' (resp, err) <- http_Do w req ;;
      match err with
      | Some err => ret (zeroNameChangeInfo, Some err)
      | None =>
          resp <- deref resp ;;
          match resp_Body resp with
          | inr err => ret (zeroNameChangeInfo, Some (LibError err))
          | inl respBody =>
              if (400 <=? resp_StatusCode resp)%Z then
                ret (mkNameChangeInfo zeroTime zeroTime false,
                     Some (RequestError (resp_StatusCode resp)
                             (errors_New "failed to grab name change info")))
              else
                let (parsedNameChangeInfo, err) :=
                  Unmarshal_nameChangeInfoResponse respBody in
                match err with
                | Some err => ret (zeroNameChangeInfo, Some (LibError err))
                | None => ret (parsedNameChangeInfo, None)
                end
          end
      end
  end.

End WithWorld.

End AccountGoQueries.

(** ** Words for the further properties *)

Module More.

(** The request that [AuthenticatedReq] builds for an account with a
    bearer token. *)
Definition authorized (method url : string) (b : body) (a : MCaccount) : Request :=
  Header_Add "Content-Type" "application/json"
    (Header_Add "Authorization" ("Bearer " ++ Bearer a)%string
       (http_NewRequest method url b)).

(** The two errors of [AuthenticatedReq]. *)
Definition NotAuthenticated : error := errors_New "account is not authenticated".
Definition NotAuthenticated_go : error := errors_New "Account is not authenticated!".

(** Two accounts differ in [Bearer], [Username] and [UUID] at most. *)
Definition same_but_credentials (a a' : MCaccount) : Prop :=
  Email a' = Email a /\ Password a' = Password a /\
  SecurityQuestions a' = SecurityQuestions a /\
  SecurityAnswers a' = SecurityAnswers a /\
  Type_ a' = Type_ a /\ Authenticated a' = Authenticated a.

(** Two accounts differ in [Username] and [UUID] at most. *)
Definition same_but_profile (a a' : MCaccount) : Prop :=
  same_but_credentials a a' /\ Bearer a' = Bearer a.

(** The request carries the bearer token of the account. *)
Definition carries_bearer (a : MCaccount) (req : Request) : Prop :=
  In ("Authorization", ("Bearer " ++ Bearer a)%string) (Header req).

(** The answers as [submitAnswers] posts them: the answer id of each
    question with the answer at the same place. *)
Definition paired (qs : list SqAnswer) (answers : list string) : list submitPostJson :=
  map (fun qa => mkSubmit (Answer_ID (fst qa)) (snd qa)) (combine qs answers).

(** From [s] to [s'] at most [n] exchanges were made, and what the caller
    put into the account (email, password, answers, type) is as it was. *)
Definition within (n : nat) (s s' : State) : Prop :=
  exchanges s <= exchanges s' <= exchanges s + n /\
  Email (acct s') = Email (acct s) /\
  Password (acct s') = Password (acct s) /\
  SecurityAnswers (acct s') = SecurityAnswers (acct s) /\
  Type_ (acct s') = Type_ (acct s).

(** The number of [conn.Close()] in a trace. *)
Fixpoint closes (tr : list event) : nat :=
  match tr with
  | [] => 0
  | EvClose :: r => S (closes r)
  | _ :: r => closes r
  end.

End More.
Import More.

(** ** Concrete worlds for the further properties *)

Module Scenario2.

Definition decode_profile : string -> accInfoResponse * option foreign :=
  fun _ => (mkAccInfo "uuid-steve" "Steve", None).

Definition decode_duplicate : string -> HasGcAppliedResp * option foreign :=
  fun _ => (mkHasGcAppliedResp "/minecraft/profile" "CONSTRAINT_VIOLATION" "error"
              "message" "developer" "DUPLICATE", None).

Definition decode_namechange : string -> nameChangeInfoResponse * option foreign :=
  fun _ => (mkNameChangeInfo Scenario.autumn_2026 Scenario.autumn_2026 true, None).

Definition nothing_read : foreign -> string := fun _ => EmptyString.

Definition reset : foreign := mkForeign "net" "connection reset by peer".

Definition bad_json : foreign := mkForeign "encoding/json" "unexpected end of JSON input".

(** The provider answers every exchange with status [st] and the body
    [b]; the decoders of the [World] accept whatever they are given. *)
Definition answering (st : Z) (b : string + foreign) : World :=
  mkWorld (Scenario.ticking Scenario.autumn_2026)
          (fun _ _ => DoOk (mkResponse st "status" b))
          None []
          (fun _ => (mkAuthResp "Alex" "uuid-alex" "token-alex" "client", None))
          (fun _ => (Scenario.three_questions, None)).

(** The provider answers with status 200, and the JSON of the credential
    exchange does not decode. *)
Definition undecodable : World :=
  mkWorld (Scenario.ticking Scenario.autumn_2026)
          (fun _ _ => DoOk (mkResponse 200 "200 OK" (inl "{")))
          None []
          (fun _ => (mkAuthResp EmptyString EmptyString EmptyString EmptyString,
                     Some bad_json))
          (fun _ => ([], None)).

(** An account with a bearer token, three questions and three answers. *)
Definition ready : MCaccount :=
  mkMCaccount "alex@example.com" "hunter2" Scenario.three_questions ["a"; "b"; "c"]
              "token-alex" "uuid-alex" "Alex" "mj" false.

End Scenario2.

(** * Proofs *)

(** ** Strings *)

Local Open Scope string_scope.

Lemma append_assoc (a b c : string) : (a ++ b) ++ c = a ++ (b ++ c).
Proof. induction a as [|x a IH]; simpl; [reflexivity | now rewrite IH]. Qed.

Lemma length_append (a b : string) :
  String.length (a ++ b) = String.length a + String.length b.
Proof. induction a as [|x a IH]; simpl; [reflexivity | now rewrite IH]. Qed.

Lemma take_append (a b : string) : take (String.length a) (a ++ b) = a.
Proof. induction a as [|x a IH]; simpl; [now destruct b | now rewrite IH]. Qed.

Lemma drop_append (a b : string) : drop (String.length a) (a ++ b) = b.
Proof. induction a as [|x a IH]; simpl; [now destruct b | exact IH]. Qed.

Lemma take_drop (n : nat) (s : string) : take n s ++ drop n s = s.
Proof.
  revert s; induction n as [|n IH]; intros [|c s]; simpl; try reflexivity.
  now rewrite IH.
Qed.

(** Splitting two bytes before the end of [a ++ b] when [b] has two bytes. *)
Lemma split_last2 (a b : string) :
  String.length b = 2 ->
  take (String.length (a ++ b) - 2) (a ++ b) = a /\
  drop (String.length (a ++ b) - 2) (a ++ b) = b.
Proof.
  intros Hb. rewrite length_append, Hb.
  replace (String.length a + 2 - 2) with (String.length a) by lia.
  split; [apply take_append | apply drop_append].
Qed.

(** ** The read buffer *)

Lemma fill_length (n : nat) (input : list ascii) : List.length (fill n input) = n.
Proof.
  unfold fill. rewrite List.length_app, repeat_length.
  pose proof (firstn_le_length n input). lia.
Qed.

Lemma fill_nth (n i : nat) (input : list ascii) :
  i < n -> nth i (fill n input) zero_byte = nth i input zero_byte.
Proof.
  intros Hi. unfold fill.
  destruct (Nat.lt_ge_cases i (List.length (firstn n input))) as [Hlt | Hge].
  - rewrite app_nth1 by exact Hlt. rewrite nth_firstn.
    apply Nat.ltb_lt in Hi. now rewrite Hi.
  - rewrite app_nth2 by exact Hge. rewrite nth_repeat.
    rewrite length_firstn in Hge.
    symmetry. apply nth_overflow. lia.
Qed.

Lemma slice_status (l : list ascii) :
  12 <= List.length l ->
  slice l 9 12 =
  String (nth 9 l zero_byte)
    (String (nth 10 l zero_byte) (String (nth 11 l zero_byte) EmptyString)).
Proof.
  intros H.
  do 12 (destruct l as [|? l]; [simpl in H; lia|]).
  reflexivity.
Qed.

(** The three bytes that [ChangeName] hands to [Atoi] are the bytes 9 to
    11 of what the read delivered, whatever the size of the buffer. *)
Lemma slice_fill (n : nat) (input : list ascii) :
  12 <= n -> slice (fill n input) 9 12 = status_bytes input.
Proof.
  intros Hn. rewrite slice_status by (rewrite fill_length; exact Hn).
  unfold status_bytes. now rewrite !fill_nth by lia.
Qed.

(** ** [Atoi] on three bytes *)

Lemma Atoi_inverts_below_spec (n : nat) :
  Atoi_inverts_below n = true ->
  forall m, m < n -> Atoi (digits3 (Z.of_nat m)) = (Z.of_nat m, None).
Proof.
  induction n as [|n IH]; intros H m Hm; [lia|].
  cbn [Atoi_inverts_below] in H.
  destruct (Atoi (digits3 (Z.of_nat n))) as [v [e|]] eqn:E; [discriminate|].
  apply andb_prop in H. destruct H as [Hv Hrest].
  apply Z.eqb_eq in Hv. subst v.
  destruct (Nat.eq_dec m n) as [-> | Hne]; [exact E|].
  apply IH; [exact Hrest | lia].
Qed.

Lemma Atoi_digits3 (code : Z) :
  (0 <= code <= 999)%Z -> Atoi (digits3 code) = (code, None).
Proof.
  intros H.
  assert (Hall : Atoi_inverts_below 1000 = true) by (vm_compute; reflexivity).
  pose proof (Atoi_inverts_below_spec 1000 Hall (Z.to_nat code)) as Hm.
  rewrite Z2Nat.id in Hm by lia. apply Hm. lia.
Qed.

Lemma digit_value_bounded (c : ascii) :
  (0 <= Z.of_nat (nat_of_ascii c - 48) < 256)%Z.
Proof. pose proof (nat_ascii_bounded c). lia. Qed.

(** [Atoi] takes three bytes exactly when the last two are digits and the
    first is a digit or a sign. *)
Lemma Atoi_three_bytes (a b c : ascii) :
  snd (Atoi (String a (String b (String c EmptyString)))) = None <->
  (is_digit a || has_sign (String a EmptyString)) && is_digit b && is_digit c = true.
Proof.
  pose proof (digit_value_bounded a) as Ba.
  pose proof (digit_value_bounded b) as Bb.
  pose proof (digit_value_bounded c) as Bc.
  unfold Atoi, has_sign, is_minus.
  destruct (is_digit a) eqn:Ea, (is_digit b) eqn:Eb, (is_digit c) eqn:Ec,
           (nat_of_ascii a =? 45)%nat eqn:E45, (nat_of_ascii a =? 43)%nat eqn:E43;
    cbn [orb andb drop digits]; rewrite ?Ea, ?Eb, ?Ec;
    repeat match goal with
           | |- context [(?x <? ?y)%Z] =>
               let E := fresh in
               destruct (x <? y)%Z eqn:E;
               [apply Z.ltb_lt in E; lia | clear E]
           end;
    cbn [snd]; split; intros H; first [reflexivity | discriminate H].
Qed.

(** ** Running the monad *)

(** Unfolds the monad from a state that is a record of four fields. *)
Ltac unfold_go :=
  cbv beta iota zeta delta
    [bind call log get_account time_Until time_Now time_Sleep tls_Dial
     conn_Write conn_Read conn_Close http_Do deref assign panic ret
     Do_resp Do_err final acct ticks exchanges trace].

Lemma state_eq (a a' : MCaccount) (t t' e e' : nat) (tr tr' : list event) :
  a = a' -> t = t' -> e = e' -> tr = tr' -> mkState a t e tr = mkState a' t' e' tr'.
Proof. now intros -> -> -> ->. Qed.

(** Closes a goal [Returned x s1 = Returned x s2] (or [Panicked]) whose
    states differ by the bracketing of the trace only. *)
Ltac same_state :=
  f_equal; unfold advanced, entered, claim_events, claim_events_go, dial_events;
  cbv beta iota delta [acct ticks exchanges trace];
  apply state_eq; try reflexivity;
  repeat rewrite <- List.app_assoc; reflexivity.

(** ** The two request shapes of [part_000] *)

Lemma ChangeName_payload_rename (bearer username : string) :
  Part000.ChangeName_payload bearer username false =
  ("PUT /minecraft/profile/name/" ++ username ++ " HTTP/1.1" ++ CRLF
   ++ "Host: api.minecraftservices.com" ++ CRLF
   ++ "Authorization: Bearer " ++ bearer ++ CRLF) ++ CRLF.
Proof.
  unfold Part000.ChangeName_payload. repeat rewrite append_assoc. reflexivity.
Qed.

Lemma ChangeName_payload_create (bearer username : string) :
  Part000.ChangeName_payload bearer username true =
  ("POST /minecraft/profile HTTP/1.1" ++ CRLF
   ++ "Host: api.minecraftservices.com" ++ CRLF
   ++ "Authorization: Bearer " ++ bearer ++ CRLF
   ++ "Content-Type: application/json" ++ CRLF
   ++ "Content-Length: " ++ itoa (String.length (profileName_json username)) ++ CRLF
   ++ CRLF
   ++ "{" ++ DQ ++ "profileName" ++ DQ ++ ": " ++ DQ ++ username) ++ (DQ ++ "}").
Proof.
  unfold Part000.ChangeName_payload, profileName_json.
  repeat rewrite append_assoc. reflexivity.
Qed.

Lemma ChangeName1_payload_bare (bearer username : string) :
  Part000.ChangeName1_payload bearer username false =
  ("POST /minecraft/profile HTTP/1.1" ++ CRLF
   ++ "Host: api.minecraftservices.com" ++ CRLF
   ++ "Authorization: Bearer " ++ bearer ++ CRLF) ++ CRLF.
Proof.
  unfold Part000.ChangeName1_payload. repeat rewrite append_assoc. reflexivity.
Qed.

(** With [createProfile] the two methods build the same request. *)
Lemma ChangeName1_payload_create (bearer username : string) :
  Part000.ChangeName1_payload bearer username true =
  Part000.ChangeName_payload bearer username true.
Proof. reflexivity. Qed.

Lemma ChangeName_payload_long (bearer username : string) (createProfile : bool) :
  (String.length (Part000.ChangeName_payload bearer username createProfile) <? 2)%nat
  = false.
Proof.
  apply Nat.ltb_ge. destruct createProfile.
  - rewrite ChangeName_payload_create, length_append. cbn. lia.
  - rewrite ChangeName_payload_rename, length_append. cbn. lia.
Qed.

Lemma ChangeName1_payload_long (bearer username : string) (createProfile : bool) :
  (String.length (Part000.ChangeName1_payload bearer username createProfile) <? 2)%nat
  = false.
Proof.
  apply Nat.ltb_ge. destruct createProfile.
  - rewrite ChangeName1_payload_create, ChangeName_payload_create, length_append.
    cbn. lia.
  - rewrite ChangeName1_payload_bare, length_append. cbn. lia.
Qed.

(** ** One run of a claim, [part_000] *)

Lemma recvd_len_enough : 12 <= Part000.recvd_len.
Proof. apply Nat.leb_le. vm_compute. reflexivity. Qed.

Section ClaimRuns.

Variables (w : World) (username : string) (changeTime : Time) (createProfile : bool).
Variable s : State.

Lemma ChangeName_live :
  tls_Dial_result w = None ->
  Part000.ChangeName w username changeTime createProfile s =
  Returned (claim_result w s username)
           (advanced s 4 0
              (claim_events w s "ChangeName"
                 (Part000.ChangeName_payload (Bearer (acct s)) username createProfile)
                 changeTime)).
Proof.
  intros Hd. destruct s as [a t e tr].
  unfold Part000.ChangeName, Part000.all_but_last2, Part000.last2, claim_result.
  unfold_go. rewrite Hd, ChangeName_payload_long. unfold_go.
  rewrite slice_fill by exact recvd_len_enough.
  destruct (Atoi (status_bytes (conn_Read_input w))) as [status [err|]]; same_state.
Qed.

Lemma ChangeName1_live :
  tls_Dial_result w = None ->
  Part000.ChangeName1 w username changeTime createProfile s =
  Returned (claim_result w s username)
           (advanced s 4 0
              (claim_events w s "ChangeName1"
                 (Part000.ChangeName1_payload (Bearer (acct s)) username createProfile)
                 changeTime)).
Proof.
  intros Hd. destruct s as [a t e tr].
  unfold Part000.ChangeName1, Part000.all_but_last2, Part000.last2, claim_result.
  unfold_go. rewrite Hd, ChangeName1_payload_long. unfold_go.
  rewrite slice_fill by exact recvd_len_enough.
  destruct (Atoi (status_bytes (conn_Read_input w))) as [status [err|]]; same_state.
Qed.

(** A failed dial gives the nil connection, and the write that comes
    before the test of [err] panics on it. *)
Lemma ChangeName_dial_failed (err : foreign) :
  tls_Dial_result w = Some err ->
  Part000.ChangeName w username changeTime createProfile s =
  Panicked nil_dereference (advanced s 1 0 (dial_events w s "ChangeName" changeTime)).
Proof.
  intros Hd. destruct s as [a t e tr].
  unfold Part000.ChangeName, Part000.all_but_last2.
  unfold_go. rewrite Hd, ChangeName_payload_long. unfold_go.
  same_state.
Qed.

Lemma ChangeName1_dial_failed (err : foreign) :
  tls_Dial_result w = Some err ->
  Part000.ChangeName1 w username changeTime createProfile s =
  Panicked nil_dereference (advanced s 1 0 (dial_events w s "ChangeName1" changeTime)).
Proof.
  intros Hd. destruct s as [a t e tr].
  unfold Part000.ChangeName1, Part000.all_but_last2.
  unfold_go. rewrite Hd, ChangeName1_payload_long. unfold_go.
  same_state.
Qed.

End ClaimRuns.

(** ** One run of a claim, [src/account.go] *)

Section ClaimRunsGo.

Variable w : World.
Variable generatePayload :
  string -> string -> list (string * string) -> string -> string * option error.
Variables (username : string) (changeTime : Time) (createProfile : bool).
Variable s : State.
Variable payload : string.

Lemma ChangeName_go_refused (err : error) :
  generated generatePayload (Bearer (acct s)) username createProfile = (payload, Some err) ->
  AccountGo.ChangeName w generatePayload username changeTime createProfile s =
  Returned (AccountGo.mkNameChangeReturn zeroMCaccount username false 0%Z
              zeroTime zeroTime, Some err)
           (entered "ChangeName" s).
Proof.
  destruct s as [a t e tr]. intros Hg. unfold generated in Hg. cbn [acct] in Hg.
  unfold AccountGo.ChangeName. unfold_go. rewrite Hg. reflexivity.
Qed.

Lemma ChangeName_go_live :
  generated generatePayload (Bearer (acct s)) username createProfile = (payload, None) ->
  tls_Dial_result w = None ->
  AccountGo.ChangeName w generatePayload username changeTime createProfile s =
  Returned (claim_result_go w s username changeTime)
           (advanced s (early_readings w s changeTime + 3) 0
              (claim_events_go w s payload changeTime)).
Proof.
  destruct s as [a t e tr]. intros Hg Hd. unfold generated in Hg. cbn [acct] in Hg.
  unfold AccountGo.ChangeName, claim_result_go, early_readings, early_wait.
  unfold_go. rewrite Hg. unfold_go.
  destruct (After changeTime (clock w t)) eqn:Hafter;
    unfold_go; rewrite Hd; unfold_go; rewrite slice_fill by lia;
    destruct (Atoi (status_bytes (conn_Read_input w))) as [status err];
    unfold claim_events_go, early_readings, early_wait; cbn [ticks]; rewrite Hafter;
    same_state.
Qed.

(** The write on the nil connection comes before the test of [err]
    here too. *)
Lemma ChangeName_go_dial_failed (err : foreign) :
  generated generatePayload (Bearer (acct s)) username createProfile = (payload, None) ->
  tls_Dial_result w = Some err ->
  AccountGo.ChangeName w generatePayload username changeTime createProfile s =
  Panicked nil_dereference
           (advanced s (early_readings w s changeTime + 1) 0
              ([EvCall "ChangeName"; EvNow (clock w (ticks s))]
               ++ early_wait w s changeTime ++ [EvDial "tcp" provider])%list).
Proof.
  destruct s as [a t e tr]. intros Hg Hd. unfold generated in Hg. cbn [acct] in Hg.
  unfold AccountGo.ChangeName, early_readings, early_wait.
  unfold_go. rewrite Hg. unfold_go.
  destruct (After changeTime (clock w t)) eqn:Hafter;
    unfold_go; rewrite Hd; unfold_go; same_state.
Qed.

End ClaimRunsGo.

(** ** The outcome record *)

Section Outcome.

Variable w : World.
Variable generatePayload :
  string -> string -> list (string * string) -> string -> string * option error.
Variables (username : string) (changeTime : Time) (createProfile : bool).
Variable s : State.

(** Whatever the read delivered, a claim that returns without an error
    has [ChangedName] equal to [StatusCode < 300]. *)
Lemma ChangeName_success_flag (ret : Part000.NameChangeReturn) (s' : State) :
  Part000.ChangeName w username changeTime createProfile s = Returned (ret, None) s' ->
  Part000.ChangedName ret = (Part000.StatusCode ret <? 300)%Z.
Proof.
  destruct (tls_Dial_result w) as [e|] eqn:Hd.
  - rewrite (ChangeName_dial_failed _ _ _ _ _ e Hd). discriminate.
  - rewrite (ChangeName_live _ _ _ _ _ Hd). unfold claim_result.
    destruct (Atoi (status_bytes (conn_Read_input w))) as [status [err|]];
      intros H; inversion H; reflexivity.
Qed.

(** C1. For every status code in [0, 999]: when the connection is
    established and the three bytes at offset 9 of the response are the
    digits of that code, [ChangeName] (and [ChangeName1], and the
    [ChangeName] of [src/account.go] once its payload is generated)
    returns without an error an outcome whose status code is that code and
    whose success boolean equals [code < 300]. *)
Theorem ChangedName_iff_status_below_300 (code : Z) :
  (0 <= code <= 999)%Z ->
  tls_Dial_result w = None ->
  status_bytes (conn_Read_input w) = digits3 code ->
  (exists ret s',
     Part000.ChangeName w username changeTime createProfile s = Returned (ret, None) s' /\
     Part000.StatusCode ret = code /\
     Part000.ChangedName ret = (code <? 300)%Z) /\
  (exists ret s',
     Part000.ChangeName1 w username changeTime createProfile s = Returned (ret, None) s' /\
     Part000.StatusCode ret = code /\
     Part000.ChangedName ret = (code <? 300)%Z) /\
  (snd (generated generatePayload (Bearer (acct s)) username createProfile) = None ->
   exists ret s',
     AccountGo.ChangeName w generatePayload username changeTime createProfile s
       = Returned (ret, None) s' /\
     AccountGo.statusCode ret = code /\
     AccountGo.changedName ret = (code <? 300)%Z).
Proof.
  intros Hcode Hd Hbytes.
  pose proof (Atoi_digits3 code Hcode) as HA.
  repeat split.
  - rewrite (ChangeName_live _ _ _ _ _ Hd). unfold claim_result.
    rewrite Hbytes, HA. eauto.
  - rewrite (ChangeName1_live _ _ _ _ _ Hd). unfold claim_result.
    rewrite Hbytes, HA. eauto.
  - intros Hg.
    destruct (generated generatePayload (Bearer (acct s)) username createProfile)
      as [payload err] eqn:Eg.
    cbn in Hg. subst err.
    rewrite (ChangeName_go_live _ _ _ _ _ _ payload Eg Hd). unfold claim_result_go.
    rewrite Hbytes, HA. cbn [fst]. eauto.
Qed.

End Outcome.

Lemma ChangedName_iff_status_below_300_witness :
  (0 <= 403 <= 999)%Z /\
  tls_Dial_result Scenario.forbidden_world = None /\
  status_bytes (conn_Read_input Scenario.forbidden_world) = digits3 403 /\
  exists ret s',
    Part000.ChangeName Scenario.forbidden_world "Notch" Scenario.in_a_minute false
                       (init Scenario.steve)
      = Returned (ret, None) s' /\
    Part000.StatusCode ret = 403%Z /\
    Part000.ChangedName ret = (403 <? 300)%Z.
Proof.
  split; [lia|]. split; [reflexivity|]. split; [reflexivity|].
  apply (ChangedName_iff_status_below_300 Scenario.forbidden_world
           Scenario.sample_generatePayload "Notch" Scenario.in_a_minute false
           (init Scenario.steve) 403);
    [lia | reflexivity | reflexivity].
Defined.

(** ** The receiver is read, never written *)

Section Receiver.

Variable w : World.
Variable generatePayload :
  string -> string -> list (string * string) -> string -> string * option error.
Variables (username : string) (changeTime : Time) (createProfile : bool).
Variable s : State.

(** C10. [ChangeName] leaves every field of the account as it found it;
    the outcome it returns without an error carries a copy of the account,
    the outcome it returns with an error carries the zero account; and
    what it does depends on the account through [Bearer] only.  The same
    holds of [ChangeName1] and of the [ChangeName] of [src/account.go]. *)
Theorem ChangeName_reads_Bearer_only :
  (acct (final (Part000.ChangeName w username changeTime createProfile s)) = acct s /\
   (forall ret err s',
      Part000.ChangeName w username changeTime createProfile s = Returned (ret, err) s' ->
      Part000.Account ret = match err with None => acct s | Some _ => zeroMCaccount end) /\
   (forall a', Bearer a' = Bearer (acct s) ->
      trace (final (Part000.ChangeName w username changeTime createProfile
                      (mkState a' (ticks s) (exchanges s) (trace s))))
      = trace (final (Part000.ChangeName w username changeTime createProfile s)))) /\
  (acct (final (Part000.ChangeName1 w username changeTime createProfile s)) = acct s /\
   (forall ret err s',
      Part000.ChangeName1 w username changeTime createProfile s = Returned (ret, err) s' ->
      Part000.Account ret = match err with None => acct s | Some _ => zeroMCaccount end) /\
   (forall a', Bearer a' = Bearer (acct s) ->
      trace (final (Part000.ChangeName1 w username changeTime createProfile
                      (mkState a' (ticks s) (exchanges s) (trace s))))
      = trace (final (Part000.ChangeName1 w username changeTime createProfile s)))) /\
  (acct (final (AccountGo.ChangeName w generatePayload username changeTime createProfile s))
     = acct s /\
   (forall ret err s',
      AccountGo.ChangeName w generatePayload username changeTime createProfile s
        = Returned (ret, err) s' ->
      AccountGo.account ret = match err with None => acct s | Some _ => zeroMCaccount end) /\
   (forall a', Bearer a' = Bearer (acct s) ->
      trace (final (AccountGo.ChangeName w generatePayload username changeTime createProfile
                      (mkState a' (ticks s) (exchanges s) (trace s))))
      = trace (final (AccountGo.ChangeName w generatePayload username changeTime
                        createProfile s)))).
Proof.
  split; [|split].
  - destruct (tls_Dial_result w) as [e|] eqn:Hd.
    + split; [|split].
      * rewrite (ChangeName_dial_failed _ _ _ _ _ e Hd). reflexivity.
      * intros ret err s'. rewrite (ChangeName_dial_failed _ _ _ _ _ e Hd). discriminate.
      * intros a' Ha. rewrite !(ChangeName_dial_failed _ _ _ _ _ e Hd). reflexivity.
    + split; [|split].
      * rewrite (ChangeName_live _ _ _ _ _ Hd). reflexivity.
      * intros ret err s'. rewrite (ChangeName_live _ _ _ _ _ Hd). unfold claim_result.
        destruct (Atoi (status_bytes (conn_Read_input w))) as [status [e|]];
          intros H; inversion H; reflexivity.
      * intros a' Ha. rewrite !(ChangeName_live _ _ _ _ _ Hd).
        cbn [final advanced acct ticks exchanges trace]. unfold claim_events.
        cbn [acct ticks]. now rewrite Ha.
  - destruct (tls_Dial_result w) as [e|] eqn:Hd.
    + split; [|split].
      * rewrite (ChangeName1_dial_failed _ _ _ _ _ e Hd). reflexivity.
      * intros ret err s'. rewrite (ChangeName1_dial_failed _ _ _ _ _ e Hd). discriminate.
      * intros a' Ha. rewrite !(ChangeName1_dial_failed _ _ _ _ _ e Hd). reflexivity.
    + split; [|split].
      * rewrite (ChangeName1_live _ _ _ _ _ Hd). reflexivity.
      * intros ret err s'. rewrite (ChangeName1_live _ _ _ _ _ Hd). unfold claim_result.
        destruct (Atoi (status_bytes (conn_Read_input w))) as [status [e|]];
          intros H; inversion H; reflexivity.
      * intros a' Ha. rewrite !(ChangeName1_live _ _ _ _ _ Hd).
        cbn [final advanced acct ticks exchanges trace]. unfold claim_events.
        cbn [acct ticks]. now rewrite Ha.
  - destruct (generated generatePayload (Bearer (acct s)) username createProfile)
      as [payload [ge|]] eqn:Eg.
    + split; [|split].
      * rewrite (ChangeName_go_refused _ _ _ _ _ _ payload ge Eg). reflexivity.
      * intros ret err s'. rewrite (ChangeName_go_refused _ _ _ _ _ _ payload ge Eg).
        intros H; inversion H; reflexivity.
      * intros a' Ha.
        rewrite (ChangeName_go_refused _ _ _ _ _ _ payload ge Eg).
        rewrite (ChangeName_go_refused w generatePayload username changeTime createProfile
                   (mkState a' (ticks s) (exchanges s) (trace s)) payload ge)
          by (cbn [acct]; rewrite Ha; exact Eg).
        reflexivity.
    + destruct (tls_Dial_result w) as [e|] eqn:Hd.
      * split; [|split].
        -- rewrite (ChangeName_go_dial_failed _ _ _ _ _ _ payload e Eg Hd). reflexivity.
        -- intros ret err s'.
           rewrite (ChangeName_go_dial_failed _ _ _ _ _ _ payload e Eg Hd). discriminate.
        -- intros a' Ha.
           rewrite (ChangeName_go_dial_failed _ _ _ _ _ _ payload e Eg Hd).
           rewrite (ChangeName_go_dial_failed w generatePayload username changeTime
                      createProfile (mkState a' (ticks s) (exchanges s) (trace s))
                      payload e)
             by (cbn [acct]; try rewrite Ha; assumption).
           reflexivity.
      * split; [|split].
        -- rewrite (ChangeName_go_live _ _ _ _ _ _ payload Eg Hd). reflexivity.
        -- intros ret err s'. rewrite (ChangeName_go_live _ _ _ _ _ _ payload Eg Hd).
           unfold claim_result_go. intros H; inversion H; reflexivity.
        -- intros a' Ha.
           rewrite (ChangeName_go_live _ _ _ _ _ _ payload Eg Hd).
           rewrite (ChangeName_go_live w generatePayload username changeTime
                      createProfile (mkState a' (ticks s) (exchanges s) (trace s))
                      payload)
             by (cbn [acct]; try rewrite Ha; assumption).
           reflexivity.
Qed.

End Receiver.

Lemma ChangeName_reads_Bearer_only_witness :
  Part000.ChangeName Scenario.truncated_world "Notch" Scenario.in_a_minute true
                     (init Scenario.steve)
  = Returned
      (Part000.mkNameChangeReturn zeroMCaccount "Notch" false 0%Z
         (Scenario.ticking Scenario.autumn_2026 2) zeroTime,
       Some (syntaxError (status_bytes (conn_Read_input Scenario.truncated_world))))
      (advanced (init Scenario.steve) 4 0
         (claim_events Scenario.truncated_world (init Scenario.steve) "ChangeName"
            (Part000.ChangeName_payload "token" "Notch" true) Scenario.in_a_minute)) /\
  Part000.Account
    (Part000.mkNameChangeReturn zeroMCaccount "Notch" false 0%Z
       (Scenario.ticking Scenario.autumn_2026 2) zeroTime)
  = zeroMCaccount.
Proof.
  assert (H : Part000.ChangeName Scenario.truncated_world "Notch" Scenario.in_a_minute true
                (init Scenario.steve)
              = Returned
                  (Part000.mkNameChangeReturn zeroMCaccount "Notch" false 0%Z
                     (Scenario.ticking Scenario.autumn_2026 2) zeroTime,
                   Some (syntaxError
                           (status_bytes (conn_Read_input Scenario.truncated_world))))
                  (advanced (init Scenario.steve) 4 0
                     (claim_events Scenario.truncated_world (init Scenario.steve)
                        "ChangeName"
                        (Part000.ChangeName_payload "token" "Notch" true)
                        Scenario.in_a_minute)))
    by (vm_compute; reflexivity).
  split; [exact H|].
  exact (proj1 (proj2 (proj1
           (ChangeName_reads_Bearer_only Scenario.truncated_world
              Scenario.sample_generatePayload "Notch" Scenario.in_a_minute true
              (init Scenario.steve)))) _ _ _ H).
Defined.

(** ** The two writes *)

Section TwoWrites.

Variable w : World.
Variable generatePayload :
  string -> string -> list (string * string) -> string -> string * option error.
Variables (username : string) (changeTime : Time) (createProfile : bool).
Variable s : State.

Lemma writes_claim_events (method payload : string) :
  writes (claim_events w s method payload changeTime) =
  [take (String.length payload - 2) payload; drop (String.length payload - 2) payload].
Proof. reflexivity. Qed.

Lemma between_writes_claim_events (method payload : string) :
  between_writes (claim_events w s method payload changeTime) =
  [EvNow (clock w (1 + ticks s)); EvSleep (Sub changeTime (clock w (1 + ticks s)))].
Proof. reflexivity. Qed.

Lemma between_writes_claim_events_go (payload : string) :
  between_writes (claim_events_go w s payload changeTime) =
  [EvNow (clock w (early_readings w s changeTime + (1 + ticks s)))].
Proof.
  unfold claim_events_go, early_wait, early_readings.
  destruct (After changeTime (clock w (ticks s))); reflexivity.
Qed.

(** C2, as the code has it.  On a live connection the events of
    [ChangeName] of [part_000] are those of [claim_events]: the first write
    (all but the last two bytes) follows the dial at once, ahead of the
    final wait; between the two writes the clock is read and
    [time.Sleep(time.Until(changeTime))] is called, once; the second write
    (the last two bytes) is the next thing done after that sleep.  The
    same holds of [ChangeName1].  In [src/account.go] the two writes follow
    the dial with one clock reading and no sleep between them. *)
Theorem writes_are_split_by_the_final_wait :
  tls_Dial_result w = None ->
  (trace (final (Part000.ChangeName w username changeTime createProfile s))
   = (trace s
      ++ claim_events w s "ChangeName"
           (Part000.ChangeName_payload (Bearer (acct s)) username createProfile)
           changeTime)%list /\
   between_writes
     (claim_events w s "ChangeName"
        (Part000.ChangeName_payload (Bearer (acct s)) username createProfile) changeTime)
   = [EvNow (clock w (1 + ticks s)); EvSleep (Sub changeTime (clock w (1 + ticks s)))]) /\
  (trace (final (Part000.ChangeName1 w username changeTime createProfile s))
   = (trace s
      ++ claim_events w s "ChangeName1"
           (Part000.ChangeName1_payload (Bearer (acct s)) username createProfile)
           changeTime)%list /\
   between_writes
     (claim_events w s "ChangeName1"
        (Part000.ChangeName1_payload (Bearer (acct s)) username createProfile) changeTime)
   = [EvNow (clock w (1 + ticks s)); EvSleep (Sub changeTime (clock w (1 + ticks s)))]) /\
  (forall payload,
     generated generatePayload (Bearer (acct s)) username createProfile = (payload, None) ->
     trace (final (AccountGo.ChangeName w generatePayload username changeTime
                     createProfile s))
     = (trace s ++ claim_events_go w s payload changeTime)%list /\
     between_writes (claim_events_go w s payload changeTime)
     = [EvNow (clock w (early_readings w s changeTime + (1 + ticks s)))]).
Proof.
  intros Hd. split; [|split].
  - rewrite (ChangeName_live _ _ _ _ _ Hd). split; reflexivity.
  - rewrite (ChangeName1_live _ _ _ _ _ Hd). split; reflexivity.
  - intros payload Hg. rewrite (ChangeName_go_live _ _ _ _ _ _ payload Hg Hd).
    split; [reflexivity | apply between_writes_claim_events_go].
Qed.

End TwoWrites.

Lemma writes_are_split_by_the_final_wait_witness :
  tls_Dial_result Scenario.ok_world = None /\
  trace (final (Part000.ChangeName Scenario.ok_world "Notch" Scenario.in_a_minute false
                  (init Scenario.steve)))
  = (trace (init Scenario.steve)
     ++ claim_events Scenario.ok_world (init Scenario.steve) "ChangeName"
          (Part000.ChangeName_payload (Bearer (acct (init Scenario.steve))) "Notch" false)
          Scenario.in_a_minute)%list.
Proof.
  split; [reflexivity|].
  exact (proj1 (proj1
           (writes_are_split_by_the_final_wait Scenario.ok_world
              Scenario.sample_generatePayload "Notch" Scenario.in_a_minute false
              (init Scenario.steve) eq_refl))).
Defined.

(** C2, as stated, fails: with the target one minute ahead, a sleep of
    59.999 seconds lies between the two writes of [ChangeName]. *)
Lemma ChangeName_sleeps_between_the_writes :
  between_writes
    (trace (final (Part000.ChangeName Scenario.ok_world "Notch" Scenario.in_a_minute
                     false (init Scenario.steve))))
  = [EvNow (Scenario.autumn_2026 + 1000000)%Z; EvSleep 59999000000%Z] /\
  suspended
    (between_writes
       (trace (final (Part000.ChangeName Scenario.ok_world "Notch" Scenario.in_a_minute
                        false (init Scenario.steve)))))
  = true.
Proof. split; vm_compute; reflexivity. Qed.

(** ** Where the request is cut *)

Lemma writes_app (a b : list event) : writes (a ++ b)%list = (writes a ++ writes b)%list.
Proof.
  induction a as [|e a IH]; [reflexivity|].
  destruct e; cbn [writes List.app]; rewrite ?IH; reflexivity.
Qed.

Lemma first_second_write (payload : string) :
  first_write payload ++ second_write payload = payload.
Proof. apply take_drop. Qed.

Section Cut.

Variable w : World.
Variables (username : string) (changeTime : Time).
Variable s : State.

(** C3, as the code has it.  For both request shapes, on a live
    connection, the first write of [ChangeName] is the prebuilt request
    without its last two bytes and the second write is those two bytes.
    For the rename ([createProfile] false) the two bytes are the CRLF of
    the blank line; for the profile creation ([createProfile] true) they
    are the closing quote and brace of the JSON body, the blank line having
    gone out with the first write.  The same holds of [ChangeName1]. *)
Theorem request_is_cut_two_bytes_before_its_end (createProfile : bool) :
  tls_Dial_result w = None ->
  (writes (trace (final (Part000.ChangeName w username changeTime createProfile s)))
   = (writes (trace s)
      ++ [first_write (Part000.ChangeName_payload (Bearer (acct s)) username createProfile);
          second_write (Part000.ChangeName_payload (Bearer (acct s)) username createProfile)
         ])%list /\
   second_write (Part000.ChangeName_payload (Bearer (acct s)) username createProfile)
   = (if createProfile then DQ ++ "}" else CRLF) /\
   first_write (Part000.ChangeName_payload (Bearer (acct s)) username createProfile)
   ++ (if createProfile then DQ ++ "}" else CRLF)
   = Part000.ChangeName_payload (Bearer (acct s)) username createProfile) /\
  (writes (trace (final (Part000.ChangeName1 w username changeTime createProfile s)))
   = (writes (trace s)
      ++ [first_write (Part000.ChangeName1_payload (Bearer (acct s)) username createProfile);
          second_write (Part000.ChangeName1_payload (Bearer (acct s)) username createProfile)
         ])%list /\
   second_write (Part000.ChangeName1_payload (Bearer (acct s)) username createProfile)
   = (if createProfile then DQ ++ "}" else CRLF) /\
   first_write (Part000.ChangeName1_payload (Bearer (acct s)) username createProfile)
   ++ (if createProfile then DQ ++ "}" else CRLF)
   = Part000.ChangeName1_payload (Bearer (acct s)) username createProfile).
Proof.
  intros Hd.
  assert (Hcut : forall p a b, p = a ++ b -> String.length b = 2 ->
                 second_write p = b /\ first_write p ++ b = p).
  { intros p a b -> Hb. unfold first_write, second_write.
    destruct (split_last2 a b Hb) as [-> ->]. split; reflexivity. }
  split.
  - rewrite (ChangeName_live _ _ _ _ _ Hd).
    cbn [final advanced trace]. rewrite writes_app, writes_claim_events.
    split; [reflexivity|].
    destruct createProfile.
    + apply (Hcut _ _ _ (ChangeName_payload_create _ _)). reflexivity.
    + apply (Hcut _ _ _ (ChangeName_payload_rename _ _)). reflexivity.
  - rewrite (ChangeName1_live _ _ _ _ _ Hd).
    cbn [final advanced trace]. rewrite writes_app, writes_claim_events.
    split; [reflexivity|].
    destruct createProfile.
    + rewrite ChangeName1_payload_create.
      apply (Hcut _ _ _ (ChangeName_payload_create _ _)). reflexivity.
    + apply (Hcut _ _ _ (ChangeName1_payload_bare _ _)). reflexivity.
Qed.

End Cut.

Lemma request_is_cut_two_bytes_before_its_end_witness :
  tls_Dial_result Scenario.ok_world = None /\
  second_write
    (Part000.ChangeName_payload (Bearer (acct (init Scenario.steve))) "Notch" false)
  = CRLF.
Proof.
  split; [reflexivity|].
  exact (proj1 (proj2 (proj1
           (request_is_cut_two_bytes_before_its_end Scenario.ok_world "Notch"
              Scenario.in_a_minute (init Scenario.steve) false eq_refl)))).
Defined.

(** C3, as stated, fails for the profile creation: the second write of
    [ChangeName] is the end of the JSON body, not the CRLF of the blank
    line, and the blank line is inside the first write. *)
Lemma second_write_of_a_creation_is_not_the_blank_line :
  nth 1 (writes (trace (final (Part000.ChangeName Scenario.ok_world "Notch"
                                 Scenario.in_a_minute true (init Scenario.steve)))))
        EmptyString
  = DQ ++ "}" /\
  nth 1 (writes (trace (final (Part000.ChangeName Scenario.ok_world "Notch"
                                 Scenario.in_a_minute true (init Scenario.steve)))))
        EmptyString
  <> CRLF /\
  nth 0 (writes (trace (final (Part000.ChangeName Scenario.ok_world "Notch"
                                 Scenario.in_a_minute true (init Scenario.steve)))))
        EmptyString
  = "POST /minecraft/profile HTTP/1.1" ++ CRLF
    ++ "Host: api.minecraftservices.com" ++ CRLF
    ++ "Authorization: Bearer token" ++ CRLF
    ++ "Content-Type: application/json" ++ CRLF
    ++ "Content-Length: 24" ++ CRLF
    ++ CRLF
    ++ "{" ++ DQ ++ "profileName" ++ DQ ++ ": " ++ DQ ++ "Notch".
Proof.
  split; [vm_compute; reflexivity|].
  split; [vm_compute; discriminate|].
  vm_compute; reflexivity.
Qed.

(** ** Failures of a claim *)

Section Failures.

Variable w : World.
Variables (username : string) (changeTime : Time) (createProfile : bool).
Variable s : State.

(** When [Atoi] rejects the three status bytes, [ChangeName] returns its
    error; the outcome keeps the send time, read right after the second
    write, and has the zero receive time. *)
Lemma ChangeName_malformed_status (v : Z) (err : error) :
  tls_Dial_result w = None ->
  Atoi (status_bytes (conn_Read_input w)) = (v, Some err) ->
  Part000.ChangeName w username changeTime createProfile s =
  Returned (Part000.mkNameChangeReturn zeroMCaccount username false 0%Z
              (clock w (2 + ticks s)) zeroTime, Some err)
           (advanced s 4 0
              (claim_events w s "ChangeName"
                 (Part000.ChangeName_payload (Bearer (acct s)) username createProfile)
                 changeTime)).
Proof.
  intros Hd HA. rewrite (ChangeName_live _ _ _ _ _ Hd).
  unfold claim_result. now rewrite HA.
Qed.

End Failures.

(** [Atoi] takes a sign for the first of the three bytes. *)
Example Atoi_signed : Atoi "+12" = (12%Z, None) /\ all_digits "+12" = false.
Proof. split; reflexivity. Qed.

(** A status line [HTTP/1.1 +12 OK] is taken for status 12, a success. *)
Example ChangeName_signed_status :
  Part000.ChangeName Scenario.signed_world "Notch" Scenario.in_a_minute false
                     (init Scenario.steve)
  = Returned
      (Part000.mkNameChangeReturn Scenario.steve "Notch" true 12%Z
         (Scenario.ticking Scenario.autumn_2026 2)
         (Scenario.ticking Scenario.autumn_2026 3), None)
      (advanced (init Scenario.steve) 4 0
         (claim_events Scenario.signed_world (init Scenario.steve) "ChangeName"
            (Part000.ChangeName_payload "token" "Notch" false) Scenario.in_a_minute)).
Proof. vm_compute. reflexivity. Qed.

(** A status line cut after ten bytes: [part_000] reports the syntax
    error with the send time; [src/account.go] drops the error and reports
    status 0 as a success. *)
Example ChangeName_truncated_status :
  Part000.ChangeName Scenario.truncated_world "Notch" Scenario.in_a_minute false
                     (init Scenario.steve)
  = Returned
      (Part000.mkNameChangeReturn zeroMCaccount "Notch" false 0%Z
         (Scenario.ticking Scenario.autumn_2026 2) zeroTime,
       Some (syntaxError (status_bytes (conn_Read_input Scenario.truncated_world))))
      (advanced (init Scenario.steve) 4 0
         (claim_events Scenario.truncated_world (init Scenario.steve) "ChangeName"
            (Part000.ChangeName_payload "token" "Notch" false) Scenario.in_a_minute)) /\
  returned (AccountGo.ChangeName Scenario.truncated_world Scenario.sample_generatePayload
              "Notch" Scenario.in_a_minute false (init Scenario.steve))
  = Some (AccountGo.mkNameChangeReturn Scenario.steve "Notch" true 0%Z
            (Scenario.ticking Scenario.autumn_2026 2)
            (Scenario.ticking Scenario.autumn_2026 3), None).
Proof. split; vm_compute; reflexivity. Qed.

(** C7, at the failing input.  The dial fails: [ChangeName] panics on the
    write to the nil connection that precedes the test of [err], in both
    copies and in [ChangeName1]; nothing is returned, so no outcome with
    zero timestamps either. *)
Theorem failed_dial_panics_before_err_is_tested :
  Part000.ChangeName Scenario.offline_world "Notch" Scenario.in_a_minute false
                     (init Scenario.steve)
  = Panicked nil_dereference
      (mkState Scenario.steve 1 0
         [EvCall "ChangeName"; EvNow Scenario.autumn_2026; EvSleep 40000000000%Z;
          EvDial "tcp" provider]) /\
  Part000.ChangeName1 Scenario.offline_world "Notch" Scenario.in_a_minute false
                      (init Scenario.steve)
  = Panicked nil_dereference
      (mkState Scenario.steve 1 0
         [EvCall "ChangeName1"; EvNow Scenario.autumn_2026; EvSleep 40000000000%Z;
          EvDial "tcp" provider]) /\
  AccountGo.ChangeName Scenario.offline_world Scenario.sample_generatePayload "Notch"
                       Scenario.in_a_minute false (init Scenario.steve)
  = Panicked nil_dereference
      (mkState Scenario.steve 2 0
         [EvCall "ChangeName"; EvNow Scenario.autumn_2026;
          EvNow (Scenario.autumn_2026 + 1000000)%Z; EvSleep 39999000000%Z;
          EvDial "tcp" provider]).
Proof. repeat split; vm_compute; reflexivity. Qed.

(** ** The wait before the dial *)

Lemma wrap64_small (z : Z) : (- 2 ^ 63 <= z < 2 ^ 63)%Z -> wrap64 z = z.
Proof.
  intros H. unfold wrap64. rewrite Z.mod_small by lia. lia.
Qed.

Lemma lead_value : lead = 20000000000%Z.
Proof. reflexivity. Qed.

Lemma Sub_nonpositive (t u : Time) : (t <= u)%Z -> (Sub t u <= 0)%Z.
Proof.
  intros H. unfold Sub, minDuration, maxDuration.
  destruct (t - u <? - 2 ^ 63)%Z eqn:E1; [lia|].
  destruct (2 ^ 63 - 1 <? t - u)%Z eqn:E2; [apply Z.ltb_lt in E2; lia | lia].
Qed.

Section Wait.

Variable w : World.
Variable generatePayload :
  string -> string -> list (string * string) -> string -> string * option error.
Variables (username : string) (changeTime : Time) (createProfile : bool).
Variable s : State.

(** [src/account.go] tests [changeTime.After(time.Now())]: for a target
    at or before the clock it calls [time.Sleep] not at all. *)
Lemma ChangeName_go_past_target_no_sleep (payload : string) :
  (changeTime <= clock w (ticks s))%Z ->
  sleeps (claim_events_go w s payload changeTime) = [].
Proof.
  intros H. unfold claim_events_go, early_wait, early_readings, After.
  apply Z.ltb_ge in H. rewrite H. reflexivity.
Qed.

(** [part_000] calls [time.Sleep] whatever the target.  For a target at
    or before the clock, and less than [2^63] nanoseconds minus the lead
    before it, both durations are negative or zero, and the sleeps return
    at once. *)
Lemma ChangeName_near_past_target_no_suspension (method payload : string) :
  (clock w (ticks s) <= clock w (1 + ticks s))%Z ->
  (changeTime <= clock w (ticks s))%Z ->
  (clock w (ticks s) - changeTime <= 2 ^ 63 - 20000000000)%Z ->
  suspended (claim_events w s method payload changeTime) = false.
Proof.
  intros Hmono Hpast Hnear.
  unfold suspended, claim_events. cbn [sleeps existsb]. unfold suspends.
  rewrite orb_false_r. apply orb_false_iff. split; apply Z.ltb_ge.
  - unfold dur_sub. rewrite lead_value.
    pose proof (Sub_nonpositive changeTime (clock w (ticks s)) Hpast) as Hs.
    assert (Hlow : (- 2 ^ 63 + 20000000000 <= Sub changeTime (clock w (ticks s)))%Z).
    { unfold Sub, minDuration, maxDuration.
      destruct (changeTime - clock w (ticks s) <? - 2 ^ 63)%Z eqn:E1;
        [apply Z.ltb_lt in E1; lia|].
      destruct (2 ^ 63 - 1 <? changeTime - clock w (ticks s))%Z eqn:E2;
        [apply Z.ltb_lt in E2; lia | lia]. }
    rewrite wrap64_small by lia. lia.
  - apply Sub_nonpositive. lia.
Qed.

End Wait.

(** C8, at the failing input.  The target is the zero [time.Time], the
    clock stands in 2026: [time.Until] saturates at the least duration,
    taking the lead off it wraps around, and [ChangeName] of [part_000]
    calls [time.Sleep] with 9223372016854775808 nanoseconds, some 292
    years, before it dials. *)
Theorem far_past_target_sleeps_before_the_dial :
  sleeps (trace (final (Part000.ChangeName Scenario.ok_world "Notch" zeroTime false
                          (init Scenario.steve))))
  = [9223372016854775808%Z; minDuration] /\
  suspended (before_dial
               (trace (final (Part000.ChangeName Scenario.ok_world "Notch" zeroTime false
                                (init Scenario.steve)))))
  = true /\
  (zeroTime <= clock Scenario.ok_world 0)%Z /\
  sleeps (trace (final (AccountGo.ChangeName Scenario.ok_world
                          Scenario.sample_generatePayload "Notch" zeroTime false
                          (init Scenario.steve))))
  = [].
Proof.
  split; [vm_compute; reflexivity|].
  split; [vm_compute; reflexivity|].
  split; [vm_compute; discriminate|].
  vm_compute; reflexivity.
Qed.

(** ** The authentication steps *)

(** Splits the goal on the innermost thing a [match] is stuck on, and
    runs the monad on. *)
Ltac split_match :=
  match goal with
  | |- context [match ?x with _ => _ end] =>
      lazymatch x with
      | context [match _ with _ => _ end] => fail
      | _ => destruct x eqn:?
      end
  end.

Ltac crunch := repeat (split_match; unfold_go).

Lemma requests_app (a b : list event) :
  requests (a ++ b)%list = (requests a ++ requests b)%list.
Proof.
  induction a as [|e a IH]; [reflexivity|].
  destruct e; cbn [requests List.app]; rewrite ?IH; reflexivity.
Qed.

Lemma calls_app (a b : list event) : calls (a ++ b)%list = (calls a ++ calls b)%list.
Proof.
  induction a as [|e a IH]; [reflexivity|].
  destruct e; cbn [calls List.app]; rewrite ?IH; reflexivity.
Qed.

Lemma length_3 {A} (l : list A) :
  List.length l = 3 -> exists x y z, l = [x; y; z].
Proof.
  destruct l as [|x [|y [|z [|u l]]]]; cbn; intros H; try discriminate.
  now exists x, y, z.
Qed.

Lemma length_not_3 {A} (l : list A) :
  List.length l <> 3 -> negb (List.length l =? 3)%nat = true.
Proof. intros H. apply negb_true_iff. now apply Nat.eqb_neq. Qed.

Section SubmitAnswers.

Variable w : World.
Variable s : State.

(** C4. [submitAnswers] returns one of its two input-validation errors
    when, and only when, the number of answers or the number of questions
    on the account is not 3; and when it does, it returns from the state it
    was called in, with no request built and no exchange made.  So it is
    in [part_000] and in [src/account.go]. *)
Theorem submitAnswers_wants_three_and_three :
  ((List.length (SecurityAnswers (acct s)) <> 3 \/
    List.length (SecurityQuestions (acct s)) <> 3) ->
   (exists e,
      In e InputValidation /\
      Part000.submitAnswers w s = Returned (Some e) (entered "submitAnswers" s)) /\
   (exists e,
      In e InputValidation_go /\
      AccountGo.submitAnswers w s = Returned (Some e) (entered "submitAnswers" s)) /\
   requests (trace (entered "submitAnswers" s)) = requests (trace s) /\
   exchanges (entered "submitAnswers" s) = exchanges s) /\
  (List.length (SecurityAnswers (acct s)) = 3 ->
   List.length (SecurityQuestions (acct s)) = 3 ->
   (forall e s', Part000.submitAnswers w s = Returned (Some e) s' ->
                 ~ In e InputValidation) /\
   (forall e s', AccountGo.submitAnswers w s = Returned (Some e) s' ->
                 ~ In e InputValidation_go)).
Proof.
  destruct s as [a t e tr]. cbn [acct]. split.
  - intros Hcount.
    unfold Part000.submitAnswers, AccountGo.submitAnswers, entered. unfold_go.
    destruct (Nat.eq_dec (List.length (SecurityAnswers a)) 3) as [Ha | Ha].
    + destruct Hcount as [Hc | Hc]; [contradiction|].
      rewrite Ha, (length_not_3 _ Hc). cbn [Nat.eqb negb].
      repeat split.
      * eexists. split; [right; left; reflexivity | reflexivity].
      * eexists. split; [right; left; reflexivity | reflexivity].
      * rewrite requests_app. cbn. apply List.app_nil_r.
    + rewrite (length_not_3 _ Ha).
      repeat split.
      * eexists. split; [left; reflexivity | reflexivity].
      * eexists. split; [left; reflexivity | reflexivity].
      * rewrite requests_app. cbn. apply List.app_nil_r.
  - intros Ha Hq.
    destruct (length_3 _ Ha) as (a1 & a2 & a3 & Ea).
    destruct (length_3 _ Hq) as (q1 & q2 & q3 & Eq).
    unfold Part000.submitAnswers, AccountGo.submitAnswers,
           Part000.AuthenticatedReq, AccountGo.AuthenticatedReq.
    unfold_go. rewrite Ea, Eq. cbn [List.length Nat.eqb negb pair_answers nth_error].
    unfold_go.
    split; intros err s'; crunch;
      intros H; inversion H; subst; cbn; intuition discriminate.
Qed.

End SubmitAnswers.

Lemma submitAnswers_wants_three_and_three_witness :
  (List.length (SecurityAnswers (acct (init Scenario.alex))) <> 3 \/
   List.length (SecurityQuestions (acct (init Scenario.alex))) <> 3) /\
  exists e,
    In e InputValidation /\
    Part000.submitAnswers (Scenario.login_world [] 204 204) (init Scenario.alex)
    = Returned (Some e) (entered "submitAnswers" (init Scenario.alex)).
Proof.
  assert (H : List.length (SecurityAnswers (acct (init Scenario.alex))) <> 3 \/
              List.length (SecurityQuestions (acct (init Scenario.alex))) <> 3)
    by (right; cbn; lia).
  split; [exact H|].
  exact (proj1 (proj1 (submitAnswers_wants_three_and_three
                         (Scenario.login_world [] 204 204) (init Scenario.alex)) H)).
Defined.

(** ** The flow of [MojangAuthenticate] *)

Section Flow.

Variables (authenticate loadSecurityQuestions : M (option error)).
Variable needToAnswer : M (bool * option error).
Variable submitAnswers : M (option error).

(** No step touches the flag. *)
Hypothesis authenticate_flag :
  forall s, Authenticated (acct (final (authenticate s))) = Authenticated (acct s).
Hypothesis loadSecurityQuestions_flag :
  forall s, Authenticated (acct (final (loadSecurityQuestions s))) = Authenticated (acct s).
Hypothesis needToAnswer_flag :
  forall s, Authenticated (acct (final (needToAnswer s))) = Authenticated (acct s).
Hypothesis submitAnswers_flag :
  forall s, Authenticated (acct (final (submitAnswers s))) = Authenticated (acct s).

Lemma flag_after {A} (m : M A) (s : State) (o : outcome A) :
  (forall s, Authenticated (acct (final (m s))) = Authenticated (acct s)) ->
  m s = o -> Authenticated (acct (final o)) = Authenticated (acct s).
Proof. intros H <-. apply H. Qed.

Lemma length_0 {A} (l : list A) : (List.length l =? 0)%nat = true -> l = [].
Proof. destruct l; [reflexivity | discriminate]. Qed.

Lemma length_pos {A} (l : list A) : (List.length l =? 0)%nat = false -> l <> [].
Proof. destruct l; [discriminate | intros _ H; discriminate H]. Qed.

Ltac flow_fails tac :=
  split;
  [ intros ? H; discriminate H
  | split;
    [ intros ? ? H; inversion H; subst; split; [congruence | tac]
    | intros ? ? H; discriminate H ] ].

Ltac flow_panics :=
  split;
  [ intros ? H; discriminate H
  | split;
    [ intros ? ? H; discriminate H
    | intros ? ? H; inversion H; subst; congruence ] ].

Ltac flow_succeeds tac :=
  split;
  [ intros ? H; inversion H; subst; split; [reflexivity | tac]
  | split; intros ? ? H; discriminate H ].

Ltac ok := first [reflexivity | assumption].

Lemma flow_spec (s : State) :
  (forall s',
     flow authenticate loadSecurityQuestions needToAnswer submitAnswers s
     = Returned None s' ->
     Authenticated (acct s') = true /\
     every_step_succeeded authenticate loadSecurityQuestions needToAnswer submitAnswers
                          (entered "MojangAuthenticate" s) s') /\
  (forall e s',
     flow authenticate loadSecurityQuestions needToAnswer submitAnswers s
     = Returned (Some e) s' ->
     Authenticated (acct s') = Authenticated (acct s) /\
     a_step_failed authenticate loadSecurityQuestions needToAnswer submitAnswers
                   (entered "MojangAuthenticate" s) e s') /\
  (forall why s',
     flow authenticate loadSecurityQuestions needToAnswer submitAnswers s
     = Panicked why s' ->
     Authenticated (acct s') = Authenticated (acct s)).
Proof.
  unfold flow, every_step_succeeded, a_step_failed.
  cbv beta iota delta [bind call log ret assign get_account].
  fold (entered "MojangAuthenticate" s).
  set (s0 := entered "MojangAuthenticate" s).
  assert (F0 : Authenticated (acct s0) = Authenticated (acct s)) by reflexivity.
  destruct (authenticate s0) as [[e1|] s1 | why1 s1] eqn:E1;
    pose proof (flag_after _ _ _ authenticate_flag E1) as F1; cbn [final] in F1;
    [ flow_fails ltac:(now left) | | flow_panics ].
  destruct (loadSecurityQuestions s1) as [[e2|] s2 | why2 s2] eqn:E2;
    pose proof (flag_after _ _ _ loadSecurityQuestions_flag E2) as F2; cbn [final] in F2;
    [ flow_fails ltac:(right; exists s1; split; [ok | now left])
    | | flow_panics ].
  destruct (List.length (SecurityQuestions (acct s2)) =? 0)%nat eqn:E0.
  { fold (authenticated s2).
    flow_succeeds ltac:(exists s1, s2; split; [ok|]; split; [ok|];
                        left; split; [now apply length_0 | ok]). }
  destruct (needToAnswer s2) as [[b [e3|]] s3 | why3 s3] eqn:E3;
    pose proof (flag_after _ _ _ needToAnswer_flag E3) as F3; cbn [final] in F3;
    [ flow_fails ltac:(right; exists s1; split; [ok|]; right; exists s2;
                       split; [ok|]; left; exists b; ok)
    | | flow_panics ].
  destruct b; cbv beta iota delta [negb].
  2: { fold (authenticated s3).
       flow_succeeds ltac:(exists s1, s2; split; [ok|]; split; [ok|];
                           right; split; [now apply length_pos|]; exists s3;
                           left; split; ok). }
  destruct (submitAnswers s3) as [[e4|] s4 | why4 s4] eqn:E4;
    pose proof (flag_after _ _ _ submitAnswers_flag E4) as F4; cbn [final] in F4;
    [ flow_fails ltac:(right; exists s1; split; [ok|]; right; exists s2;
                       split; [ok|]; right; exists s3; split; ok)
    | | flow_panics ].
  fold (authenticated s4).
  flow_succeeds ltac:(exists s1, s2; split; [ok|]; split; [ok|];
                      right; split; [now apply length_pos|]; exists s3; right;
                      split; [ok|]; exists s4; split; ok).
Qed.

End Flow.

(** ** No step touches the flag *)

Ltac keeps_flag :=
  intros w [a t e tr]; unfold_go; crunch; reflexivity.

Lemma authenticate_flag :
  forall w s, Authenticated (acct (final (Part000.authenticate w s)))
              = Authenticated (acct s).
Proof. unfold Part000.authenticate. keeps_flag. Qed.

Lemma loadSecurityQuestions_flag :
  forall w s, Authenticated (acct (final (Part000.loadSecurityQuestions w s)))
              = Authenticated (acct s).
Proof. unfold Part000.loadSecurityQuestions, Part000.AuthenticatedReq. keeps_flag. Qed.

Lemma needToAnswer_flag :
  forall w s, Authenticated (acct (final (Part000.needToAnswer w s)))
              = Authenticated (acct s).
Proof. unfold Part000.needToAnswer, Part000.AuthenticatedReq. keeps_flag. Qed.

Lemma submitAnswers_flag :
  forall w s, Authenticated (acct (final (Part000.submitAnswers w s)))
              = Authenticated (acct s).
Proof. unfold Part000.submitAnswers, Part000.AuthenticatedReq. keeps_flag. Qed.

Lemma authenticate_go_flag :
  forall w s, Authenticated (acct (final (AccountGo.authenticate w s)))
              = Authenticated (acct s).
Proof. unfold AccountGo.authenticate. keeps_flag. Qed.

Lemma loadSecurityQuestions_go_flag :
  forall w s, Authenticated (acct (final (AccountGo.loadSecurityQuestions w s)))
              = Authenticated (acct s).
Proof. unfold AccountGo.loadSecurityQuestions, AccountGo.AuthenticatedReq. keeps_flag. Qed.

Lemma needToAnswer_go_flag :
  forall w s, Authenticated (acct (final (AccountGo.needToAnswer w s)))
              = Authenticated (acct s).
Proof. unfold AccountGo.needToAnswer, AccountGo.AuthenticatedReq. keeps_flag. Qed.

Lemma submitAnswers_go_flag :
  forall w s, Authenticated (acct (final (AccountGo.submitAnswers w s)))
              = Authenticated (acct s).
Proof. unfold AccountGo.submitAnswers, AccountGo.AuthenticatedReq. keeps_flag. Qed.

(** Both copies of [MojangAuthenticate] are the flow over their own
    steps. *)
Lemma MojangAuthenticate_flow (w : World) :
  Part000.MojangAuthenticate w
  = flow (Part000.authenticate w) (Part000.loadSecurityQuestions w)
         (Part000.needToAnswer w) (Part000.submitAnswers w).
Proof. reflexivity. Qed.

Lemma MojangAuthenticate_go_flow (w : World) :
  AccountGo.MojangAuthenticate w
  = flow (AccountGo.authenticate w) (AccountGo.loadSecurityQuestions w)
         (AccountGo.needToAnswer w) (AccountGo.submitAnswers w).
Proof. reflexivity. Qed.

Section Authenticated.

Variable w : World.
Variable s : State.

(** C5. [MojangAuthenticate] returns without an error only when every
    required step succeeded, and then the flag is true; when a step
    returns an error, [MojangAuthenticate] returns that error in the state
    that step left, nothing more being done, and the flag is what it was
    before the call (false, if it was false); so it is when a step
    panics.  This holds in [part_000] and in [src/account.go]. *)
Theorem Authenticated_only_after_every_step :
  ((forall s', Part000.MojangAuthenticate w s = Returned None s' ->
      Authenticated (acct s') = true /\
      every_step_succeeded (Part000.authenticate w) (Part000.loadSecurityQuestions w)
                           (Part000.needToAnswer w) (Part000.submitAnswers w)
                           (entered "MojangAuthenticate" s) s') /\
   (forall e s', Part000.MojangAuthenticate w s = Returned (Some e) s' ->
      Authenticated (acct s') = Authenticated (acct s) /\
      a_step_failed (Part000.authenticate w) (Part000.loadSecurityQuestions w)
                    (Part000.needToAnswer w) (Part000.submitAnswers w)
                    (entered "MojangAuthenticate" s) e s') /\
   (forall why s', Part000.MojangAuthenticate w s = Panicked why s' ->
      Authenticated (acct s') = Authenticated (acct s))) /\
  ((forall s', AccountGo.MojangAuthenticate w s = Returned None s' ->
      Authenticated (acct s') = true /\
      every_step_succeeded (AccountGo.authenticate w) (AccountGo.loadSecurityQuestions w)
                           (AccountGo.needToAnswer w) (AccountGo.submitAnswers w)
                           (entered "MojangAuthenticate" s) s') /\
   (forall e s', AccountGo.MojangAuthenticate w s = Returned (Some e) s' ->
      Authenticated (acct s') = Authenticated (acct s) /\
      a_step_failed (AccountGo.authenticate w) (AccountGo.loadSecurityQuestions w)
                    (AccountGo.needToAnswer w) (AccountGo.submitAnswers w)
                    (entered "MojangAuthenticate" s) e s') /\
   (forall why s', AccountGo.MojangAuthenticate w s = Panicked why s' ->
      Authenticated (acct s') = Authenticated (acct s))).
Proof.
  split.
  - rewrite MojangAuthenticate_flow.
    apply flow_spec;
      [ apply authenticate_flag | apply loadSecurityQuestions_flag
      | apply needToAnswer_flag | apply submitAnswers_flag ].
  - rewrite MojangAuthenticate_go_flow.
    apply flow_spec;
      [ apply authenticate_go_flag | apply loadSecurityQuestions_go_flag
      | apply needToAnswer_go_flag | apply submitAnswers_go_flag ].
Qed.

End Authenticated.

Lemma Authenticated_only_after_every_step_witness :
  Part000.MojangAuthenticate (Scenario.login_world Scenario.three_questions 403 204)
                             (init Scenario.alex)
  = Returned None
      (final (Part000.MojangAuthenticate
                (Scenario.login_world Scenario.three_questions 403 204)
                (init Scenario.alex))) /\
  Authenticated
    (acct (final (Part000.MojangAuthenticate
                    (Scenario.login_world Scenario.three_questions 403 204)
                    (init Scenario.alex))))
  = true.
Proof.
  assert (H : Part000.MojangAuthenticate
                (Scenario.login_world Scenario.three_questions 403 204)
                (init Scenario.alex)
              = Returned None
                  (final (Part000.MojangAuthenticate
                            (Scenario.login_world Scenario.three_questions 403 204)
                            (init Scenario.alex))))
    by (vm_compute; reflexivity).
  split; [exact H|].
  exact (proj1 (proj1 (proj1
           (Authenticated_only_after_every_step
              (Scenario.login_world Scenario.three_questions 403 204)
              (init Scenario.alex))) _ H)).
Defined.

(** One wrong answer: the submission is turned down, the flow returns
    that error and the flag stays false. *)
Example wrong_answer_leaves_flag_false :
  returned (Part000.MojangAuthenticate
              (Scenario.login_world Scenario.three_questions 403 403)
              (init Scenario.alex))
  = Some (Some (errors_New "at least one security question answer was incorrect")) /\
  Authenticated
    (acct (final (Part000.MojangAuthenticate
                    (Scenario.login_world Scenario.three_questions 403 403)
                    (init Scenario.alex))))
  = false.
Proof. split; vm_compute; reflexivity. Qed.

(** ** The first two steps on the answers of the provider *)

Section FirstTwoSteps.

Variable w : World.
Variable s : State.
Variables (resp : Response) (b : string).

(** The credential exchange: on a status under 300 with a body that is
    read and decoded, [authenticate] stores the credentials and returns no
    error, after one exchange. *)
Lemma authenticate_succeeds (info : authenticateReqResp) :
  http_Do_result w (exchanges s) (authenticate_request (acct s)) = DoOk resp ->
  (resp_StatusCode resp < 300)%Z ->
  resp_Body resp = inl b ->
  Unmarshal_authenticateReqResp w b = (info, None) ->
  Part000.authenticate w s
  = Returned None
      (mkState (credentialed info (acct s)) (ticks s) (1 + exchanges s)
         (trace s ++ [EvCall "authenticate"; EvDo (authenticate_request (acct s))])%list).
Proof.
  destruct s as [a t e tr]. cbn [acct exchanges ticks trace].
  intros HDo Hst Hbody Hdec. apply Z.ltb_lt in Hst.
  unfold Part000.authenticate, authenticate_request, credentialed in *.
  unfold_go. rewrite HDo. unfold_go. rewrite Hst, Hbody, Hdec. unfold_go.
  f_equal. apply state_eq; try reflexivity.
  repeat rewrite <- List.app_assoc; reflexivity.
Qed.

Lemma authenticate_go_succeeds (info : authenticateReqResp) :
  http_Do_result w (exchanges s) (authenticate_request (acct s)) = DoOk resp ->
  (resp_StatusCode resp < 300)%Z ->
  resp_Body resp = inl b ->
  Unmarshal_authenticateReqResp w b = (info, None) ->
  AccountGo.authenticate w s
  = Returned None
      (mkState (credentialed info (acct s)) (ticks s) (1 + exchanges s)
         (trace s ++ [EvCall "authenticate"; EvDo (authenticate_request (acct s))])%list).
Proof.
  destruct s as [a t e tr]. cbn [acct exchanges ticks trace].
  intros HDo Hst Hbody Hdec. apply Z.ltb_lt in Hst.
  unfold AccountGo.authenticate, authenticate_request, credentialed in *.
  unfold_go. rewrite HDo. unfold_go. rewrite Hst, Hbody, Hdec. unfold_go.
  f_equal. apply state_eq; try reflexivity.
  repeat rewrite <- List.app_assoc; reflexivity.
Qed.

(** The questions: for an account with a bearer token, on a status under
    400 with a body that is read and decoded to [qs],
    [loadSecurityQuestions] stores [qs] and returns no error, after one
    exchange. *)
Lemma loadSecurityQuestions_loads (qs : list SqAnswer) :
  Bearer (acct s) <> EmptyString ->
  http_Do_result w (exchanges s) (challenges_request (acct s)) = DoOk resp ->
  (resp_StatusCode resp < 400)%Z ->
  resp_Body resp = inl b ->
  Unmarshal_SqAnswers w b = (qs, None) ->
  Part000.loadSecurityQuestions w s
  = Returned None
      (mkState (assign_SecurityQuestions qs (acct s)) (ticks s) (1 + exchanges s)
         (trace s ++ [EvCall "loadSecurityQuestions"; EvCall "AuthenticatedReq";
                      EvDo (challenges_request (acct s))])%list).
Proof.
  destruct s as [a t e tr]. cbn [acct exchanges ticks trace].
  intros Hb HDo Hst Hbody Hdec. apply Z.leb_gt in Hst.
  apply String.eqb_neq in Hb.
  unfold Part000.loadSecurityQuestions, Part000.AuthenticatedReq,
    challenges_request in *.
  unfold_go. rewrite Hb. unfold_go. rewrite HDo. unfold_go.
  rewrite Hst, Hbody, Hdec. unfold_go.
  f_equal. apply state_eq; try reflexivity.
  repeat rewrite <- List.app_assoc; reflexivity.
Qed.

Lemma loadSecurityQuestions_go_loads (qs : list SqAnswer) :
  Bearer (acct s) <> EmptyString ->
  http_Do_result w (exchanges s) (challenges_request (acct s)) = DoOk resp ->
  (resp_StatusCode resp < 400)%Z ->
  resp_Body resp = inl b ->
  Unmarshal_SqAnswers w b = (qs, None) ->
  AccountGo.loadSecurityQuestions w s
  = Returned None
      (mkState (assign_SecurityQuestions qs (acct s)) (ticks s) (1 + exchanges s)
         (trace s ++ [EvCall "loadSecurityQuestions"; EvCall "AuthenticatedReq";
                      EvDo (challenges_request (acct s))])%list).
Proof.
  destruct s as [a t e tr]. cbn [acct exchanges ticks trace].
  intros Hb HDo Hst Hbody Hdec. apply Z.leb_gt in Hst.
  apply String.eqb_neq in Hb.
  unfold AccountGo.loadSecurityQuestions, AccountGo.AuthenticatedReq,
    challenges_request in *.
  unfold_go. rewrite Hb. unfold_go. rewrite HDo. unfold_go.
  rewrite Hst, Hbody, Hdec. unfold_go.
  f_equal. apply state_eq; try reflexivity.
  repeat rewrite <- List.app_assoc; reflexivity.
Qed.

End FirstTwoSteps.

Section ZeroQuestions.

Variable w : World.
Variable s : State.
Variables (resp1 resp2 : Response) (b1 b2 : string).
Variable info : authenticateReqResp.

(** C9. The provider answers the credential exchange with a status under
    300 and a body that decodes to [info], with an access token in it, and
    it answers the request for the questions with a status under 400 and a
    body that decodes to the empty list.  Then, whatever the account held
    before, [MojangAuthenticate] returns without an error in the state
    [logged_in info s]: the credentials and the empty list are stored, the
    flag is set, and the run has entered [MojangAuthenticate],
    [authenticate], [loadSecurityQuestions] and [AuthenticatedReq] and
    sent the two requests of those steps, and nothing else: neither
    [needToAnswer] nor [submitAnswers] is entered.  This holds in
    [part_000] and in [src/account.go]. *)
Theorem zero_questions_skip_the_challenge :
  http_Do_result w (exchanges s) (authenticate_request (acct s)) = DoOk resp1 ->
  (resp_StatusCode resp1 < 300)%Z ->
  resp_Body resp1 = inl b1 ->
  Unmarshal_authenticateReqResp w b1 = (info, None) ->
  Accesstoken info <> EmptyString ->
  http_Do_result w (1 + exchanges s) (challenges_request (credentialed info (acct s)))
  = DoOk resp2 ->
  (resp_StatusCode resp2 < 400)%Z ->
  resp_Body resp2 = inl b2 ->
  Unmarshal_SqAnswers w b2 = ([], None) ->
  Part000.MojangAuthenticate w s = Returned None (logged_in info s) /\
  AccountGo.MojangAuthenticate w s = Returned None (logged_in info s) /\
  Authenticated (acct (logged_in info s)) = true /\
  calls (trace (logged_in info s))
  = (calls (trace s)
     ++ ["MojangAuthenticate"; "authenticate"; "loadSecurityQuestions";
         "AuthenticatedReq"])%list /\
  requests (trace (logged_in info s))
  = (requests (trace s)
     ++ [authenticate_request (acct s);
         challenges_request (credentialed info (acct s))])%list /\
  ~ In "needToAnswer" (calls (login_events info (acct s))) /\
  ~ In "submitAnswers" (calls (login_events info (acct s))).
Proof.
  destruct s as [a t e tr]. cbn [acct ticks exchanges trace].
  intros HDo1 Hst1 Hbody1 Hdec1 Htoken HDo2 Hst2 Hbody2 Hdec2.
  set (s0 := mkState a t e tr).
  pose proof (authenticate_succeeds w (entered "MojangAuthenticate" s0) resp1 b1 info
                HDo1 Hst1 Hbody1 Hdec1) as A.
  pose proof (authenticate_go_succeeds w (entered "MojangAuthenticate" s0) resp1 b1 info
                HDo1 Hst1 Hbody1 Hdec1) as Ago.
  subst s0. cbn [entered acct ticks exchanges trace] in A, Ago.
  assert (Hb : Bearer (credentialed info a) <> EmptyString) by exact Htoken.
  pose proof (loadSecurityQuestions_loads w
                (mkState (credentialed info a) t (1 + e)
                   ((tr ++ [EvCall "MojangAuthenticate"])
                    ++ [EvCall "authenticate"; EvDo (authenticate_request a)])%list)
                resp2 b2 [] Hb HDo2 Hst2 Hbody2 Hdec2) as L.
  pose proof (loadSecurityQuestions_go_loads w
                (mkState (credentialed info a) t (1 + e)
                   ((tr ++ [EvCall "MojangAuthenticate"])
                    ++ [EvCall "authenticate"; EvDo (authenticate_request a)])%list)
                resp2 b2 [] Hb HDo2 Hst2 Hbody2 Hdec2) as Lgo.
  cbn [acct ticks exchanges trace] in L, Lgo.
  split; [|split; [|split; [|split; [|split; [|split]]]]].
  - unfold Part000.MojangAuthenticate.
    cbv beta iota delta [bind call log ret assign get_account].
    fold (entered "MojangAuthenticate" (mkState a t e tr)). rewrite A. cbv beta iota.
    rewrite L. cbv beta iota delta [acct ticks exchanges trace].
    change ((List.length (SecurityQuestions
                            (assign_SecurityQuestions [] (credentialed info a)))
             =? 0)%nat) with true.
    cbv beta iota delta [acct ticks exchanges trace].
    unfold logged_in, login_events. f_equal. apply state_eq; try reflexivity.
    repeat rewrite <- List.app_assoc. reflexivity.
  - unfold AccountGo.MojangAuthenticate.
    cbv beta iota delta [bind call log ret assign get_account].
    fold (entered "MojangAuthenticate" (mkState a t e tr)). rewrite Ago. cbv beta iota.
    rewrite Lgo. cbv beta iota delta [acct ticks exchanges trace].
    change ((List.length (SecurityQuestions
                            (assign_SecurityQuestions [] (credentialed info a)))
             =? 0)%nat) with true.
    cbv beta iota delta [acct ticks exchanges trace].
    unfold logged_in, login_events. f_equal. apply state_eq; try reflexivity.
    repeat rewrite <- List.app_assoc. reflexivity.
  - reflexivity.
  - unfold logged_in. cbn [trace]. rewrite calls_app. reflexivity.
  - unfold logged_in. cbn [trace]. rewrite requests_app. reflexivity.
  - cbn. intuition discriminate.
  - cbn. intuition discriminate.
Qed.

End ZeroQuestions.

Lemma zero_questions_skip_the_challenge_witness :
  http_Do_result (Scenario.login_world [] 204 204) (exchanges (init Scenario2.ready))
    (authenticate_request (acct (init Scenario2.ready)))
  = DoOk (mkResponse 200 "200 OK" (inl "{}")) /\
  Accesstoken (mkAuthResp "Alex" "uuid-alex" "token-alex" "client") <> EmptyString /\
  Unmarshal_SqAnswers (Scenario.login_world [] 204 204) "[]" = ([], None) /\
  SecurityQuestions (acct (init Scenario2.ready)) = Scenario.three_questions /\
  Part000.MojangAuthenticate (Scenario.login_world [] 204 204) (init Scenario2.ready)
  = Returned None
      (logged_in (mkAuthResp "Alex" "uuid-alex" "token-alex" "client")
         (init Scenario2.ready)).
Proof.
  assert (Ht : Accesstoken (mkAuthResp "Alex" "uuid-alex" "token-alex" "client")
               <> EmptyString)
    by (cbn; discriminate).
  assert (H1 : (resp_StatusCode (mkResponse 200 "200 OK" (inl "{}")) < 300)%Z)
    by (cbn; lia).
  assert (H2 : (resp_StatusCode (mkResponse 200 "200 OK" (inl "[]")) < 400)%Z)
    by (cbn; lia).
  split; [reflexivity|]. split; [exact Ht|]. split; [reflexivity|].
  split; [reflexivity|].
  exact (proj1
           (zero_questions_skip_the_challenge (Scenario.login_world [] 204 204)
              (init Scenario2.ready)
              (mkResponse 200 "200 OK" (inl "{}")) (mkResponse 200 "200 OK" (inl "[]"))
              "{}" "[]" (mkAuthResp "Alex" "uuid-alex" "token-alex" "client")
              eq_refl H1 eq_refl eq_refl Ht eq_refl H2 eq_refl eq_refl)).
Defined.

(** ** The errors of the credential exchange *)

Section Credentials.

Variable w : World.
Variable s : State.

(** What [authenticate] does on a status of 300 or more: it fails with
    the invalid-credentials error if the status is 403 and with one other,
    fixed error if it is not, the same for every such status.  And it
    fails with the invalid-credentials error only when the provider
    answered with status 403.  This holds in [part_000] and in
    [src/account.go]. *)
Theorem authenticate_tells_403_from_the_rest :
  (forall resp,
     http_Do_result w (exchanges s) (authenticate_request (acct s)) = DoOk resp ->
     (300 <= resp_StatusCode resp)%Z ->
     Part000.authenticate w s
     = Returned
         (Some (if (resp_StatusCode resp =? 403)%Z
                then InvalidCredentials else UnexpectedStatus))
         (advanced s 0 1 [EvCall "authenticate"; EvDo (authenticate_request (acct s))]) /\
     AccountGo.authenticate w s
     = Returned
         (Some (if (resp_StatusCode resp =? 403)%Z
                then InvalidCredentials_go else UnexpectedStatus_go))
         (advanced s 0 1 [EvCall "authenticate"; EvDo (authenticate_request (acct s))])) /\
  (forall s',
     Part000.authenticate w s = Returned (Some InvalidCredentials) s' ->
     exists resp,
       http_Do_result w (exchanges s) (authenticate_request (acct s)) = DoOk resp /\
       resp_StatusCode resp = 403%Z) /\
  (forall s',
     AccountGo.authenticate w s = Returned (Some InvalidCredentials_go) s' ->
     exists resp,
       http_Do_result w (exchanges s) (authenticate_request (acct s)) = DoOk resp /\
       resp_StatusCode resp = 403%Z) /\
  InvalidCredentials <> UnexpectedStatus /\
  InvalidCredentials_go <> UnexpectedStatus_go.
Proof.
  destruct s as [a t e tr]. cbn [acct exchanges].
  split; [|split; [|split; [|split]]].
  - intros resp HDo Hst.
    assert (Hlt : (resp_StatusCode resp <? 300)%Z = false) by (apply Z.ltb_ge; lia).
    unfold Part000.authenticate, AccountGo.authenticate, authenticate_request in *.
    unfold_go. rewrite HDo. unfold_go. rewrite Hlt.
    destruct (resp_StatusCode resp =? 403)%Z; split; same_state.
  - intros s'. unfold Part000.authenticate, authenticate_request. unfold_go.
    crunch; intros H; inversion H; subst.
    eexists. split; [reflexivity | now apply Z.eqb_eq].
  - intros s'. unfold AccountGo.authenticate, authenticate_request. unfold_go.
    crunch; intros H; inversion H; subst.
    eexists. split; [reflexivity | now apply Z.eqb_eq].
  - discriminate.
  - discriminate.
Qed.

End Credentials.

Example authenticate_tells_403_from_the_rest_at_403 :
  http_Do_result (Scenario.status_world 403) (exchanges (init Scenario.alex))
                 (authenticate_request (acct (init Scenario.alex)))
  = DoOk (mkResponse 403 "status" (inl "{}")) /\
  (300 <= resp_StatusCode (mkResponse 403 "status" (inl "{}")))%Z /\
  Part000.authenticate (Scenario.status_world 403) (init Scenario.alex)
  = Returned
      (Some (if (resp_StatusCode (mkResponse 403 "status" (inl "{}")) =? 403)%Z
             then InvalidCredentials else UnexpectedStatus))
      (advanced (init Scenario.alex) 0 1
         [EvCall "authenticate";
          EvDo (authenticate_request (acct (init Scenario.alex)))]).
Proof.
  assert (H1 : http_Do_result (Scenario.status_world 403) (exchanges (init Scenario.alex))
                 (authenticate_request (acct (init Scenario.alex)))
               = DoOk (mkResponse 403 "status" (inl "{}")))
    by reflexivity.
  assert (H2 : (300 <= resp_StatusCode (mkResponse 403 "status" (inl "{}")))%Z)
    by (cbn; lia).
  split; [exact H1|]. split; [exact H2|].
  exact (proj1 (proj1
           (authenticate_tells_403_from_the_rest (Scenario.status_world 403)
              (init Scenario.alex)) _ H1 H2)).
Defined.

(** C6, at the failing input.  The provider answers the credential
    exchange with status 500, or with status 404: [authenticate] fails
    with one and the same error, a constant text, from which no status
    code can be read. *)
Theorem authenticate_forgets_the_status :
  returned (Part000.authenticate (Scenario.status_world 500) (init Scenario.alex))
  = Some (Some UnexpectedStatus) /\
  returned (Part000.authenticate (Scenario.status_world 404) (init Scenario.alex))
  = Some (Some UnexpectedStatus) /\
  returned (AccountGo.authenticate (Scenario.status_world 500) (init Scenario.alex))
  = Some (Some UnexpectedStatus_go) /\
  returned (AccountGo.authenticate (Scenario.status_world 404) (init Scenario.alex))
  = Some (Some UnexpectedStatus_go) /\
  ~ (exists code_of : error -> Z,
       code_of UnexpectedStatus = 500%Z /\ code_of UnexpectedStatus = 404%Z).
Proof.
  split; [vm_compute; reflexivity|].
  split; [vm_compute; reflexivity|].
  split; [vm_compute; reflexivity|].
  split; [vm_compute; reflexivity|].
  intros [code_of [H500 H404]]. rewrite H500 in H404. discriminate.
Qed.

(** * Further properties *)

(** ** [AuthenticatedReq] and its callers *)

Section Bearer.

Variable w : World.
Variable Unmarshal_accInfoResponse : string -> accInfoResponse * option foreign.
Variable Unmarshal_HasGcAppliedResp : string -> HasGcAppliedResp * option foreign.
Variable Unmarshal_nameChangeInfoResponse :
  string -> nameChangeInfoResponse * option foreign.
Variable ReadAll_partial : foreign -> string.
Variable s : State.

(** X1. Without a bearer token every method that builds its request with
    [AuthenticatedReq] returns the not-authenticated error and makes no
    exchange: the states differ by the entries into the methods only. *)
Theorem no_bearer_no_exchange :
  Bearer (acct s) = EmptyString ->
  (Part000.loadSecurityQuestions w s
   = Returned (Some NotAuthenticated)
       (advanced s 0 0 [EvCall "loadSecurityQuestions"; EvCall "AuthenticatedReq"]) /\
   Part000.needToAnswer w s
   = Returned (false, Some NotAuthenticated)
       (advanced s 0 0 [EvCall "needToAnswer"; EvCall "AuthenticatedReq"]) /\
   Part000Queries.LoadAccountInfo w Unmarshal_accInfoResponse s
   = Returned (Some NotAuthenticated)
       (advanced s 0 0 [EvCall "LoadAccountInfo"; EvCall "AuthenticatedReq"]) /\
   Part000Queries.HasGcApplied w Unmarshal_HasGcAppliedResp s
   = Returned (false, Some NotAuthenticated)
       (advanced s 0 0 [EvCall "HasGcApplied"; EvCall "AuthenticatedReq"]) /\
   Part000Queries.NameChangeInfo w Unmarshal_nameChangeInfoResponse s
   = Returned (zeroNameChangeInfo, Some NotAuthenticated)
       (advanced s 0 0 [EvCall "NameChangeInfo"; EvCall "AuthenticatedReq"])) /\
  (AccountGo.loadSecurityQuestions w s
   = Returned (Some NotAuthenticated_go)
       (advanced s 0 0 [EvCall "loadSecurityQuestions"; EvCall "AuthenticatedReq"]) /\
   AccountGo.needToAnswer w s
   = Returned (false, Some NotAuthenticated_go)
       (advanced s 0 0 [EvCall "needToAnswer"; EvCall "AuthenticatedReq"]) /\
   AccountGoQueries.LoadAccountInfo w Unmarshal_accInfoResponse ReadAll_partial s
   = Returned (Some NotAuthenticated_go)
       (advanced s 0 0 [EvCall "LoadAccountInfo"; EvCall "AuthenticatedReq"]) /\
   AccountGoQueries.NameChangeInfo w Unmarshal_nameChangeInfoResponse s
   = Returned (zeroNameChangeInfo, Some NotAuthenticated_go)
       (advanced s 0 0 [EvCall "NameChangeInfo"; EvCall "AuthenticatedReq"])) /\
  (List.length (SecurityAnswers (acct s)) = 3 ->
   List.length (SecurityQuestions (acct s)) = 3 ->
   Part000.submitAnswers w s
   = Returned (Some NotAuthenticated)
       (advanced s 0 0 [EvCall "submitAnswers"; EvCall "AuthenticatedReq"]) /\
   AccountGo.submitAnswers w s
   = Returned (Some NotAuthenticated_go)
       (advanced s 0 0 [EvCall "submitAnswers"; EvCall "AuthenticatedReq"])).
Proof.
  destruct s as [a t e tr]. cbn [acct]. intros Hb.
  unfold Part000.loadSecurityQuestions, Part000.needToAnswer,
    Part000Queries.LoadAccountInfo, Part000Queries.HasGcApplied,
    Part000Queries.NameChangeInfo, AccountGo.loadSecurityQuestions,
    AccountGo.needToAnswer, AccountGoQueries.LoadAccountInfo,
    AccountGoQueries.NameChangeInfo, Part000.submitAnswers, AccountGo.submitAnswers,
    Part000.AuthenticatedReq, AccountGo.AuthenticatedReq.
  unfold_go. rewrite Hb. cbn [String.eqb]. unfold_go.
  split; [|split].
  - repeat split; same_state.
  - repeat split; same_state.
  - intros Ha Hq.
    destruct (length_3 _ Ha) as (a1 & a2 & a3 & Ea).
    destruct (length_3 _ Hq) as (q1 & q2 & q3 & Eq).
    rewrite Ea, Eq. cbn [List.length Nat.eqb negb pair_answers nth_error].
    unfold_go. rewrite Hb. cbn [String.eqb]. unfold_go. split; same_state.
Qed.

End Bearer.

Section OneAuthorizedRequest.

Variable w : World.
Variable Unmarshal_accInfoResponse : string -> accInfoResponse * option foreign.
Variable Unmarshal_HasGcAppliedResp : string -> HasGcAppliedResp * option foreign.
Variable Unmarshal_nameChangeInfoResponse :
  string -> nameChangeInfoResponse * option foreign.
Variable ReadAll_partial : foreign -> string.
Variable s : State.

(** Closes a goal about the requests of a final trace. *)
Ltac one_request :=
  cbn [trace]; rewrite !requests_app; cbn [requests]; rewrite ?List.app_nil_r;
  first [left; reflexivity | right; reflexivity].

(** X2. Each query makes at most one exchange, and the request of that
    exchange is the one [AuthenticatedReq] built: fixed method and URL,
    and the bearer token of the account in the [Authorization] header. *)
Theorem queries_send_one_authorized_request :
  (requests (trace (final (Part000.loadSecurityQuestions w s))) = requests (trace s) \/
   requests (trace (final (Part000.loadSecurityQuestions w s)))
   = (requests (trace s)
      ++ [authorized "GET" "https://api.mojang.com/user/security/challenges" NoBody
            (acct s)])%list) /\
  (requests (trace (final (Part000.needToAnswer w s))) = requests (trace s) \/
   requests (trace (final (Part000.needToAnswer w s)))
   = (requests (trace s)
      ++ [authorized "GET" "https://api.mojang.com/user/security/location" NoBody
            (acct s)])%list) /\
  (requests (trace (final (Part000Queries.LoadAccountInfo w Unmarshal_accInfoResponse s)))
   = requests (trace s) \/
   requests (trace (final (Part000Queries.LoadAccountInfo w Unmarshal_accInfoResponse s)))
   = (requests (trace s)
      ++ [authorized "GET" "https://api.minecraftservices.com/minecraft/profile" NoBody
            (acct s)])%list) /\
  (requests (trace (final (Part000Queries.HasGcApplied w Unmarshal_HasGcAppliedResp s)))
   = requests (trace s) \/
   requests (trace (final (Part000Queries.HasGcApplied w Unmarshal_HasGcAppliedResp s)))
   = (requests (trace s)
      ++ [authorized "POST" "https://api.minecraftservices.com/minecraft/profile"
            (BodyBytes bodyStr) (acct s)])%list) /\
  (requests (trace (final (Part000Queries.NameChangeInfo w
                             Unmarshal_nameChangeInfoResponse s)))
   = requests (trace s) \/
   requests (trace (final (Part000Queries.NameChangeInfo w
                             Unmarshal_nameChangeInfoResponse s)))
   = (requests (trace s)
      ++ [authorized "GET"
            "https://api.minecraftservices.com/minecraft/profile/namechange" NoBody
            (acct s)])%list) /\
  (requests (trace (final (AccountGoQueries.LoadAccountInfo w Unmarshal_accInfoResponse
                             ReadAll_partial s)))
   = requests (trace s) \/
   requests (trace (final (AccountGoQueries.LoadAccountInfo w Unmarshal_accInfoResponse
                             ReadAll_partial s)))
   = (requests (trace s)
      ++ [authorized "GET" "https://api.minecraftservices.com/minecraft/profile" NoBody
            (acct s)])%list) /\
  carries_bearer (acct s)
    (authorized "GET" "https://api.minecraftservices.com/minecraft/profile" NoBody
       (acct s)).
Proof.
  destruct s as [a t e tr]. cbn [acct].
  unfold Part000.loadSecurityQuestions, Part000.needToAnswer,
    Part000Queries.LoadAccountInfo, Part000Queries.HasGcApplied,
    Part000Queries.NameChangeInfo, AccountGoQueries.LoadAccountInfo,
    Part000.AuthenticatedReq, AccountGo.AuthenticatedReq, authorized.
  repeat split; try (unfold_go; crunch; one_request).
  unfold carries_bearer. cbn. auto.
Qed.

End OneAuthorizedRequest.

(** ** The credential exchange *)

Section Credentials2.

Variable w : World.
Variable s : State.

(** X3. [authenticate] of [part_000] returns without an error only when
    the provider answered with a status under 300, the body was read and
    the JSON decoded; the account is then the one before the call with
    [Bearer], [Username] and [UUID] taken from the answer.  When it returns
    an error the account is left as it was. *)
Theorem authenticate_sets_credentials_or_nothing :
  (forall s',
     Part000.authenticate w s = Returned None s' ->
     exists resp b info,
       http_Do_result w (exchanges s) (authenticate_request (acct s)) = DoOk resp /\
       (resp_StatusCode resp < 300)%Z /\
       resp_Body resp = inl b /\
       Unmarshal_authenticateReqResp w b = (info, None) /\
       acct s'
       = assign_UUID (User_ID info)
           (assign_Username (User_Username info)
              (assign_Bearer (Accesstoken info) (acct s)))) /\
  (forall e s', Part000.authenticate w s = Returned (Some e) s' -> acct s' = acct s) /\
  same_but_credentials (acct s) (acct (final (Part000.authenticate w s))).
Proof.
  destruct s as [a t e tr]. cbn [acct exchanges].
  unfold Part000.authenticate, authenticate_request, same_but_credentials.
  split; [|split].
  - intros s'. unfold_go. crunch; intros H; inversion H; subst.
    do 3 eexists. split; [reflexivity|]. split; [now apply Z.ltb_lt|].
    split; [eassumption|]. split; [eassumption|]. reflexivity.
  - intros err s'. unfold_go. crunch; intros H; inversion H; subst; reflexivity.
  - unfold_go. crunch; cbn; repeat split; reflexivity.
Qed.

(** X4. When the JSON of a successful answer does not decode,
    [authenticate] of [part_000] returns the decoder's error and leaves the
    account alone, while [authenticate] of [src/account.go] returns no
    error and overwrites [Bearer], [Username] and [UUID] with whatever the
    decoder left. *)
Theorem undecodable_credentials (resp : Response) (b : string)
  (info : authenticateReqResp) (err : foreign) :
  http_Do_result w (exchanges s) (authenticate_request (acct s)) = DoOk resp ->
  (resp_StatusCode resp < 300)%Z ->
  resp_Body resp = inl b ->
  Unmarshal_authenticateReqResp w b = (info, Some err) ->
  Part000.authenticate w s
  = Returned (Some (LibError err))
      (advanced s 0 1 [EvCall "authenticate"; EvDo (authenticate_request (acct s))]) /\
  returned (AccountGo.authenticate w s) = Some None /\
  acct (final (AccountGo.authenticate w s))
  = assign_UUID (User_ID info)
      (assign_Username (User_Username info)
         (assign_Bearer (Accesstoken info) (acct s))).
Proof.
  destruct s as [a t e tr]. cbn [acct exchanges].
  intros HDo Hst Hbody Hdec. apply Z.ltb_lt in Hst.
  unfold Part000.authenticate, AccountGo.authenticate, authenticate_request in *.
  unfold returned.
  unfold_go. rewrite HDo. unfold_go. rewrite Hst, Hbody, Hdec. unfold_go.
  split; [same_state|]. split; reflexivity.
Qed.

End Credentials2.

(** ** The security questions *)

Section Questions.

Variable w : World.
Variable s : State.

(** X5. [loadSecurityQuestions] returns without an error only for an
    account with a bearer token, when the provider answered with a status
    under 400, the body was read and the JSON decoded; the account is then
    the one before the call with the decoded questions.  On a status of 400
    or more it fails with an error that has the provider's status text in
    it, and whenever it returns an error the account is left as it was.  So
    it is in both copies. *)
Theorem loadSecurityQuestions_sets_questions_or_nothing :
  (forall s',
     Part000.loadSecurityQuestions w s = Returned None s' \/
     AccountGo.loadSecurityQuestions w s = Returned None s' ->
     Bearer (acct s) <> EmptyString /\
     exists resp b qs,
       http_Do_result w (exchanges s) (challenges_request (acct s)) = DoOk resp /\
       (resp_StatusCode resp < 400)%Z /\
       resp_Body resp = inl b /\
       Unmarshal_SqAnswers w b = (qs, None) /\
       acct s' = assign_SecurityQuestions qs (acct s)) /\
  (forall e s',
     Part000.loadSecurityQuestions w s = Returned (Some e) s' \/
     AccountGo.loadSecurityQuestions w s = Returned (Some e) s' ->
     acct s' = acct s) /\
  (forall resp,
     Bearer (acct s) <> EmptyString ->
     http_Do_result w (exchanges s) (challenges_request (acct s)) = DoOk resp ->
     (400 <= resp_StatusCode resp)%Z ->
     returned (Part000.loadSecurityQuestions w s)
     = Some (Some (errors_New ("got status " ++ resp_Status resp
                               ++ " when requesting security questions"))) /\
     returned (AccountGo.loadSecurityQuestions w s)
     = Some (Some (errors_New ("Got status " ++ resp_Status resp
                               ++ " when requesting security questions!")))).
Proof.
  destruct s as [a t e tr]. cbn [acct exchanges].
  unfold Part000.loadSecurityQuestions, AccountGo.loadSecurityQuestions,
    Part000.AuthenticatedReq, AccountGo.AuthenticatedReq, challenges_request, returned.
  split; [|split].
  - intros s' [H | H]; revert H; unfold_go; crunch; intros H; inversion H; subst;
      (split; [now apply String.eqb_neq|]);
      do 3 eexists; (split; [reflexivity|]); (split; [now apply Z.leb_gt|]);
      (split; [eassumption|]); (split; [eassumption|]); reflexivity.
  - intros err s' [H | H]; revert H; unfold_go; crunch; intros H; inversion H; subst;
      reflexivity.
  - intros resp Hb HDo Hst. apply String.eqb_neq in Hb. apply Z.leb_le in Hst.
    unfold_go. rewrite Hb. unfold_go. rewrite HDo. unfold_go. rewrite Hst.
    split; reflexivity.
Qed.

(** X6. [needToAnswer] never changes the account.  It returns no error
    exactly when the provider answered the probe with status 204 or 403,
    and its boolean is false exactly when the account has no bearer token
    or the provider answered with status 204: on every other outcome,
    errors included, it says that an answer is needed.  So it is in both
    copies. *)
Theorem needToAnswer_says_no_on_204_only (b : bool) (e : option error) (s' : State) :
  Part000.needToAnswer w s = Returned (b, e) s' \/
  AccountGo.needToAnswer w s = Returned (b, e) s' ->
  acct s' = acct s /\
  (e = None <->
   Bearer (acct s) <> EmptyString /\
   exists resp,
     http_Do_result w (exchanges s)
       (authorized "GET" "https://api.mojang.com/user/security/location" NoBody (acct s))
     = DoOk resp /\
     (resp_StatusCode resp = 204%Z \/ resp_StatusCode resp = 403%Z)) /\
  (b = false <->
   Bearer (acct s) = EmptyString \/
   exists resp,
     http_Do_result w (exchanges s)
       (authorized "GET" "https://api.mojang.com/user/security/location" NoBody (acct s))
     = DoOk resp /\
     resp_StatusCode resp = 204%Z).
Proof.
  destruct s as [a t ex tr]. cbn [acct exchanges].
  unfold Part000.needToAnswer, AccountGo.needToAnswer,
    Part000.AuthenticatedReq, AccountGo.AuthenticatedReq, authorized.
  intros [H | H]; revert H; unfold_go; crunch; intros H; inversion H; subst;
    (split; [reflexivity|]);
    repeat match goal with
           | H : (_ =? _)%string = true |- _ => apply String.eqb_eq in H
           | H : (_ =? _)%string = false |- _ => apply String.eqb_neq in H
           | H : (_ =? _)%Z = true |- _ => apply Z.eqb_eq in H
           | H : (_ =? _)%Z = false |- _ => apply Z.eqb_neq in H
           end;
    (split; split; intros G;
     repeat match goal with
            | G : _ /\ _ |- _ => destruct G
            | G : _ \/ _ |- _ => destruct G
            | G : exists _, _ |- _ => destruct G
            | G : DoOk _ = DoOk _ |- _ => inversion G; subst; clear G
            end;
     try discriminate; try congruence; try lia; try reflexivity;
     try (split; [assumption|]; eexists; split; [reflexivity|]; auto);
     try (right; eexists; split; [reflexivity|]; assumption);
     try (left; assumption)).
Qed.

End Questions.

(** ** The submission of the answers *)

Lemma skipn_nth_error {A} (l : list A) (i : nat) (a : A) :
  nth_error l i = Some a -> skipn i l = a :: skipn (S i) l.
Proof.
  revert i; induction l as [|x l IH]; intros [|i] H; cbn in *; try discriminate.
  - now inversion H.
  - now apply IH.
Qed.

Lemma pair_answers_enough (qs : list SqAnswer) (answers : list string) (i : nat) :
  List.length qs + i <= List.length answers ->
  pair_answers qs answers i = Some (paired qs (skipn i answers)).
Proof.
  revert i; induction qs as [|q qs IH]; intros i H; [reflexivity|].
  cbn [pair_answers List.length] in *.
  destruct (nth_error answers i) as [a|] eqn:En.
  - rewrite IH by lia. now rewrite (skipn_nth_error _ _ _ En).
  - apply nth_error_None in En. lia.
Qed.

Lemma pair_answers_short (qs : list SqAnswer) (answers : list string) (i : nat) :
  List.length answers < List.length qs + i ->
  qs <> [] ->
  pair_answers qs answers i = None.
Proof.
  revert i; induction qs as [|q qs IH]; intros i H Hne; [congruence|].
  cbn [pair_answers List.length] in *.
  destruct (nth_error answers i) as [a|] eqn:En; [|reflexivity].
  assert (Hi : i < List.length answers) by (apply nth_error_Some; congruence).
  destruct qs as [|q' qs]; [cbn in H; lia|].
  rewrite IH; [reflexivity | cbn [List.length] in *; lia | discriminate].
Qed.

Lemma pair_answers_by_position (qs : list SqAnswer) (answers : list string) :
  pair_answers qs answers 0
  = if (List.length qs <=? List.length answers)%nat
    then Some (paired qs answers) else None.
Proof.
  destruct (List.length qs <=? List.length answers)%nat eqn:E.
  - apply Nat.leb_le in E. rewrite pair_answers_enough by lia. reflexivity.
  - apply Nat.leb_gt in E. apply pair_answers_short; [lia|].
    intros ->. cbn in E. lia.
Qed.

(** X7. The loop of [submitAnswers] pairs the answer id of each question
    with the answer at the same place, in order; it runs out of range,
    which panics, exactly when there are fewer answers than questions. *)
Theorem answers_are_paired_by_position (qs : list SqAnswer) (answers : list string) :
  (List.length qs <= List.length answers ->
   pair_answers qs answers 0 = Some (paired qs answers) /\
   List.length (paired qs answers) = List.length qs /\
   map ID (paired qs answers) = map Answer_ID qs /\
   map Answer (paired qs answers) = firstn (List.length qs) answers) /\
  (List.length answers < List.length qs -> pair_answers qs answers 0 = None).
Proof.
  split.
  - intros H. split; [|split; [|split]].
    + rewrite pair_answers_by_position.
      apply Nat.leb_le in H. now rewrite H.
    + unfold paired. rewrite List.length_map, List.length_combine. lia.
    + unfold paired. rewrite List.map_map. cbn [ID].
      revert answers H; induction qs as [|q qs IH]; intros [|a answers] H;
        cbn in *; try reflexivity; try lia.
      f_equal. apply IH. lia.
    + unfold paired. rewrite List.map_map. cbn [Answer].
      revert answers H; induction qs as [|q qs IH]; intros [|a answers] H;
        cbn in *; try reflexivity; try lia.
      f_equal. apply IH. lia.
  - intros H. rewrite pair_answers_by_position.
    apply Nat.leb_gt in H. now rewrite H.
Qed.

Section Submission.

Variable w : World.
Variable s : State.

(** X8. [submitAnswers] of [part_000] never panics and never changes the
    account.  With three answers, three questions and a bearer token it
    makes one exchange, a POST of the three pairs in the order of the
    questions, and it returns no error exactly when the provider answers
    with status 204. *)
Theorem submitAnswers_posts_the_pairs :
  (forall why s', Part000.submitAnswers w s <> Panicked why s') /\
  acct (final (Part000.submitAnswers w s)) = acct s /\
  (List.length (SecurityAnswers (acct s)) = 3 ->
   List.length (SecurityQuestions (acct s)) = 3 ->
   Bearer (acct s) <> EmptyString ->
   requests (trace (final (Part000.submitAnswers w s)))
   = (requests (trace s)
      ++ [authorized "POST" "https://api.mojang.com/user/security/location"
            (BodyAnswers (paired (SecurityQuestions (acct s))
                                 (SecurityAnswers (acct s))))
            (acct s)])%list /\
   (returned (Part000.submitAnswers w s) = Some None <->
    exists resp,
      http_Do_result w (exchanges s)
        (authorized "POST" "https://api.mojang.com/user/security/location"
           (BodyAnswers (paired (SecurityQuestions (acct s))
                                (SecurityAnswers (acct s))))
           (acct s))
      = DoOk resp /\
      resp_StatusCode resp = 204%Z)).
Proof.
  destruct s as [a t e tr]. cbn [acct exchanges trace].
  split; [|split].
  - intros why s'. unfold Part000.submitAnswers, Part000.AuthenticatedReq.
    unfold_go. crunch; try discriminate.
    repeat match goal with
           | H : negb (_ =? 3)%nat = false |- _ =>
               apply negb_false_iff in H; apply Nat.eqb_eq in H
           end.
    match goal with
    | H : pair_answers _ _ 0 = None |- _ =>
        rewrite pair_answers_by_position in H
    end.
    repeat match goal with H : List.length _ = 3 |- _ => rewrite H in * end.
    discriminate.
  - unfold Part000.submitAnswers, Part000.AuthenticatedReq.
    unfold_go. crunch; reflexivity.
  - intros Ha Hq Hb. apply String.eqb_neq in Hb.
    unfold Part000.submitAnswers, Part000.AuthenticatedReq, authorized, returned.
    unfold_go. rewrite Ha, Hq. cbn [Nat.eqb negb].
    rewrite pair_answers_by_position, Ha, Hq. cbn [Nat.leb].
    unfold_go. rewrite Hb. unfold_go.
    split.
    + crunch; cbn [trace]; rewrite !requests_app; cbn [requests];
        rewrite ?List.app_nil_r; reflexivity.
    + crunch;
        repeat match goal with
               | H : (_ =? _)%Z = true |- _ => apply Z.eqb_eq in H
               | H : (_ =? _)%Z = false |- _ => apply Z.eqb_neq in H
               end;
        (split; intros G;
         [ try discriminate G; try (eexists; split; [reflexivity | assumption])
         | destruct G as [? [G1 G2]]; try discriminate G1;
           try (inversion G1; subst; congruence); try reflexivity ]).
Qed.

(** X9. On a transport failure of the exchange (no response, an error)
    [submitAnswers] of [part_000] returns the error, while [submitAnswers]
    of [src/account.go], which reads the status of the response without
    looking at the error, panics on the nil response.  The account is left
    as it was in both. *)
Theorem submitAnswers_go_panics_on_transport_failure (err : foreign) :
  List.length (SecurityAnswers (acct s)) = 3 ->
  List.length (SecurityQuestions (acct s)) = 3 ->
  Bearer (acct s) <> EmptyString ->
  http_Do_result w (exchanges s)
    (authorized "POST" "https://api.mojang.com/user/security/location"
       (BodyAnswers (paired (SecurityQuestions (acct s)) (SecurityAnswers (acct s))))
       (acct s))
  = DoFailed err ->
  returned (Part000.submitAnswers w s) = Some (Some (LibError err)) /\
  (exists s', AccountGo.submitAnswers w s = Panicked nil_dereference s' /\
              acct s' = acct s) /\
  acct (final (Part000.submitAnswers w s)) = acct s.
Proof.
  destruct s as [a t e tr]. cbn [acct exchanges trace].
  intros Ha Hq Hb HDo. apply String.eqb_neq in Hb.
  unfold Part000.submitAnswers, AccountGo.submitAnswers,
    Part000.AuthenticatedReq, AccountGo.AuthenticatedReq, authorized, returned in *.
  unfold_go. rewrite Ha, Hq. cbn [Nat.eqb negb].
  rewrite pair_answers_by_position, Ha, Hq. cbn [Nat.leb].
  unfold_go. rewrite Hb. unfold_go. rewrite HDo. unfold_go.
  split; [reflexivity|]. split; [|reflexivity]. eexists. split; reflexivity.
Qed.

End Submission.

(** ** The whole flow *)

Section FlowCost.

Variables (authenticate loadSecurityQuestions : M (option error)).
Variable needToAnswer : M (bool * option error).
Variable submitAnswers : M (option error).

(** A relation between states that is graded by a number. *)
Variable R : nat -> State -> State -> Prop.
Hypothesis R_trans :
  forall n m s s' s'', R n s s' -> R m s' s'' -> R (n + m) s s''.
Hypothesis R_weaken : forall n m s s', n <= m -> R n s s' -> R m s s'.
Hypothesis R_entered : forall m s, R 0 s (entered m s).
Hypothesis R_authenticated : forall s, R 0 s (authenticated s).
Hypothesis authenticate_R : forall s, R 1 s (final (authenticate s)).
Hypothesis loadSecurityQuestions_R : forall s, R 1 s (final (loadSecurityQuestions s)).
Hypothesis needToAnswer_R : forall s, R 1 s (final (needToAnswer s)).
Hypothesis submitAnswers_R : forall s, R 1 s (final (submitAnswers s)).

Lemma R_after {A} (m : M A) (s : State) (o : outcome A) :
  (forall s, R 1 s (final (m s))) -> m s = o -> R 1 s (final o).
Proof. intros H <-. apply H. Qed.

Lemma flow_cost (s : State) :
  R 4 s (final (flow authenticate loadSecurityQuestions needToAnswer submitAnswers s)).
Proof.
  unfold flow.
  cbv beta iota delta [bind call log ret assign get_account].
  fold (entered "MojangAuthenticate" s).
  pose proof (R_entered "MojangAuthenticate" s) as F0.
  set (s0 := entered "MojangAuthenticate" s) in *.
  destruct (authenticate s0) as [[e1|] s1 | why1 s1] eqn:E1;
    pose proof (R_after _ _ _ authenticate_R E1) as F1; cbn [final] in *;
    pose proof (R_trans _ _ _ _ _ F0 F1) as G1;
    try (eapply R_weaken; [|exact G1]; cbn; lia).
  destruct (loadSecurityQuestions s1) as [[e2|] s2 | why2 s2] eqn:E2;
    pose proof (R_after _ _ _ loadSecurityQuestions_R E2) as F2; cbn [final] in *;
    pose proof (R_trans _ _ _ _ _ G1 F2) as G2;
    try (eapply R_weaken; [|exact G2]; cbn; lia).
  destruct (List.length (SecurityQuestions (acct s2)) =? 0)%nat.
  { fold (authenticated s2). cbn [final].
    pose proof (R_trans _ _ _ _ _ G2 (R_authenticated s2)) as G.
    eapply R_weaken; [|exact G]; cbn; lia. }
  destruct (needToAnswer s2) as [[b [e3|]] s3 | why3 s3] eqn:E3;
    pose proof (R_after _ _ _ needToAnswer_R E3) as F3; cbn [final] in *;
    pose proof (R_trans _ _ _ _ _ G2 F3) as G3;
    try (eapply R_weaken; [|exact G3]; cbn; lia).
  destruct b; cbv beta iota delta [negb].
  2: { fold (authenticated s3). cbn [final].
       pose proof (R_trans _ _ _ _ _ G3 (R_authenticated s3)) as G.
       eapply R_weaken; [|exact G]; cbn; lia. }
  destruct (submitAnswers s3) as [[e4|] s4 | why4 s4] eqn:E4;
    pose proof (R_after _ _ _ submitAnswers_R E4) as F4; cbn [final] in *;
    pose proof (R_trans _ _ _ _ _ G3 F4) as G4;
    try (eapply R_weaken; [|exact G4]; cbn; lia).
  fold (authenticated s4). cbn [final].
  pose proof (R_trans _ _ _ _ _ G4 (R_authenticated s4)) as G.
  eapply R_weaken; [|exact G]; cbn; lia.
Qed.

End FlowCost.

Lemma within_trans (n m : nat) (s s' s'' : State) :
  within n s s' -> within m s' s'' -> within (n + m) s s''.
Proof. unfold within. intros H1 H2. repeat split; try lia; intuition congruence. Qed.

Lemma within_weaken (n m : nat) (s s' : State) :
  n <= m -> within n s s' -> within m s s'.
Proof. unfold within. intros H1 H2. repeat split; try lia; intuition congruence. Qed.

Lemma within_entered (m : string) (s : State) : within 0 s (entered m s).
Proof. unfold within. cbn. repeat split; lia. Qed.

Lemma within_authenticated (s : State) : within 0 s (authenticated s).
Proof. unfold within. cbn. repeat split; lia. Qed.

Ltac step_within :=
  intros w [a t e tr]; unfold within; unfold_go; crunch; cbn; repeat split; lia.

Lemma authenticate_within :
  forall w s, within 1 s (final (Part000.authenticate w s)).
Proof. unfold Part000.authenticate. step_within. Qed.

Lemma loadSecurityQuestions_within :
  forall w s, within 1 s (final (Part000.loadSecurityQuestions w s)).
Proof. unfold Part000.loadSecurityQuestions, Part000.AuthenticatedReq. step_within. Qed.

Lemma needToAnswer_within :
  forall w s, within 1 s (final (Part000.needToAnswer w s)).
Proof. unfold Part000.needToAnswer, Part000.AuthenticatedReq. step_within. Qed.

Lemma submitAnswers_within :
  forall w s, within 1 s (final (Part000.submitAnswers w s)).
Proof. unfold Part000.submitAnswers, Part000.AuthenticatedReq. step_within. Qed.

Lemma authenticate_go_within :
  forall w s, within 1 s (final (AccountGo.authenticate w s)).
Proof. unfold AccountGo.authenticate. step_within. Qed.

Lemma loadSecurityQuestions_go_within :
  forall w s, within 1 s (final (AccountGo.loadSecurityQuestions w s)).
Proof. unfold AccountGo.loadSecurityQuestions, AccountGo.AuthenticatedReq. step_within. Qed.

Lemma needToAnswer_go_within :
  forall w s, within 1 s (final (AccountGo.needToAnswer w s)).
Proof. unfold AccountGo.needToAnswer, AccountGo.AuthenticatedReq. step_within. Qed.

Lemma submitAnswers_go_within :
  forall w s, within 1 s (final (AccountGo.submitAnswers w s)).
Proof. unfold AccountGo.submitAnswers, AccountGo.AuthenticatedReq. step_within. Qed.

(** X10. Whatever the provider answers and however it ends, one run of
    [MojangAuthenticate] makes at most four exchanges and leaves the email,
    the password, the answers and the type of the account as the caller
    set them.  So it is in both copies. *)
Theorem MojangAuthenticate_makes_four_exchanges_at_most (w : World) (s : State) :
  within 4 s (final (Part000.MojangAuthenticate w s)) /\
  within 4 s (final (AccountGo.MojangAuthenticate w s)).
Proof.
  split.
  - rewrite MojangAuthenticate_flow.
    apply (flow_cost _ _ _ _ within within_trans within_weaken within_entered
             within_authenticated (authenticate_within w)
             (loadSecurityQuestions_within w) (needToAnswer_within w)
             (submitAnswers_within w)).
  - rewrite MojangAuthenticate_go_flow.
    apply (flow_cost _ _ _ _ within within_trans within_weaken within_entered
             within_authenticated (authenticate_go_within w)
             (loadSecurityQuestions_go_within w) (needToAnswer_go_within w)
             (submitAnswers_go_within w)).
Qed.

Ltac keeps_account :=
  intros w [a t e tr]; unfold_go; crunch; reflexivity.

Lemma needToAnswer_account :
  forall w s, acct (final (Part000.needToAnswer w s)) = acct s.
Proof. unfold Part000.needToAnswer, Part000.AuthenticatedReq. keeps_account. Qed.

Lemma submitAnswers_account :
  forall w s, acct (final (Part000.submitAnswers w s)) = acct s.
Proof. unfold Part000.submitAnswers, Part000.AuthenticatedReq. keeps_account. Qed.

Lemma needToAnswer_go_account :
  forall w s, acct (final (AccountGo.needToAnswer w s)) = acct s.
Proof. unfold AccountGo.needToAnswer, AccountGo.AuthenticatedReq. keeps_account. Qed.

Lemma submitAnswers_go_account :
  forall w s, acct (final (AccountGo.submitAnswers w s)) = acct s.
Proof. unfold AccountGo.submitAnswers, AccountGo.AuthenticatedReq. keeps_account. Qed.

Lemma loadSecurityQuestions_bearer (w : World) (s s' : State) :
  Part000.loadSecurityQuestions w s = Returned None s' ->
  Bearer (acct s) <> EmptyString /\ Bearer (acct s') = Bearer (acct s).
Proof.
  destruct s as [a t e tr].
  unfold Part000.loadSecurityQuestions, Part000.AuthenticatedReq.
  unfold_go. crunch; intros H; inversion H; subst.
  split; [now apply String.eqb_neq | reflexivity].
Qed.

Lemma loadSecurityQuestions_go_bearer (w : World) (s s' : State) :
  AccountGo.loadSecurityQuestions w s = Returned None s' ->
  Bearer (acct s) <> EmptyString /\ Bearer (acct s') = Bearer (acct s).
Proof.
  destruct s as [a t e tr].
  unfold AccountGo.loadSecurityQuestions, AccountGo.AuthenticatedReq.
  unfold_go. crunch; intros H; inversion H; subst.
  split; [now apply String.eqb_neq | reflexivity].
Qed.

Section FlowBearer.

Variables (authenticate loadSecurityQuestions : M (option error)).
Variable needToAnswer : M (bool * option error).
Variable submitAnswers : M (option error).

Hypothesis loadSecurityQuestions_ok :
  forall s s', loadSecurityQuestions s = Returned None s' ->
               Bearer (acct s) <> EmptyString /\ Bearer (acct s') = Bearer (acct s).
Hypothesis needToAnswer_same : forall s, acct (final (needToAnswer s)) = acct s.
Hypothesis submitAnswers_same : forall s, acct (final (submitAnswers s)) = acct s.

Lemma succeeded_with_bearer (s0 s' : State) :
  every_step_succeeded authenticate loadSecurityQuestions needToAnswer submitAnswers
                       s0 s' ->
  Bearer (acct s') <> EmptyString.
Proof.
  intros (s1 & s2 & _ & H2 & H).
  destruct (loadSecurityQuestions_ok _ _ H2) as [Hne Heq].
  assert (Hb2 : Bearer (acct s2) <> EmptyString) by (rewrite Heq; exact Hne).
  destruct H as [[_ ->] | [_ [s3 [[H3 ->] | [H3 [s4 [H4 ->]]]]]]]; cbn [authenticated acct].
  - exact Hb2.
  - pose proof (needToAnswer_same s2) as E. rewrite H3 in E. cbn [final] in E.
    cbn. now rewrite E.
  - pose proof (needToAnswer_same s2) as E3. rewrite H3 in E3. cbn [final] in E3.
    pose proof (submitAnswers_same s3) as E4. rewrite H4 in E4. cbn [final] in E4.
    cbn. now rewrite E4, E3.
Qed.

End FlowBearer.

(** X11. When [MojangAuthenticate] returns without an error the account
    holds a bearer token that is not empty, and the flag is set.  So it is
    in both copies. *)
Theorem authenticated_account_has_a_bearer (w : World) (s s' : State) :
  Part000.MojangAuthenticate w s = Returned None s' \/
  AccountGo.MojangAuthenticate w s = Returned None s' ->
  Bearer (acct s') <> EmptyString /\ Authenticated (acct s') = true.
Proof.
  intros [H | H].
  - rewrite MojangAuthenticate_flow in H.
    destruct (flow_spec _ _ _ _ (authenticate_flag w) (loadSecurityQuestions_flag w)
                (needToAnswer_flag w) (submitAnswers_flag w) s) as [Hok _].
    destruct (Hok _ H) as [Hflag Hsteps]. split; [|exact Hflag].
    apply (succeeded_with_bearer _ _ _ _ (loadSecurityQuestions_bearer w)
             (needToAnswer_account w) (submitAnswers_account w) _ _ Hsteps).
  - rewrite MojangAuthenticate_go_flow in H.
    destruct (flow_spec _ _ _ _ (authenticate_go_flag w)
                (loadSecurityQuestions_go_flag w) (needToAnswer_go_flag w)
                (submitAnswers_go_flag w) s) as [Hok _].
    destruct (Hok _ H) as [Hflag Hsteps]. split; [|exact Hflag].
    apply (succeeded_with_bearer _ _ _ _ (loadSecurityQuestions_go_bearer w)
             (needToAnswer_go_account w) (submitAnswers_go_account w) _ _ Hsteps).
Qed.

(** ** The queries *)

Ltac bool_facts :=
  repeat match goal with
         | H : (_ =? _)%string = true |- _ => apply String.eqb_eq in H
         | H : (_ =? _)%string = false |- _ => apply String.eqb_neq in H
         | H : (_ =? _)%Z = true |- _ => apply Z.eqb_eq in H
         | H : (_ =? _)%Z = false |- _ => apply Z.eqb_neq in H
         | H : (_ <=? _)%Z = true |- _ => apply Z.leb_le in H
         | H : (_ <=? _)%Z = false |- _ => apply Z.leb_gt in H
         | H : (_ <? _)%Z = true |- _ => apply Z.ltb_lt in H
         | H : (_ <? _)%Z = false |- _ => apply Z.ltb_ge in H
         end.

Section Profile.

Variable w : World.
Variable Unmarshal_accInfoResponse : string -> accInfoResponse * option foreign.
Variable ReadAll_partial : foreign -> string.
Variable s : State.

(** X12. [LoadAccountInfo] of [part_000] returns without an error only
    when the provider answered with a status other than 404 and the body
    was read; the account is then the one before the call with [Username]
    and [UUID] taken from what the decoder gave.  When it returns an error
    the account is left as it was, and on status 404 the error is a
    [RequestError] with that status.  The bearer token is never changed. *)
Theorem LoadAccountInfo_sets_profile_or_nothing :
  (forall s',
     Part000Queries.LoadAccountInfo w Unmarshal_accInfoResponse s = Returned None s' ->
     exists resp b,
       http_Do_result w (exchanges s)
         (authorized "GET" "https://api.minecraftservices.com/minecraft/profile" NoBody
            (acct s))
       = DoOk resp /\
       resp_StatusCode resp <> 404%Z /\
       resp_Body resp = inl b /\
       acct s'
       = assign_UUID (accInfo_ID (fst (Unmarshal_accInfoResponse b)))
           (assign_Username (accInfo_Name (fst (Unmarshal_accInfoResponse b))) (acct s))) /\
  (forall e s',
     Part000Queries.LoadAccountInfo w Unmarshal_accInfoResponse s
     = Returned (Some e) s' ->
     acct s' = acct s) /\
  (forall resp,
     Bearer (acct s) <> EmptyString ->
     http_Do_result w (exchanges s)
       (authorized "GET" "https://api.minecraftservices.com/minecraft/profile" NoBody
          (acct s))
     = DoOk resp ->
     resp_StatusCode resp = 404%Z ->
     returned (Part000Queries.LoadAccountInfo w Unmarshal_accInfoResponse s)
     = Some (Some (RequestError 404 (errors_New "account does not own minecraft")))) /\
  same_but_profile (acct s)
    (acct (final (Part000Queries.LoadAccountInfo w Unmarshal_accInfoResponse s))).
Proof.
  destruct s as [a t e tr]. cbn [acct exchanges].
  unfold Part000Queries.LoadAccountInfo, Part000.AuthenticatedReq, authorized,
    same_but_profile, same_but_credentials, returned.
  split; [|split; [|split]].
  - intros s'. unfold_go. crunch; intros H; inversion H; subst. bool_facts.
    do 2 eexists. split; [reflexivity|]. split; [assumption|].
    split; [eassumption|].
    match goal with H : Unmarshal_accInfoResponse _ = _ |- _ => rewrite H end.
    reflexivity.
  - intros err s'. unfold_go. crunch; intros H; inversion H; subst; reflexivity.
  - intros resp Hb HDo Hst. apply String.eqb_neq in Hb.
    unfold_go. rewrite Hb. unfold_go. rewrite HDo. unfold_go. rewrite Hst.
    reflexivity.
  - unfold_go. crunch; cbn; repeat split; reflexivity.
Qed.

(** X13. Every status but 404 counts as a success of [LoadAccountInfo]:
    once the body is read the call returns no error, whatever the status
    (a 401 or a 500 too) and whether or not the JSON decoded, and stores
    what the decoder gave.  In [src/account.go] the error of the read is
    dropped as well: the call returns no error on a body that could not be
    read, while [part_000] returns the error of the read. *)
Theorem LoadAccountInfo_takes_any_status_but_404 (resp : Response) :
  Bearer (acct s) <> EmptyString ->
  http_Do_result w (exchanges s)
    (authorized "GET" "https://api.minecraftservices.com/minecraft/profile" NoBody
       (acct s))
  = DoOk resp ->
  resp_StatusCode resp <> 404%Z ->
  (forall b,
     resp_Body resp = inl b ->
     returned (Part000Queries.LoadAccountInfo w Unmarshal_accInfoResponse s) = Some None /\
     returned (AccountGoQueries.LoadAccountInfo w Unmarshal_accInfoResponse
                 ReadAll_partial s) = Some None /\
     Username (acct (final (Part000Queries.LoadAccountInfo w
                              Unmarshal_accInfoResponse s)))
     = accInfo_Name (fst (Unmarshal_accInfoResponse b)) /\
     Username (acct (final (AccountGoQueries.LoadAccountInfo w
                              Unmarshal_accInfoResponse ReadAll_partial s)))
     = accInfo_Name (fst (Unmarshal_accInfoResponse b))) /\
  (forall err,
     resp_Body resp = inr err ->
     returned (Part000Queries.LoadAccountInfo w Unmarshal_accInfoResponse s)
     = Some (Some (LibError err)) /\
     returned (AccountGoQueries.LoadAccountInfo w Unmarshal_accInfoResponse
                 ReadAll_partial s) = Some None /\
     Username (acct (final (AccountGoQueries.LoadAccountInfo w
                              Unmarshal_accInfoResponse ReadAll_partial s)))
     = accInfo_Name (fst (Unmarshal_accInfoResponse (ReadAll_partial err)))).
Proof.
  destruct s as [a t e tr]. cbn [acct exchanges].
  intros Hb HDo Hst. apply String.eqb_neq in Hb. apply Z.eqb_neq in Hst.
  unfold Part000Queries.LoadAccountInfo, AccountGoQueries.LoadAccountInfo,
    Part000.AuthenticatedReq, AccountGo.AuthenticatedReq, authorized, returned in *.
  split.
  - intros b Hbody. unfold_go. rewrite Hb. unfold_go. rewrite HDo. unfold_go.
    rewrite Hst, Hbody.
    destruct (Unmarshal_accInfoResponse b) as [info err]. unfold_go.
    repeat split; reflexivity.
  - intros err Hbody. unfold_go. rewrite Hb. unfold_go. rewrite HDo. unfold_go.
    rewrite Hst, Hbody.
    destruct (Unmarshal_accInfoResponse (ReadAll_partial err)) as [info derr].
    unfold_go. repeat split; reflexivity.
Qed.

End Profile.

Lemma hasGc_of_true (status : string) :
  hasGc_of status = true <-> status = "DUPLICATE" \/ status = "NOT_ALLOWED".
Proof.
  unfold hasGc_of.
  destruct (String.eqb_spec status "ALREADY_REGISTERED") as [-> | H1];
    [cbn; split; [discriminate | intros [H | H]; discriminate H]|].
  destruct (String.eqb_spec status "NOT_ENTITLED") as [-> | H2];
    [cbn; split; [discriminate | intros [H | H]; discriminate H]|].
  destruct (String.eqb_spec status "DUPLICATE") as [-> | H3];
    [cbn; split; [now left | reflexivity]|].
  destruct (String.eqb_spec status "NOT_ALLOWED") as [-> | H4];
    [cbn; split; [now right | reflexivity]|].
  cbn. split; [discriminate | intros [H | H]; contradiction].
Qed.

Section GiftCode.

Variable w : World.
Variable Unmarshal_HasGcAppliedResp : string -> HasGcAppliedResp * option foreign.
Variable s : State.

(** X14. [HasGcApplied] never changes the account and never returns
    [true] together with an error.  It returns [true] only when the
    provider answered the probe with status 400 and a body that decodes to
    the detail status [DUPLICATE] or [NOT_ALLOWED].  On status 200 and on
    status 401 it fails with a [RequestError] that carries the status; on a
    status other than 200, 400 and 401 it fails with an error that has the
    status in decimal in its text. *)
Theorem HasGcApplied_true_on_duplicate_or_not_allowed :
  (forall b e s',
     Part000Queries.HasGcApplied w Unmarshal_HasGcAppliedResp s = Returned (b, e) s' ->
     acct s' = acct s /\
     (b = true ->
      e = None /\
      exists resp body r,
        http_Do_result w (exchanges s)
          (authorized "POST" "https://api.minecraftservices.com/minecraft/profile"
             (BodyBytes bodyStr) (acct s))
        = DoOk resp /\
        resp_StatusCode resp = 400%Z /\
        resp_Body resp = inl body /\
        Unmarshal_HasGcAppliedResp body = (r, None) /\
        (Details_Status r = "DUPLICATE" \/ Details_Status r = "NOT_ALLOWED"))) /\
  (forall resp,
     Bearer (acct s) <> EmptyString ->
     http_Do_result w (exchanges s)
       (authorized "POST" "https://api.minecraftservices.com/minecraft/profile"
          (BodyBytes bodyStr) (acct s))
     = DoOk resp ->
     (resp_StatusCode resp = 200%Z \/ resp_StatusCode resp = 401%Z ->
      exists text,
        returned (Part000Queries.HasGcApplied w Unmarshal_HasGcAppliedResp s)
        = Some (false, Some (RequestError (resp_StatusCode resp) (errors_New text)))) /\
     (resp_StatusCode resp <> 200%Z -> resp_StatusCode resp <> 401%Z ->
      resp_StatusCode resp <> 400%Z ->
      returned (Part000Queries.HasGcApplied w Unmarshal_HasGcAppliedResp s)
      = Some (false,
              Some (errors_New ("got status " ++ Zitoa (resp_StatusCode resp)
                                ++ ", expected 200, 401, or 400"))))).
Proof.
  destruct s as [a t e tr]. cbn [acct exchanges].
  unfold Part000Queries.HasGcApplied, Part000.AuthenticatedReq, authorized, returned.
  split.
  - intros b err s'. unfold_go. crunch; intros H; inversion H; subst;
      (split; [reflexivity|]); intros Htrue; try discriminate Htrue.
    bool_facts. split; [reflexivity|].
    do 3 eexists. split; [reflexivity|]. split; [assumption|].
    split; [eassumption|]. split; [eassumption|].
    now apply hasGc_of_true.
  - intros resp Hb HDo. apply String.eqb_neq in Hb. split.
    + intros [Hst | Hst]; unfold_go; rewrite Hb; unfold_go; rewrite HDo; unfold_go;
        rewrite Hst; cbn [Z.eqb Pos.eqb]; eexists; reflexivity.
    + intros H200 H401 H400.
      apply Z.eqb_neq in H200. apply Z.eqb_neq in H401. apply Z.eqb_neq in H400.
      unfold_go. rewrite Hb. unfold_go. rewrite HDo. unfold_go.
      rewrite H200, H401, H400. reflexivity.
Qed.

End GiftCode.

Section NameChange.

Variable w : World.
Variable Unmarshal_nameChangeInfoResponse :
  string -> nameChangeInfoResponse * option foreign.
Variable s : State.

(** X15. [NameChangeInfo] never changes the account, and whenever it
    returns an error the information it returns is the zero value.  It
    returns without an error only when the provider answered with a status
    under 400 and a body that was read and decoded.  The body is read
    before the status is looked at: on a status of 400 or more the error is
    a [RequestError] with that status when the body was read, and the
    error of the read when it was not.  So it is in both copies. *)
Theorem NameChangeInfo_is_zero_on_error :
  (forall info e s',
     Part000Queries.NameChangeInfo w Unmarshal_nameChangeInfoResponse s
     = Returned (info, e) s' \/
     AccountGoQueries.NameChangeInfo w Unmarshal_nameChangeInfoResponse s
     = Returned (info, e) s' ->
     acct s' = acct s /\
     (e <> None -> info = zeroNameChangeInfo) /\
     (e = None ->
      exists resp b,
        http_Do_result w (exchanges s)
          (authorized "GET"
             "https://api.minecraftservices.com/minecraft/profile/namechange" NoBody
             (acct s))
        = DoOk resp /\
        (resp_StatusCode resp < 400)%Z /\
        resp_Body resp = inl b /\
        Unmarshal_nameChangeInfoResponse b = (info, None))) /\
  (forall resp,
     Bearer (acct s) <> EmptyString ->
     http_Do_result w (exchanges s)
       (authorized "GET"
          "https://api.minecraftservices.com/minecraft/profile/namechange" NoBody
          (acct s))
     = DoOk resp ->
     (400 <= resp_StatusCode resp)%Z ->
     (forall b,
        resp_Body resp = inl b ->
        returned (Part000Queries.NameChangeInfo w Unmarshal_nameChangeInfoResponse s)
        = Some (zeroNameChangeInfo,
                Some (RequestError (resp_StatusCode resp)
                        (errors_New "failed to grab name change info"))) /\
        returned (AccountGoQueries.NameChangeInfo w Unmarshal_nameChangeInfoResponse s)
        = Some (zeroNameChangeInfo,
                Some (RequestError (resp_StatusCode resp)
                        (errors_New "failed to grab name change info")))) /\
     (forall err,
        resp_Body resp = inr err ->
        returned (Part000Queries.NameChangeInfo w Unmarshal_nameChangeInfoResponse s)
        = Some (zeroNameChangeInfo, Some (LibError err)) /\
        returned (AccountGoQueries.NameChangeInfo w Unmarshal_nameChangeInfoResponse s)
        = Some (zeroNameChangeInfo, Some (LibError err)))).
Proof.
  destruct s as [a t e tr]. cbn [acct exchanges].
  unfold Part000Queries.NameChangeInfo, AccountGoQueries.NameChangeInfo,
    Part000.AuthenticatedReq, AccountGo.AuthenticatedReq, authorized, returned.
  split.
  - intros info err s' [H | H]; revert H; unfold_go; crunch; intros H;
      inversion H; subst; bool_facts;
      (split; [reflexivity|]);
      (split; [intros Hne; first [reflexivity | congruence]|]);
      intros He; try discriminate He;
      do 2 eexists; (split; [reflexivity|]); (split; [assumption|]);
      (split; [eassumption|]); eassumption.
  - intros resp Hb HDo Hst. apply String.eqb_neq in Hb. apply Z.leb_le in Hst.
    split.
    + intros b Hbody. unfold_go. rewrite Hb. unfold_go. rewrite HDo. unfold_go.
      rewrite Hbody, Hst. split; reflexivity.
    + intros err Hbody. unfold_go. rewrite Hb. unfold_go. rewrite HDo. unfold_go.
      rewrite Hbody. split; reflexivity.
Qed.

End NameChange.

(** ** More on the claim *)

Lemma is_digit_value (c : ascii) :
  is_digit c = true -> (0 <= Z.of_nat (nat_of_ascii c - 48) <= 9)%Z.
Proof.
  unfold is_digit. intros H. apply andb_prop in H. destruct H as [H1 H2].
  apply Nat.leb_le in H1. apply Nat.leb_le in H2. lia.
Qed.

(** On three bytes [Atoi] gives a number from -99 to 999, and 0 with
    every error. *)
Lemma Atoi_three_bytes_value (a b c : ascii) :
  (- 99 <= fst (Atoi (String a (String b (String c EmptyString)))) <= 999)%Z /\
  (snd (Atoi (String a (String b (String c EmptyString)))) <> None ->
   fst (Atoi (String a (String b (String c EmptyString)))) = 0%Z).
Proof.
  unfold Atoi, has_sign, is_minus.
  destruct (is_digit a) eqn:Ea, (is_digit b) eqn:Eb, (is_digit c) eqn:Ec,
           (nat_of_ascii a =? 45)%nat eqn:E45, (nat_of_ascii a =? 43)%nat eqn:E43;
    cbn [orb andb drop digits]; rewrite ?Ea, ?Eb, ?Ec;
    try (apply is_digit_value in Ea); try (apply is_digit_value in Eb);
    try (apply is_digit_value in Ec);
    repeat match goal with
           | |- context [(?x <? ?y)%Z] =>
               let E := fresh in
               destruct (x <? y)%Z eqn:E;
               [apply Z.ltb_lt in E; lia | clear E]
           end;
    cbn [fst snd]; (split; [lia | intros H; first [reflexivity | congruence]]).
Qed.

Section StatusLine2.

Variable w : World.
Variable generatePayload :
  string -> string -> list (string * string) -> string -> string * option error.
Variables (username : string) (changeTime : Time) (createProfile : bool).
Variable s : State.

(** X16. On a live connection [ChangeName] of [part_000] returns an error
    exactly when the three bytes at offset 9 of what was read are not two
    digits after a digit or a sign.  The status code of the outcome is
    between -99 and 999, and with an error it is 0, the success boolean is
    false and the receive time is zero. *)
Theorem ChangeName_takes_a_digit_or_a_sign_and_two_digits
  (ret : Part000.NameChangeReturn) (e : option error) (s' : State) :
  tls_Dial_result w = None ->
  Part000.ChangeName w username changeTime createProfile s = Returned (ret, e) s' ->
  (e = None <->
   (is_digit (nth 9 (conn_Read_input w) zero_byte)
    || has_sign (String (nth 9 (conn_Read_input w) zero_byte) EmptyString))
   && is_digit (nth 10 (conn_Read_input w) zero_byte)
   && is_digit (nth 11 (conn_Read_input w) zero_byte) = true) /\
  (- 99 <= Part000.StatusCode ret <= 999)%Z /\
  (e <> None ->
   Part000.StatusCode ret = 0%Z /\ Part000.ChangedName ret = false /\
   Part000.ReceiveTime ret = zeroTime).
Proof.
  intros Hd. rewrite (ChangeName_live _ _ _ _ _ Hd). unfold claim_result, status_bytes.
  pose proof (Atoi_three_bytes (nth 9 (conn_Read_input w) zero_byte)
                (nth 10 (conn_Read_input w) zero_byte)
                (nth 11 (conn_Read_input w) zero_byte)) as Hchar.
  pose proof (Atoi_three_bytes_value (nth 9 (conn_Read_input w) zero_byte)
                (nth 10 (conn_Read_input w) zero_byte)
                (nth 11 (conn_Read_input w) zero_byte)) as [Hrange _].
  destruct (Atoi _) as [status [err|]]; cbn [fst snd] in *;
    intros H; inversion H; subst; cbn.
  - split; [|split].
    + rewrite <- Hchar. split; discriminate.
    + lia.
    + intros _. repeat split.
  - split; [|split].
    + rewrite <- Hchar. split; reflexivity.
    + exact Hrange.
    + congruence.
Qed.

(** X17. Once the payload is generated and the connection is live,
    [ChangeName] of [src/account.go] never returns an error: when the three
    bytes are not a number it reports the status code 0 with the success
    boolean true. *)
Theorem ChangeName_go_reports_a_malformed_status_as_success (payload : string) :
  generated generatePayload (Bearer (acct s)) username createProfile = (payload, None) ->
  tls_Dial_result w = None ->
  exists ret s',
    AccountGo.ChangeName w generatePayload username changeTime createProfile s
    = Returned (ret, None) s' /\
    ((is_digit (nth 9 (conn_Read_input w) zero_byte)
      || has_sign (String (nth 9 (conn_Read_input w) zero_byte) EmptyString))
     && is_digit (nth 10 (conn_Read_input w) zero_byte)
     && is_digit (nth 11 (conn_Read_input w) zero_byte) = false ->
     AccountGo.statusCode ret = 0%Z /\ AccountGo.changedName ret = true).
Proof.
  intros Hg Hd. rewrite (ChangeName_go_live _ _ _ _ _ _ payload Hg Hd).
  do 2 eexists. split; [reflexivity|].
  unfold claim_result_go, status_bytes. cbn [AccountGo.statusCode AccountGo.changedName].
  intros Hbad.
  pose proof (Atoi_three_bytes (nth 9 (conn_Read_input w) zero_byte)
                (nth 10 (conn_Read_input w) zero_byte)
                (nth 11 (conn_Read_input w) zero_byte)) as Hchar.
  pose proof (Atoi_three_bytes_value (nth 9 (conn_Read_input w) zero_byte)
                (nth 10 (conn_Read_input w) zero_byte)
                (nth 11 (conn_Read_input w) zero_byte)) as [_ Hzero].
  rewrite Hzero; [split; reflexivity|].
  intros Hnone. apply Hchar in Hnone. congruence.
Qed.

End StatusLine2.

Lemma append_cancel_l (a b c : string) : a ++ b = a ++ c -> b = c.
Proof. induction a as [|x a IH]; cbn; intros H; [exact H | inversion H; auto]. Qed.

Lemma append_cancel_r (a b c : string) : a ++ c = b ++ c -> a = b.
Proof.
  revert b; induction a as [|x a IH]; intros [|y b] H; cbn in H.
  - reflexivity.
  - apply (f_equal String.length) in H. cbn in H. rewrite length_append in H. lia.
  - apply (f_equal String.length) in H. cbn in H. rewrite length_append in H. lia.
  - inversion H; subst. f_equal. now apply IH.
Qed.

Lemma closes_app (a b : list event) : closes (a ++ b)%list = closes a + closes b.
Proof.
  induction a as [|e a IH]; [reflexivity|].
  destruct e; cbn [closes List.app]; rewrite ?IH; reflexivity.
Qed.

Section Shapes.

Variable w : World.
Variable generatePayload :
  string -> string -> list (string * string) -> string -> string * option error.
Variables (changeTime : Time) (createProfile : bool).
Variable s : State.

(** X18. Asked for a rename ([createProfile] false), [ChangeName1] sends
    a request in which the name does not occur: two calls with different
    names do the same things, byte for byte.  The rename request of
    [ChangeName] tells the names apart: two names give the same request
    only if they are the same name. *)
Theorem ChangeName1_rename_leaves_the_name_out (u1 u2 : string) :
  trace (final (Part000.ChangeName1 w u1 changeTime false s))
  = trace (final (Part000.ChangeName1 w u2 changeTime false s)) /\
  (Part000.ChangeName_payload (Bearer (acct s)) u1 false
   = Part000.ChangeName_payload (Bearer (acct s)) u2 false ->
   u1 = u2).
Proof.
  split.
  - destruct (tls_Dial_result w) as [err|] eqn:Hd.
    + now rewrite !(ChangeName1_dial_failed _ _ _ _ _ err Hd).
    + now rewrite !(ChangeName1_live _ _ _ _ _ Hd).
  - unfold Part000.ChangeName_payload. intros H.
    apply append_cancel_l in H. now apply append_cancel_r in H.
Qed.

(** X19. On a live connection [ChangeName] and [ChangeName1] of
    [part_000] close the connection once, whether the status was read or
    not.  [ChangeName] of [src/account.go] never closes it, however the
    call ends. *)
Theorem connection_is_closed_in_part_000_only (username : string) :
  (tls_Dial_result w = None ->
   closes (trace (final (Part000.ChangeName w username changeTime createProfile s)))
   = closes (trace s) + 1 /\
   closes (trace (final (Part000.ChangeName1 w username changeTime createProfile s)))
   = closes (trace s) + 1) /\
  closes (trace (final (AccountGo.ChangeName w generatePayload username changeTime
                          createProfile s)))
  = closes (trace s).
Proof.
  split.
  - intros Hd.
    rewrite (ChangeName_live _ _ _ _ _ Hd), (ChangeName1_live _ _ _ _ _ Hd).
    cbn [final advanced trace]. rewrite !closes_app. split; reflexivity.
  - destruct (generated generatePayload (Bearer (acct s)) username createProfile)
      as [payload [ge|]] eqn:Eg.
    + rewrite (ChangeName_go_refused _ _ _ _ _ _ payload ge Eg).
      cbn [final entered trace]. rewrite closes_app. cbn. lia.
    + destruct (tls_Dial_result w) as [err|] eqn:Hd.
      * rewrite (ChangeName_go_dial_failed _ _ _ _ _ _ payload err Eg Hd).
        cbn [final advanced trace]. rewrite closes_app.
        unfold early_wait. destruct (After _ _); cbn; lia.
      * rewrite (ChangeName_go_live _ _ _ _ _ _ payload Eg Hd).
        cbn [final advanced trace]. rewrite closes_app.
        unfold claim_events_go, early_wait. destruct (After _ _); cbn; lia.
Qed.

(** X20. With a clock that does not go back between the reading after
    the second write and the reading after the read, the send time of an
    outcome that [ChangeName] returns without an error is not after its
    receive time.  So it is in [part_000] and in [src/account.go]. *)
Theorem send_time_is_not_after_receive_time (username : string) :
  (forall n, (clock w n <= clock w (S n))%Z) ->
  (forall ret s',
     Part000.ChangeName w username changeTime createProfile s = Returned (ret, None) s' ->
     (Part000.SendTime ret <= Part000.ReceiveTime ret)%Z) /\
  (forall ret s',
     AccountGo.ChangeName w generatePayload username changeTime createProfile s
     = Returned (ret, None) s' ->
     (AccountGo.sendTime ret <= AccountGo.receiveTime ret)%Z).
Proof.
  intros Hmono. split.
  - intros ret s'. destruct (tls_Dial_result w) as [err|] eqn:Hd.
    + rewrite (ChangeName_dial_failed _ _ _ _ _ err Hd). discriminate.
    + rewrite (ChangeName_live _ _ _ _ _ Hd). unfold claim_result.
      destruct (Atoi _) as [status [e|]]; intros H; inversion H; subst; cbn.
      apply (Hmono (2 + ticks s)).
  - intros ret s'.
    destruct (generated generatePayload (Bearer (acct s)) username createProfile)
      as [payload [ge|]] eqn:Eg.
    + rewrite (ChangeName_go_refused _ _ _ _ _ _ payload ge Eg). discriminate.
    + destruct (tls_Dial_result w) as [err|] eqn:Hd.
      * rewrite (ChangeName_go_dial_failed _ _ _ _ _ _ payload err Eg Hd). discriminate.
      * rewrite (ChangeName_go_live _ _ _ _ _ _ payload Eg Hd). unfold claim_result_go.
        intros H; inversion H; subst; cbn.
        replace (early_readings w s changeTime + S (S (ticks s)))
          with (S (early_readings w s changeTime + S (ticks s))) by lia.
        apply Hmono.
Qed.

End Shapes.

(** ** The further properties at concrete inputs *)

Lemma no_bearer_no_exchange_witness :
  Bearer (acct (init Scenario.alex)) = EmptyString /\
  Part000.loadSecurityQuestions (Scenario.login_world [] 204 204) (init Scenario.alex)
  = Returned (Some NotAuthenticated)
      (advanced (init Scenario.alex) 0 0
         [EvCall "loadSecurityQuestions"; EvCall "AuthenticatedReq"]).
Proof.
  split; [reflexivity|].
  exact (proj1 (proj1
           (no_bearer_no_exchange (Scenario.login_world [] 204 204)
              Scenario2.decode_profile Scenario2.decode_duplicate
              Scenario2.decode_namechange Scenario2.nothing_read
              (init Scenario.alex) eq_refl))).
Defined.

Lemma undecodable_credentials_witness :
  http_Do_result Scenario2.undecodable (exchanges (init Scenario.alex))
    (authenticate_request (acct (init Scenario.alex)))
  = DoOk (mkResponse 200 "200 OK" (inl "{")) /\
  (resp_StatusCode (mkResponse 200 "200 OK" (inl "{")) < 300)%Z /\
  resp_Body (mkResponse 200 "200 OK" (inl "{")) = inl "{" /\
  Unmarshal_authenticateReqResp Scenario2.undecodable "{"
  = (mkAuthResp EmptyString EmptyString EmptyString EmptyString,
     Some Scenario2.bad_json) /\
  returned (AccountGo.authenticate Scenario2.undecodable (init Scenario.alex))
  = Some None.
Proof.
  assert (H2 : (resp_StatusCode (mkResponse 200 "200 OK" (inl "{")) < 300)%Z)
    by (cbn; lia).
  split; [reflexivity|]. split; [exact H2|]. split; [reflexivity|].
  split; [reflexivity|].
  exact (proj1 (proj2
           (undecodable_credentials Scenario2.undecodable (init Scenario.alex)
              (mkResponse 200 "200 OK" (inl "{")) "{"
              (mkAuthResp EmptyString EmptyString EmptyString EmptyString)
              Scenario2.bad_json eq_refl H2 eq_refl eq_refl))).
Defined.

Lemma loadSecurityQuestions_sets_questions_or_nothing_witness :
  Bearer (acct (init Scenario2.ready)) <> EmptyString /\
  http_Do_result (Scenario2.answering 500 (inl EmptyString))
    (exchanges (init Scenario2.ready)) (challenges_request (acct (init Scenario2.ready)))
  = DoOk (mkResponse 500 "status" (inl EmptyString)) /\
  (400 <= resp_StatusCode (mkResponse 500 "status" (inl EmptyString)))%Z /\
  returned (Part000.loadSecurityQuestions (Scenario2.answering 500 (inl EmptyString))
              (init Scenario2.ready))
  = Some (Some (errors_New
                  ("got status "
                   ++ resp_Status (mkResponse 500 "status" (inl EmptyString))
                   ++ " when requesting security questions"))).
Proof.
  assert (H1 : Bearer (acct (init Scenario2.ready)) <> EmptyString)
    by (cbn; discriminate).
  assert (H3 : (400 <= resp_StatusCode (mkResponse 500 "status" (inl EmptyString)))%Z)
    by (cbn; lia).
  split; [exact H1|]. split; [reflexivity|]. split; [exact H3|].
  exact (proj1 (proj2 (proj2
           (loadSecurityQuestions_sets_questions_or_nothing
              (Scenario2.answering 500 (inl EmptyString)) (init Scenario2.ready)))
           _ H1 eq_refl H3)).
Defined.

Lemma needToAnswer_says_no_on_204_only_witness :
  Part000.needToAnswer (Scenario2.answering 204 (inl EmptyString)) (init Scenario2.ready)
  = Returned (false, None)
      (final (Part000.needToAnswer (Scenario2.answering 204 (inl EmptyString))
                (init Scenario2.ready))) /\
  acct (final (Part000.needToAnswer (Scenario2.answering 204 (inl EmptyString))
                 (init Scenario2.ready)))
  = acct (init Scenario2.ready).
Proof.
  assert (H : Part000.needToAnswer (Scenario2.answering 204 (inl EmptyString))
                (init Scenario2.ready)
              = Returned (false, None)
                  (final (Part000.needToAnswer
                            (Scenario2.answering 204 (inl EmptyString))
                            (init Scenario2.ready))))
    by (vm_compute; reflexivity).
  split; [exact H|].
  exact (proj1
           (needToAnswer_says_no_on_204_only
              (Scenario2.answering 204 (inl EmptyString)) (init Scenario2.ready)
              false None _ (or_introl H))).
Defined.

Lemma answers_are_paired_by_position_witness :
  List.length Scenario.three_questions <= List.length ["a"; "b"; "c"] /\
  pair_answers Scenario.three_questions ["a"; "b"; "c"] 0
  = Some (paired Scenario.three_questions ["a"; "b"; "c"]).
Proof.
  assert (H : List.length Scenario.three_questions <= List.length ["a"; "b"; "c"])
    by (cbn; lia).
  split; [exact H|].
  exact (proj1 (proj1
           (answers_are_paired_by_position Scenario.three_questions ["a"; "b"; "c"]) H)).
Defined.

Lemma submitAnswers_posts_the_pairs_witness :
  List.length (SecurityAnswers (acct (init Scenario2.ready))) = 3 /\
  List.length (SecurityQuestions (acct (init Scenario2.ready))) = 3 /\
  Bearer (acct (init Scenario2.ready)) <> EmptyString /\
  requests (trace (final (Part000.submitAnswers
                            (Scenario2.answering 204 (inl EmptyString))
                            (init Scenario2.ready))))
  = (requests (trace (init Scenario2.ready))
     ++ [authorized "POST" "https://api.mojang.com/user/security/location"
           (BodyAnswers (paired (SecurityQuestions (acct (init Scenario2.ready)))
                                (SecurityAnswers (acct (init Scenario2.ready)))))
           (acct (init Scenario2.ready))])%list.
Proof.
  assert (H3 : Bearer (acct (init Scenario2.ready)) <> EmptyString)
    by (cbn; discriminate).
  split; [reflexivity|]. split; [reflexivity|]. split; [exact H3|].
  exact (proj1 (proj2 (proj2
           (submitAnswers_posts_the_pairs
              (Scenario2.answering 204 (inl EmptyString)) (init Scenario2.ready)))
           eq_refl eq_refl H3)).
Defined.

Lemma submitAnswers_go_panics_on_transport_failure_witness :
  List.length (SecurityAnswers (acct (init Scenario2.ready))) = 3 /\
  List.length (SecurityQuestions (acct (init Scenario2.ready))) = 3 /\
  Bearer (acct (init Scenario2.ready)) <> EmptyString /\
  http_Do_result Scenario.ok_world (exchanges (init Scenario2.ready))
    (authorized "POST" "https://api.mojang.com/user/security/location"
       (BodyAnswers (paired (SecurityQuestions (acct (init Scenario2.ready)))
                            (SecurityAnswers (acct (init Scenario2.ready)))))
       (acct (init Scenario2.ready)))
  = DoFailed Scenario.offline /\
  returned (Part000.submitAnswers Scenario.ok_world (init Scenario2.ready))
  = Some (Some (LibError Scenario.offline)).
Proof.
  assert (H3 : Bearer (acct (init Scenario2.ready)) <> EmptyString)
    by (cbn; discriminate).
  split; [reflexivity|]. split; [reflexivity|]. split; [exact H3|].
  split; [reflexivity|].
  exact (proj1
           (submitAnswers_go_panics_on_transport_failure Scenario.ok_world
              (init Scenario2.ready) Scenario.offline eq_refl eq_refl H3 eq_refl)).
Defined.

Lemma authenticated_account_has_a_bearer_witness :
  Part000.MojangAuthenticate (Scenario.login_world Scenario.three_questions 403 204)
                             (init Scenario.alex)
  = Returned None
      (final (Part000.MojangAuthenticate
                (Scenario.login_world Scenario.three_questions 403 204)
                (init Scenario.alex))) /\
  Bearer (acct (final (Part000.MojangAuthenticate
                         (Scenario.login_world Scenario.three_questions 403 204)
                         (init Scenario.alex))))
  <> EmptyString.
Proof.
  assert (H : Part000.MojangAuthenticate
                (Scenario.login_world Scenario.three_questions 403 204)
                (init Scenario.alex)
              = Returned None
                  (final (Part000.MojangAuthenticate
                            (Scenario.login_world Scenario.three_questions 403 204)
                            (init Scenario.alex))))
    by (vm_compute; reflexivity).
  split; [exact H|].
  exact (proj1
           (authenticated_account_has_a_bearer
              (Scenario.login_world Scenario.three_questions 403 204)
              (init Scenario.alex) _ (or_introl H))).
Defined.

Lemma authenticate_sets_credentials_or_nothing_witness :
  Part000.authenticate (Scenario2.answering 200 (inl "{}")) (init Scenario.alex)
  = Returned None
      (final (Part000.authenticate (Scenario2.answering 200 (inl "{}"))
                (init Scenario.alex))) /\
  exists resp b info,
    http_Do_result (Scenario2.answering 200 (inl "{}")) (exchanges (init Scenario.alex))
      (authenticate_request (acct (init Scenario.alex))) = DoOk resp /\
    (resp_StatusCode resp < 300)%Z /\
    resp_Body resp = inl b /\
    Unmarshal_authenticateReqResp (Scenario2.answering 200 (inl "{}")) b = (info, None) /\
    acct (final (Part000.authenticate (Scenario2.answering 200 (inl "{}"))
                   (init Scenario.alex)))
    = assign_UUID (User_ID info)
        (assign_Username (User_Username info)
           (assign_Bearer (Accesstoken info) (acct (init Scenario.alex)))).
Proof.
  assert (H : Part000.authenticate (Scenario2.answering 200 (inl "{}"))
                (init Scenario.alex)
              = Returned None
                  (final (Part000.authenticate (Scenario2.answering 200 (inl "{}"))
                            (init Scenario.alex))))
    by (vm_compute; reflexivity).
  split; [exact H|].
  exact (proj1
           (authenticate_sets_credentials_or_nothing
              (Scenario2.answering 200 (inl "{}")) (init Scenario.alex))
           _ H).
Defined.

Lemma LoadAccountInfo_sets_profile_or_nothing_witness :
  Bearer (acct (init Scenario2.ready)) <> EmptyString /\
  http_Do_result (Scenario2.answering 404 (inl EmptyString))
    (exchanges (init Scenario2.ready))
    (authorized "GET" "https://api.minecraftservices.com/minecraft/profile" NoBody
       (acct (init Scenario2.ready)))
  = DoOk (mkResponse 404 "status" (inl EmptyString)) /\
  resp_StatusCode (mkResponse 404 "status" (inl EmptyString)) = 404%Z /\
  returned (Part000Queries.LoadAccountInfo (Scenario2.answering 404 (inl EmptyString))
              Scenario2.decode_profile (init Scenario2.ready))
  = Some (Some (RequestError 404 (errors_New "account does not own minecraft"))).
Proof.
  assert (H1 : Bearer (acct (init Scenario2.ready)) <> EmptyString)
    by (cbn; discriminate).
  split; [exact H1|]. split; [reflexivity|]. split; [reflexivity|].
  exact (proj1 (proj2 (proj2
           (LoadAccountInfo_sets_profile_or_nothing
              (Scenario2.answering 404 (inl EmptyString)) Scenario2.decode_profile
              (init Scenario2.ready))))
           _ H1 eq_refl eq_refl).
Defined.

Lemma LoadAccountInfo_takes_any_status_but_404_witness :
  Bearer (acct (init Scenario2.ready)) <> EmptyString /\
  http_Do_result (Scenario2.answering 500 (inr Scenario2.reset))
    (exchanges (init Scenario2.ready))
    (authorized "GET" "https://api.minecraftservices.com/minecraft/profile" NoBody
       (acct (init Scenario2.ready)))
  = DoOk (mkResponse 500 "status" (inr Scenario2.reset)) /\
  resp_StatusCode (mkResponse 500 "status" (inr Scenario2.reset)) <> 404%Z /\
  resp_Body (mkResponse 500 "status" (inr Scenario2.reset)) = inr Scenario2.reset /\
  returned (AccountGoQueries.LoadAccountInfo
              (Scenario2.answering 500 (inr Scenario2.reset))
              Scenario2.decode_profile Scenario2.nothing_read (init Scenario2.ready))
  = Some None.
Proof.
  assert (H1 : Bearer (acct (init Scenario2.ready)) <> EmptyString)
    by (cbn; discriminate).
  assert (H3 : resp_StatusCode (mkResponse 500 "status" (inr Scenario2.reset)) <> 404%Z)
    by (cbn; lia).
  split; [exact H1|]. split; [reflexivity|]. split; [exact H3|].
  split; [reflexivity|].
  exact (proj1 (proj2
           (proj2
              (LoadAccountInfo_takes_any_status_but_404
                 (Scenario2.answering 500 (inr Scenario2.reset))
                 Scenario2.decode_profile Scenario2.nothing_read
                 (init Scenario2.ready)
                 (mkResponse 500 "status" (inr Scenario2.reset)) H1 eq_refl H3)
              Scenario2.reset eq_refl))).
Defined.

Lemma HasGcApplied_true_on_duplicate_or_not_allowed_witness :
  Part000Queries.HasGcApplied (Scenario2.answering 400 (inl "{}"))
    Scenario2.decode_duplicate (init Scenario2.ready)
  = Returned (true, None)
      (final (Part000Queries.HasGcApplied (Scenario2.answering 400 (inl "{}"))
                Scenario2.decode_duplicate (init Scenario2.ready))) /\
  acct (final (Part000Queries.HasGcApplied (Scenario2.answering 400 (inl "{}"))
                 Scenario2.decode_duplicate (init Scenario2.ready)))
  = acct (init Scenario2.ready).
Proof.
  assert (H : Part000Queries.HasGcApplied (Scenario2.answering 400 (inl "{}"))
                Scenario2.decode_duplicate (init Scenario2.ready)
              = Returned (true, None)
                  (final (Part000Queries.HasGcApplied
                            (Scenario2.answering 400 (inl "{}"))
                            Scenario2.decode_duplicate (init Scenario2.ready))))
    by (vm_compute; reflexivity).
  split; [exact H|].
  exact (proj1 (proj1
           (HasGcApplied_true_on_duplicate_or_not_allowed
              (Scenario2.answering 400 (inl "{}")) Scenario2.decode_duplicate
              (init Scenario2.ready))
           true None _ H)).
Defined.

Lemma NameChangeInfo_is_zero_on_error_witness :
  Bearer (acct (init Scenario2.ready)) <> EmptyString /\
  http_Do_result (Scenario2.answering 403 (inl EmptyString))
    (exchanges (init Scenario2.ready))
    (authorized "GET" "https://api.minecraftservices.com/minecraft/profile/namechange"
       NoBody (acct (init Scenario2.ready)))
  = DoOk (mkResponse 403 "status" (inl EmptyString)) /\
  (400 <= resp_StatusCode (mkResponse 403 "status" (inl EmptyString)))%Z /\
  resp_Body (mkResponse 403 "status" (inl EmptyString)) = inl EmptyString /\
  returned (Part000Queries.NameChangeInfo (Scenario2.answering 403 (inl EmptyString))
              Scenario2.decode_namechange (init Scenario2.ready))
  = Some (zeroNameChangeInfo,
          Some (RequestError
                  (resp_StatusCode (mkResponse 403 "status" (inl EmptyString)))
                  (errors_New "failed to grab name change info"))).
Proof.
  assert (H1 : Bearer (acct (init Scenario2.ready)) <> EmptyString)
    by (cbn; discriminate).
  assert (H3 : (400 <= resp_StatusCode (mkResponse 403 "status" (inl EmptyString)))%Z)
    by (cbn; lia).
  split; [exact H1|]. split; [reflexivity|]. split; [exact H3|].
  split; [reflexivity|].
  exact (proj1
           (proj1
              (proj2
                 (NameChangeInfo_is_zero_on_error
                    (Scenario2.answering 403 (inl EmptyString))
                    Scenario2.decode_namechange (init Scenario2.ready))
                 _ H1 eq_refl H3)
              EmptyString eq_refl)).
Defined.

Lemma ChangeName_takes_a_digit_or_a_sign_and_two_digits_witness :
  tls_Dial_result Scenario.truncated_world = None /\
  Part000.ChangeName Scenario.truncated_world "Notch" Scenario.in_a_minute false
                     (init Scenario.steve)
  = Returned
      (Part000.mkNameChangeReturn zeroMCaccount "Notch" false 0%Z
         (Scenario.ticking Scenario.autumn_2026 2) zeroTime,
       Some (syntaxError (status_bytes (conn_Read_input Scenario.truncated_world))))
      (final (Part000.ChangeName Scenario.truncated_world "Notch" Scenario.in_a_minute
                false (init Scenario.steve))) /\
  (- 99 <= Part000.StatusCode
             (Part000.mkNameChangeReturn zeroMCaccount "Notch" false 0%Z
                (Scenario.ticking Scenario.autumn_2026 2) zeroTime) <= 999)%Z.
Proof.
  assert (H : Part000.ChangeName Scenario.truncated_world "Notch" Scenario.in_a_minute
                false (init Scenario.steve)
              = Returned
                  (Part000.mkNameChangeReturn zeroMCaccount "Notch" false 0%Z
                     (Scenario.ticking Scenario.autumn_2026 2) zeroTime,
                   Some (syntaxError
                           (status_bytes (conn_Read_input Scenario.truncated_world))))
                  (final (Part000.ChangeName Scenario.truncated_world "Notch"
                            Scenario.in_a_minute false (init Scenario.steve))))
    by (vm_compute; reflexivity).
  split; [reflexivity|]. split; [exact H|].
  exact (proj1 (proj2
           (ChangeName_takes_a_digit_or_a_sign_and_two_digits
              Scenario.truncated_world "Notch" Scenario.in_a_minute false
              (init Scenario.steve) _ _ _ eq_refl H))).
Defined.

Lemma ChangeName_go_reports_a_malformed_status_as_success_witness :
  generated Scenario.sample_generatePayload (Bearer (acct (init Scenario.steve)))
            "Notch" false
  = (fst (generated Scenario.sample_generatePayload
            (Bearer (acct (init Scenario.steve))) "Notch" false), None) /\
  tls_Dial_result Scenario.truncated_world = None /\
  exists ret s',
    AccountGo.ChangeName Scenario.truncated_world Scenario.sample_generatePayload
                         "Notch" Scenario.in_a_minute false (init Scenario.steve)
    = Returned (ret, None) s' /\
    ((is_digit (nth 9 (conn_Read_input Scenario.truncated_world) zero_byte)
      || has_sign (String (nth 9 (conn_Read_input Scenario.truncated_world) zero_byte)
                          EmptyString))
     && is_digit (nth 10 (conn_Read_input Scenario.truncated_world) zero_byte)
     && is_digit (nth 11 (conn_Read_input Scenario.truncated_world) zero_byte) = false ->
     AccountGo.statusCode ret = 0%Z /\ AccountGo.changedName ret = true).
Proof.
  split; [reflexivity|]. split; [reflexivity|].
  exact (ChangeName_go_reports_a_malformed_status_as_success
           Scenario.truncated_world Scenario.sample_generatePayload "Notch"
           Scenario.in_a_minute false (init Scenario.steve)
           (fst (generated Scenario.sample_generatePayload
                   (Bearer (acct (init Scenario.steve))) "Notch" false))
           eq_refl eq_refl).
Defined.

Lemma ChangeName1_rename_leaves_the_name_out_witness :
  Part000.ChangeName_payload (Bearer (acct (init Scenario.steve))) "Notch" false
  = Part000.ChangeName_payload (Bearer (acct (init Scenario.steve))) "Notch" false /\
  "Notch" = "Notch".
Proof.
  split; [reflexivity|].
  exact (proj2
           (ChangeName1_rename_leaves_the_name_out Scenario.ok_world
              Scenario.in_a_minute (init Scenario.steve) "Notch" "Notch")
           eq_refl).
Defined.

Lemma connection_is_closed_in_part_000_only_witness :
  tls_Dial_result Scenario.ok_world = None /\
  closes (trace (final (Part000.ChangeName Scenario.ok_world "Notch"
                          Scenario.in_a_minute false (init Scenario.steve))))
  = closes (trace (init Scenario.steve)) + 1.
Proof.
  split; [reflexivity|].
  exact (proj1 (proj1
           (connection_is_closed_in_part_000_only Scenario.ok_world
              Scenario.sample_generatePayload Scenario.in_a_minute false
              (init Scenario.steve) "Notch")
           eq_refl)).
Defined.

Lemma send_time_is_not_after_receive_time_witness :
  (forall n, (clock Scenario.ok_world n <= clock Scenario.ok_world (S n))%Z) /\
  Part000.ChangeName Scenario.ok_world "Notch" Scenario.in_a_minute false
                     (init Scenario.steve)
  = Returned
      (Part000.mkNameChangeReturn Scenario.steve "Notch" true 200%Z
         (Scenario.ticking Scenario.autumn_2026 2)
         (Scenario.ticking Scenario.autumn_2026 3), None)
      (final (Part000.ChangeName Scenario.ok_world "Notch" Scenario.in_a_minute false
                (init Scenario.steve))) /\
  (Part000.SendTime
     (Part000.mkNameChangeReturn Scenario.steve "Notch" true 200%Z
        (Scenario.ticking Scenario.autumn_2026 2)
        (Scenario.ticking Scenario.autumn_2026 3))
   <= Part000.ReceiveTime
        (Part000.mkNameChangeReturn Scenario.steve "Notch" true 200%Z
           (Scenario.ticking Scenario.autumn_2026 2)
           (Scenario.ticking Scenario.autumn_2026 3)))%Z.
Proof.
  assert (Hmono : forall n,
             (clock Scenario.ok_world n <= clock Scenario.ok_world (S n))%Z)
    by (intros n; cbn [clock Scenario.ok_world Scenario.claim_world];
        unfold Scenario.ticking; lia).
  assert (H : Part000.ChangeName Scenario.ok_world "Notch" Scenario.in_a_minute false
                (init Scenario.steve)
              = Returned
                  (Part000.mkNameChangeReturn Scenario.steve "Notch" true 200%Z
                     (Scenario.ticking Scenario.autumn_2026 2)
                     (Scenario.ticking Scenario.autumn_2026 3), None)
                  (final (Part000.ChangeName Scenario.ok_world "Notch"
                            Scenario.in_a_minute false (init Scenario.steve))))
    by (vm_compute; reflexivity).
  split; [exact Hmono|]. split; [exact H|].
  exact (proj1
           (send_time_is_not_after_receive_time Scenario.ok_world
              Scenario.sample_generatePayload Scenario.in_a_minute false
              (init Scenario.steve) "Notch" Hmono)
           _ _ H).
Defined.
